(** * Evidence extraction and scoring of the Reddit scrapers

    A shallow embedding of the computational core of [run.py] (the
    single-thread scraper, "Strategy A") and of [scrape_reddit_agents.py]
    (the search scraper, "Strategy B"): the money and quantity patterns, the
    two monetary normalizers, the two scoring functions, the construction of
    evidence records, and the deduplication and ranking of the records.

    Python strings are sequences of Unicode code points and are modelled as
    lists of code points.  White space ([str.isspace], the class [\s]), the
    decimal digits (the class [\d], the digits that [float] reads), the
    word characters (the class [\w], on which [\b] rests) and [str.lower]
    are modelled on the whole of Unicode, with the tables of Unicode 14.0
    (CPython 3.11).  The flag [re.I] is modelled for patterns whose
    characters lie in U+0000..U+00FF and whose classes hold no letter, as
    those of the program do. *)

From Stdlib Require Import String Ascii.
From Stdlib Require Import NArith ZArith List Bool Lia.
From Stdlib Require Import Permutation Sorted.
From Stdlib Require Import SpecFloat.
From Stdlib Require DecimalString.
Import ListNotations.

(* ------------------------------------------------------------------ *)
(** * Characters and strings *)

Module Py.

Local Open Scope N_scope.

Definition char := N.
Definition str := list char.

Definition chr_eqb (a b : char) : bool := N.eqb a b.

Fixpoint str_eqb (a b : str) : bool :=
  match a, b with
  | [], [] => true
  | x :: a', y :: b' => chr_eqb x y && str_eqb a' b'
  | _, _ => false
  end.

Definition between (lo hi c : char) : bool := (N.leb lo c && N.leb c hi)%bool.

(** UTF-8 decoding, used only to write the literals of the source. *)
Fixpoint utf8_decode (bs : list N) : str :=
  match bs with
  | [] => []
  | b :: t =>
      if N.ltb b 128 then b :: utf8_decode t
      else if N.ltb b 224 then
        match t with
        | b2 :: t2 => (N.modulo b 32 * 64 + N.modulo b2 64)%N :: utf8_decode t2
        | _ => [b]
        end
      else if N.ltb b 240 then
        match t with
        | b2 :: b3 :: t3 =>
            (N.modulo b 16 * 4096 + N.modulo b2 64 * 64 + N.modulo b3 64)%N
              :: utf8_decode t3
        | _ => [b]
        end
      else
        match t with
        | b2 :: b3 :: b4 :: t4 =>
            (N.modulo b 8 * 262144 + N.modulo b2 64 * 4096
             + N.modulo b3 64 * 64 + N.modulo b4 64)%N :: utf8_decode t4
        | _ => [b]
        end
  end.

(** [u "text"] is the Python string literal ["text"]. *)
Definition u (s : string) : str :=
  utf8_decode (List.map N_of_ascii (list_ascii_of_string s)).

(** [str.isspace], which is also the class [\s] of a [str] pattern. *)
Definition is_space (c : char) : bool :=
  between 9 13 c || between 28 32 c || chr_eqb c 133 || chr_eqb c 160
  || chr_eqb c 5760 || between 8192 8202 c || chr_eqb c 8232
  || chr_eqb c 8233 || chr_eqb c 8239 || chr_eqb c 8287 || chr_eqb c 12288.

(** The decimal digits of Unicode (the category Nd, [str.isdecimal]) come
    in runs of ten, from the digit zero to the digit nine of a script;
    these are the zeros of Unicode 14.0, the table of CPython 3.11. *)
Definition DIGIT_ZEROS : list char :=
  [48; 1632; 1776; 1984; 2406; 2534; 2662; 2790; 2918; 3046; 3174; 3302;
   3430; 3558; 3664; 3792; 3872; 4160; 4240; 6112; 6160; 6470; 6608; 6784;
   6800; 6992; 7088; 7232; 7248; 42528; 43216; 43264; 43472; 43504; 43600;
   44016; 65296; 66720; 68912; 69734; 69872; 69942; 70096; 70384; 70736;
   70864; 71248; 71360; 71472; 71904; 72016; 72784; 73040; 73120; 92768;
   92864; 93008; 120782; 120792; 120802; 120812; 120822; 123200; 123632;
   125264; 130032].

(** The zero of the run of digits in which [c] stands. *)
Definition digit_zero (c : char) : option char :=
  List.find (fun z => between z (z + 9) c) DIGIT_ZEROS.

(** The class [\d] of a [str] pattern: the decimal digits of Unicode. *)
Definition is_digit (c : char) : bool :=
  match digit_zero c with Some _ => true | None => false end.

(** The value of a decimal digit ([unicodedata.decimal]). *)
Definition digit_val (c : char) : Z :=
  match digit_zero c with Some z => Z.of_N (c - z) | None => 0%Z end.

(** The capitals above U+007F and their small letters, in runs
    [(lo, hi, l, step)]: the characters [lo], [lo + step], ... up to [hi]
    have the lower cases [l], [l + step], ... (Unicode 14.0). *)
Definition LOWER_RUNS : list (char * char * char * char) :=
  [(192, 214, 224, 1); (216, 222, 248, 1); (256, 302, 257, 2); (304, 304, 105,
   1); (306, 310, 307, 2); (313, 327, 314, 2); (330, 374, 331, 2); (376, 376,
   255, 1); (377, 381, 378, 2); (385, 385, 595, 1); (386, 388, 387, 2); (390,
   390, 596, 1); (391, 391, 392, 1); (393, 394, 598, 1); (395, 395, 396, 1);
   (398, 398, 477, 1); (399, 399, 601, 1); (400, 400, 603, 1); (401, 401, 402,
   1); (403, 403, 608, 1); (404, 404, 611, 1); (406, 406, 617, 1); (407, 407,
   616, 1); (408, 408, 409, 1); (412, 412, 623, 1); (413, 413, 626, 1); (415,
   415, 629, 1); (416, 420, 417, 2); (422, 422, 640, 1); (423, 423, 424, 1);
   (425, 425, 643, 1); (428, 428, 429, 1); (430, 430, 648, 1); (431, 431, 432,
   1); (433, 434, 650, 1); (435, 437, 436, 2); (439, 439, 658, 1); (440, 440,
   441, 1); (444, 444, 445, 1); (452, 452, 454, 1); (453, 453, 454, 1); (455,
   455, 457, 1); (456, 456, 457, 1); (458, 458, 460, 1); (459, 475, 460, 2);
   (478, 494, 479, 2); (497, 497, 499, 1); (498, 500, 499, 2); (502, 502, 405,
   1); (503, 503, 447, 1); (504, 542, 505, 2); (544, 544, 414, 1); (546, 562,
   547, 2); (570, 570, 11365, 1); (571, 571, 572, 1); (573, 573, 410, 1); (574,
   574, 11366, 1); (577, 577, 578, 1); (579, 579, 384, 1); (580, 580, 649, 1);
   (581, 581, 652, 1); (582, 590, 583, 2); (880, 882, 881, 2); (886, 886, 887,
   1); (895, 895, 1011, 1); (902, 902, 940, 1); (904, 906, 941, 1); (908, 908,
   972, 1); (910, 911, 973, 1); (913, 929, 945, 1); (931, 939, 963, 1); (975,
   975, 983, 1); (984, 1006, 985, 2); (1012, 1012, 952, 1); (1015, 1015, 1016,
   1); (1017, 1017, 1010, 1); (1018, 1018, 1019, 1); (1021, 1023, 891, 1);
   (1024, 1039, 1104, 1); (1040, 1071, 1072, 1); (1120, 1152, 1121, 2); (1162,
   1214, 1163, 2); (1216, 1216, 1231, 1); (1217, 1229, 1218, 2); (1232, 1326,
   1233, 2); (1329, 1366, 1377, 1); (4256, 4293, 11520, 1); (4295, 4295, 11559,
   1); (4301, 4301, 11565, 1); (5024, 5103, 43888, 1); (5104, 5109, 5112, 1);
   (7312, 7354, 4304, 1); (7357, 7359, 4349, 1); (7680, 7828, 7681, 2); (7838,
   7838, 223, 1); (7840, 7934, 7841, 2); (7944, 7951, 7936, 1); (7960, 7965,
   7952, 1); (7976, 7983, 7968, 1); (7992, 7999, 7984, 1); (8008, 8013, 8000,
   1); (8025, 8031, 8017, 2); (8040, 8047, 8032, 1); (8072, 8079, 8064, 1);
   (8088, 8095, 8080, 1); (8104, 8111, 8096, 1); (8120, 8121, 8112, 1); (8122,
   8123, 8048, 1); (8124, 8124, 8115, 1); (8136, 8139, 8050, 1); (8140, 8140,
   8131, 1); (8152, 8153, 8144, 1); (8154, 8155, 8054, 1); (8168, 8169, 8160,
   1); (8170, 8171, 8058, 1); (8172, 8172, 8165, 1); (8184, 8185, 8056, 1);
   (8186, 8187, 8060, 1); (8188, 8188, 8179, 1); (8486, 8486, 969, 1); (8490,
   8490, 107, 1); (8491, 8491, 229, 1); (8498, 8498, 8526, 1); (8544, 8559,
   8560, 1); (8579, 8579, 8580, 1); (9398, 9423, 9424, 1); (11264, 11311,
   11312, 1); (11360, 11360, 11361, 1); (11362, 11362, 619, 1); (11363, 11363,
   7549, 1); (11364, 11364, 637, 1); (11367, 11371, 11368, 2); (11373, 11373,
   593, 1); (11374, 11374, 625, 1); (11375, 11375, 592, 1); (11376, 11376, 594,
   1); (11378, 11378, 11379, 1); (11381, 11381, 11382, 1); (11390, 11391, 575,
   1); (11392, 11490, 11393, 2); (11499, 11501, 11500, 2); (11506, 11506,
   11507, 1); (42560, 42604, 42561, 2); (42624, 42650, 42625, 2); (42786,
   42798, 42787, 2); (42802, 42862, 42803, 2); (42873, 42875, 42874, 2);
   (42877, 42877, 7545, 1); (42878, 42886, 42879, 2); (42891, 42891, 42892, 1);
   (42893, 42893, 613, 1); (42896, 42898, 42897, 2); (42902, 42920, 42903, 2);
   (42922, 42922, 614, 1); (42923, 42923, 604, 1); (42924, 42924, 609, 1);
   (42925, 42925, 620, 1); (42926, 42926, 618, 1); (42928, 42928, 670, 1);
   (42929, 42929, 647, 1); (42930, 42930, 669, 1); (42931, 42931, 43859, 1);
   (42932, 42946, 42933, 2); (42948, 42948, 42900, 1); (42949, 42949, 642, 1);
   (42950, 42950, 7566, 1); (42951, 42953, 42952, 2); (42960, 42960, 42961, 1);
   (42966, 42968, 42967, 2); (42997, 42997, 42998, 1); (65313, 65338, 65345,
   1); (66560, 66599, 66600, 1); (66736, 66771, 66776, 1); (66928, 66938,
   66967, 1); (66940, 66954, 66979, 1); (66956, 66962, 66995, 1); (66964,
   66965, 67003, 1); (68736, 68786, 68800, 1); (71840, 71871, 71872, 1);
   (93760, 93791, 93792, 1); (125184, 125217, 125218, 1)].

Definition in_run (c : char) (r : char * char * char * char) : bool :=
  match r with
  | (lo, hi, _, step) => between lo hi c && N.eqb ((c - lo) mod step) 0
  end.

(** The lower case of one character, the simple mapping of Unicode (what
    [re.I] compares). *)
Definition lower1 (c : char) : char :=
  if N.ltb c 128 then (if between 65 90 c then c + 32 else c)
  else match List.find (in_run c) LOWER_RUNS with
       | Some (lo, _, l, _) => c - lo + l
       | None => c
       end.

Definition in_ranges (t : list (char * char)) (c : char) : bool :=
  existsb (fun r => between (fst r) (snd r) c) t.

(** The case-ignorable characters (Unicode 14.0). *)
Definition CASE_IGNORABLE : list (char * char) :=
  [(39, 39); (46, 46); (58, 58); (94, 94); (96, 96); (168, 168); (173, 173);
   (175, 175); (180, 180); (183, 184); (688, 879); (884, 885); (890, 890);
   (900, 901); (903, 903); (1155, 1161); (1369, 1369); (1375, 1375); (1425,
   1469); (1471, 1471); (1473, 1474); (1476, 1477); (1479, 1479); (1524, 1524);
   (1536, 1541); (1552, 1562); (1564, 1564); (1600, 1600); (1611, 1631); (1648,
   1648); (1750, 1757); (1759, 1768); (1770, 1773); (1807, 1807); (1809, 1809);
   (1840, 1866); (1958, 1968); (2027, 2037); (2042, 2042); (2045, 2045); (2070,
   2093); (2137, 2139); (2184, 2184); (2192, 2193); (2200, 2207); (2249, 2306);
   (2362, 2362); (2364, 2364); (2369, 2376); (2381, 2381); (2385, 2391); (2402,
   2403); (2417, 2417); (2433, 2433); (2492, 2492); (2497, 2500); (2509, 2509);
   (2530, 2531); (2558, 2558); (2561, 2562); (2620, 2620); (2625, 2626); (2631,
   2632); (2635, 2637); (2641, 2641); (2672, 2673); (2677, 2677); (2689, 2690);
   (2748, 2748); (2753, 2757); (2759, 2760); (2765, 2765); (2786, 2787); (2810,
   2815); (2817, 2817); (2876, 2876); (2879, 2879); (2881, 2884); (2893, 2893);
   (2901, 2902); (2914, 2915); (2946, 2946); (3008, 3008); (3021, 3021); (3072,
   3072); (3076, 3076); (3132, 3132); (3134, 3136); (3142, 3144); (3146, 3149);
   (3157, 3158); (3170, 3171); (3201, 3201); (3260, 3260); (3263, 3263); (3270,
   3270); (3276, 3277); (3298, 3299); (3328, 3329); (3387, 3388); (3393, 3396);
   (3405, 3405); (3426, 3427); (3457, 3457); (3530, 3530); (3538, 3540); (3542,
   3542); (3633, 3633); (3636, 3642); (3654, 3662); (3761, 3761); (3764, 3772);
   (3782, 3782); (3784, 3789); (3864, 3865); (3893, 3893); (3895, 3895); (3897,
   3897); (3953, 3966); (3968, 3972); (3974, 3975); (3981, 3991); (3993, 4028);
   (4038, 4038); (4141, 4144); (4146, 4151); (4153, 4154); (4157, 4158); (4184,
   4185); (4190, 4192); (4209, 4212); (4226, 4226); (4229, 4230); (4237, 4237);
   (4253, 4253); (4348, 4348); (4957, 4959); (5906, 5908); (5938, 5939); (5970,
   5971); (6002, 6003); (6068, 6069); (6071, 6077); (6086, 6086); (6089, 6099);
   (6103, 6103); (6109, 6109); (6155, 6159); (6211, 6211); (6277, 6278); (6313,
   6313); (6432, 6434); (6439, 6440); (6450, 6450); (6457, 6459); (6679, 6680);
   (6683, 6683); (6742, 6742); (6744, 6750); (6752, 6752); (6754, 6754); (6757,
   6764); (6771, 6780); (6783, 6783); (6823, 6823); (6832, 6862); (6912, 6915);
   (6964, 6964); (6966, 6970); (6972, 6972); (6978, 6978); (7019, 7027); (7040,
   7041); (7074, 7077); (7080, 7081); (7083, 7085); (7142, 7142); (7144, 7145);
   (7149, 7149); (7151, 7153); (7212, 7219); (7222, 7223); (7288, 7293); (7376,
   7378); (7380, 7392); (7394, 7400); (7405, 7405); (7412, 7412); (7416, 7417);
   (7468, 7530); (7544, 7544); (7579, 7679); (8125, 8125); (8127, 8129); (8141,
   8143); (8157, 8159); (8173, 8175); (8189, 8190); (8203, 8207); (8216, 8217);
   (8228, 8228); (8231, 8231); (8234, 8238); (8288, 8292); (8294, 8303); (8305,
   8305); (8319, 8319); (8336, 8348); (8400, 8432); (11388, 11389); (11503,
   11505); (11631, 11631); (11647, 11647); (11744, 11775); (11823, 11823);
   (12293, 12293); (12330, 12333); (12337, 12341); (12347, 12347); (12441,
   12446); (12540, 12542); (40981, 40981); (42232, 42237); (42508, 42508);
   (42607, 42610); (42612, 42621); (42623, 42623); (42652, 42655); (42736,
   42737); (42752, 42785); (42864, 42864); (42888, 42890); (42994, 42996);
   (43000, 43001); (43010, 43010); (43014, 43014); (43019, 43019); (43045,
   43046); (43052, 43052); (43204, 43205); (43232, 43249); (43263, 43263);
   (43302, 43309); (43335, 43345); (43392, 43394); (43443, 43443); (43446,
   43449); (43452, 43453); (43471, 43471); (43493, 43494); (43561, 43566);
   (43569, 43570); (43573, 43574); (43587, 43587); (43596, 43596); (43632,
   43632); (43644, 43644); (43696, 43696); (43698, 43700); (43703, 43704);
   (43710, 43711); (43713, 43713); (43741, 43741); (43756, 43757); (43763,
   43764); (43766, 43766); (43867, 43871); (43881, 43883); (44005, 44005);
   (44008, 44008); (44013, 44013); (64286, 64286); (64434, 64450); (65024,
   65039); (65043, 65043); (65056, 65071); (65106, 65106); (65109, 65109);
   (65279, 65279); (65287, 65287); (65294, 65294); (65306, 65306); (65342,
   65342); (65344, 65344); (65392, 65392); (65438, 65439); (65507, 65507);
   (65529, 65531); (66045, 66045); (66272, 66272); (66422, 66426); (67456,
   67461); (67463, 67504); (67506, 67514); (68097, 68099); (68101, 68102);
   (68108, 68111); (68152, 68154); (68159, 68159); (68325, 68326); (68900,
   68903); (69291, 69292); (69446, 69456); (69506, 69509); (69633, 69633);
   (69688, 69702); (69744, 69744); (69747, 69748); (69759, 69761); (69811,
   69814); (69817, 69818); (69821, 69821); (69826, 69826); (69837, 69837);
   (69888, 69890); (69927, 69931); (69933, 69940); (70003, 70003); (70016,
   70017); (70070, 70078); (70089, 70092); (70095, 70095); (70191, 70193);
   (70196, 70196); (70198, 70199); (70206, 70206); (70367, 70367); (70371,
   70378); (70400, 70401); (70459, 70460); (70464, 70464); (70502, 70508);
   (70512, 70516); (70712, 70719); (70722, 70724); (70726, 70726); (70750,
   70750); (70835, 70840); (70842, 70842); (70847, 70848); (70850, 70851);
   (71090, 71093); (71100, 71101); (71103, 71104); (71132, 71133); (71219,
   71226); (71229, 71229); (71231, 71232); (71339, 71339); (71341, 71341);
   (71344, 71349); (71351, 71351); (71453, 71455); (71458, 71461); (71463,
   71467); (71727, 71735); (71737, 71738); (71995, 71996); (71998, 71998);
   (72003, 72003); (72148, 72151); (72154, 72155); (72160, 72160); (72193,
   72202); (72243, 72248); (72251, 72254); (72263, 72263); (72273, 72278);
   (72281, 72283); (72330, 72342); (72344, 72345); (72752, 72758); (72760,
   72765); (72767, 72767); (72850, 72871); (72874, 72880); (72882, 72883);
   (72885, 72886); (73009, 73014); (73018, 73018); (73020, 73021); (73023,
   73029); (73031, 73031); (73104, 73105); (73109, 73109); (73111, 73111);
   (73459, 73460); (78896, 78904); (92912, 92916); (92976, 92982); (92992,
   92995); (94031, 94031); (94095, 94111); (94176, 94177); (94179, 94180);
   (110576, 110579); (110581, 110587); (110589, 110590); (113821, 113822);
   (113824, 113827); (118528, 118573); (118576, 118598); (119143, 119145);
   (119155, 119170); (119173, 119179); (119210, 119213); (119362, 119364);
   (121344, 121398); (121403, 121452); (121461, 121461); (121476, 121476);
   (121499, 121503); (121505, 121519); (122880, 122886); (122888, 122904);
   (122907, 122913); (122915, 122916); (122918, 122922); (123184, 123197);
   (123566, 123566); (123628, 123631); (125136, 125142); (125252, 125259);
   (127995, 127999); (917505, 917505); (917536, 917631); (917760, 917999)].

(** The cased letters that are not case-ignorable (Unicode 14.0). *)
Definition CASED : list (char * char) :=
  [(65, 90); (97, 122); (170, 170); (181, 181); (186, 186); (192, 214); (216,
   246); (248, 442); (444, 447); (452, 659); (661, 687); (880, 883); (886,
   887); (891, 893); (895, 895); (902, 902); (904, 906); (908, 908); (910,
   929); (931, 1013); (1015, 1153); (1162, 1327); (1329, 1366); (1376, 1416);
   (4256, 4293); (4295, 4295); (4301, 4301); (4304, 4346); (4349, 4351); (5024,
   5109); (5112, 5117); (7296, 7304); (7312, 7354); (7357, 7359); (7424, 7467);
   (7531, 7543); (7545, 7578); (7680, 7957); (7960, 7965); (7968, 8005); (8008,
   8013); (8016, 8023); (8025, 8025); (8027, 8027); (8029, 8029); (8031, 8061);
   (8064, 8116); (8118, 8124); (8126, 8126); (8130, 8132); (8134, 8140); (8144,
   8147); (8150, 8155); (8160, 8172); (8178, 8180); (8182, 8188); (8450, 8450);
   (8455, 8455); (8458, 8467); (8469, 8469); (8473, 8477); (8484, 8484); (8486,
   8486); (8488, 8488); (8490, 8493); (8495, 8500); (8505, 8505); (8508, 8511);
   (8517, 8521); (8526, 8526); (8544, 8575); (8579, 8580); (9398, 9449);
   (11264, 11387); (11390, 11492); (11499, 11502); (11506, 11507); (11520,
   11557); (11559, 11559); (11565, 11565); (42560, 42605); (42624, 42651);
   (42786, 42863); (42865, 42887); (42891, 42894); (42896, 42954); (42960,
   42961); (42963, 42963); (42965, 42969); (42997, 42998); (43002, 43002);
   (43824, 43866); (43872, 43880); (43888, 43967); (64256, 64262); (64275,
   64279); (65313, 65338); (65345, 65370); (66560, 66639); (66736, 66771);
   (66776, 66811); (66928, 66938); (66940, 66954); (66956, 66962); (66964,
   66965); (66967, 66977); (66979, 66993); (66995, 67001); (67003, 67004);
   (68736, 68786); (68800, 68850); (71840, 71903); (93760, 93823); (119808,
   119892); (119894, 119964); (119966, 119967); (119970, 119970); (119973,
   119974); (119977, 119980); (119982, 119993); (119995, 119995); (119997,
   120003); (120005, 120069); (120071, 120074); (120077, 120084); (120086,
   120092); (120094, 120121); (120123, 120126); (120128, 120132); (120134,
   120134); (120138, 120144); (120146, 120485); (120488, 120512); (120514,
   120538); (120540, 120570); (120572, 120596); (120598, 120628); (120630,
   120654); (120656, 120686); (120688, 120712); (120714, 120744); (120746,
   120770); (120772, 120779); (122624, 122633); (122635, 122654); (125184,
   125251); (127280, 127305); (127312, 127337); (127344, 127369)].

Definition is_case_ignorable (c : char) : bool := in_ranges CASE_IGNORABLE c.

Definition is_cased (c : char) : bool := in_ranges CASED c.

(** Is the first character of [s] that is not case-ignorable a cased
    letter? *)
Fixpoint cased_first (s : str) : bool :=
  match s with
  | [] => false
  | c :: t => if is_case_ignorable c then cased_first t else is_cased c
  end.

(** The lower case of a capital sigma: the final form after a cased letter
    and not before one.  [before] is the text before the sigma, the nearest
    character first. *)
Definition final_sigma (before after : str) : char :=
  if cased_first before && negb (cased_first after) then 962 else 963.

(** The lower case of the character [c] between [before] and [after]: the
    capital sigma depends on its place, the dotted capital I gives two
    characters. *)
Definition lower_chr (before after : str) (c : char) : str :=
  if chr_eqb c 931 then [final_sigma before after]
  else if chr_eqb c 304 then [105; 775]
  else [lower1 c].

Fixpoint lower_from (before s : str) : str :=
  match s with
  | [] => []
  | c :: t => lower_chr before t c ++ lower_from (c :: before) t
  end.

(** [str.lower]. *)
Definition lower (s : str) : str := lower_from [] s.

(** The ranges of the characters for which [str.isalnum] holds, and the
    underscore (Unicode 14.0). *)
Definition WORD_RANGES : list (char * char) :=
  [(48, 57); (65, 90); (95, 95); (97, 122); (170, 170); (178, 179); (181,
   181); (185, 186); (188, 190); (192, 214); (216, 246); (248, 705); (710,
   721); (736, 740); (748, 748); (750, 750); (880, 884); (886, 887); (890,
   893); (895, 895); (902, 902); (904, 906); (908, 908); (910, 929); (931,
   1013); (1015, 1153); (1162, 1327); (1329, 1366); (1369, 1369); (1376,
   1416); (1488, 1514); (1519, 1522); (1568, 1610); (1632, 1641); (1646,
   1647); (1649, 1747); (1749, 1749); (1765, 1766); (1774, 1788); (1791,
   1791); (1808, 1808); (1810, 1839); (1869, 1957); (1969, 1969); (1984,
   2026); (2036, 2037); (2042, 2042); (2048, 2069); (2074, 2074); (2084,
   2084); (2088, 2088); (2112, 2136); (2144, 2154); (2160, 2183); (2185,
   2190); (2208, 2249); (2308, 2361); (2365, 2365); (2384, 2384); (2392,
   2401); (2406, 2415); (2417, 2432); (2437, 2444); (2447, 2448); (2451,
   2472); (2474, 2480); (2482, 2482); (2486, 2489); (2493, 2493); (2510,
   2510); (2524, 2525); (2527, 2529); (2534, 2545); (2548, 2553); (2556,
   2556); (2565, 2570); (2575, 2576); (2579, 2600); (2602, 2608); (2610,
   2611); (2613, 2614); (2616, 2617); (2649, 2652); (2654, 2654); (2662,
   2671); (2674, 2676); (2693, 2701); (2703, 2705); (2707, 2728); (2730,
   2736); (2738, 2739); (2741, 2745); (2749, 2749); (2768, 2768); (2784,
   2785); (2790, 2799); (2809, 2809); (2821, 2828); (2831, 2832); (2835,
   2856); (2858, 2864); (2866, 2867); (2869, 2873); (2877, 2877); (2908,
   2909); (2911, 2913); (2918, 2927); (2929, 2935); (2947, 2947); (2949,
   2954); (2958, 2960); (2962, 2965); (2969, 2970); (2972, 2972); (2974,
   2975); (2979, 2980); (2984, 2986); (2990, 3001); (3024, 3024); (3046,
   3058); (3077, 3084); (3086, 3088); (3090, 3112); (3114, 3129); (3133,
   3133); (3160, 3162); (3165, 3165); (3168, 3169); (3174, 3183); (3192,
   3198); (3200, 3200); (3205, 3212); (3214, 3216); (3218, 3240); (3242,
   3251); (3253, 3257); (3261, 3261); (3293, 3294); (3296, 3297); (3302,
   3311); (3313, 3314); (3332, 3340); (3342, 3344); (3346, 3386); (3389,
   3389); (3406, 3406); (3412, 3414); (3416, 3425); (3430, 3448); (3450,
   3455); (3461, 3478); (3482, 3505); (3507, 3515); (3517, 3517); (3520,
   3526); (3558, 3567); (3585, 3632); (3634, 3635); (3648, 3654); (3664,
   3673); (3713, 3714); (3716, 3716); (3718, 3722); (3724, 3747); (3749,
   3749); (3751, 3760); (3762, 3763); (3773, 3773); (3776, 3780); (3782,
   3782); (3792, 3801); (3804, 3807); (3840, 3840); (3872, 3891); (3904,
   3911); (3913, 3948); (3976, 3980); (4096, 4138); (4159, 4169); (4176,
   4181); (4186, 4189); (4193, 4193); (4197, 4198); (4206, 4208); (4213,
   4225); (4238, 4238); (4240, 4249); (4256, 4293); (4295, 4295); (4301,
   4301); (4304, 4346); (4348, 4680); (4682, 4685); (4688, 4694); (4696,
   4696); (4698, 4701); (4704, 4744); (4746, 4749); (4752, 4784); (4786,
   4789); (4792, 4798); (4800, 4800); (4802, 4805); (4808, 4822); (4824,
   4880); (4882, 4885); (4888, 4954); (4969, 4988); (4992, 5007); (5024,
   5109); (5112, 5117); (5121, 5740); (5743, 5759); (5761, 5786); (5792,
   5866); (5870, 5880); (5888, 5905); (5919, 5937); (5952, 5969); (5984,
   5996); (5998, 6000); (6016, 6067); (6103, 6103); (6108, 6108); (6112,
   6121); (6128, 6137); (6160, 6169); (6176, 6264); (6272, 6276); (6279,
   6312); (6314, 6314); (6320, 6389); (6400, 6430); (6470, 6509); (6512,
   6516); (6528, 6571); (6576, 6601); (6608, 6618); (6656, 6678); (6688,
   6740); (6784, 6793); (6800, 6809); (6823, 6823); (6917, 6963); (6981,
   6988); (6992, 7001); (7043, 7072); (7086, 7141); (7168, 7203); (7232,
   7241); (7245, 7293); (7296, 7304); (7312, 7354); (7357, 7359); (7401,
   7404); (7406, 7411); (7413, 7414); (7418, 7418); (7424, 7615); (7680,
   7957); (7960, 7965); (7968, 8005); (8008, 8013); (8016, 8023); (8025,
   8025); (8027, 8027); (8029, 8029); (8031, 8061); (8064, 8116); (8118,
   8124); (8126, 8126); (8130, 8132); (8134, 8140); (8144, 8147); (8150,
   8155); (8160, 8172); (8178, 8180); (8182, 8188); (8304, 8305); (8308,
   8313); (8319, 8329); (8336, 8348); (8450, 8450); (8455, 8455); (8458,
   8467); (8469, 8469); (8473, 8477); (8484, 8484); (8486, 8486); (8488,
   8488); (8490, 8493); (8495, 8505); (8508, 8511); (8517, 8521); (8526,
   8526); (8528, 8585); (9312, 9371); (9450, 9471); (10102, 10131); (11264,
   11492); (11499, 11502); (11506, 11507); (11517, 11517); (11520, 11557);
   (11559, 11559); (11565, 11565); (11568, 11623); (11631, 11631); (11648,
   11670); (11680, 11686); (11688, 11694); (11696, 11702); (11704, 11710);
   (11712, 11718); (11720, 11726); (11728, 11734); (11736, 11742); (11823,
   11823); (12293, 12295); (12321, 12329); (12337, 12341); (12344, 12348);
   (12353, 12438); (12445, 12447); (12449, 12538); (12540, 12543); (12549,
   12591); (12593, 12686); (12690, 12693); (12704, 12735); (12784, 12799);
   (12832, 12841); (12872, 12879); (12881, 12895); (12928, 12937); (12977,
   12991); (13312, 19903); (19968, 42124); (42192, 42237); (42240, 42508);
   (42512, 42539); (42560, 42606); (42623, 42653); (42656, 42735); (42775,
   42783); (42786, 42888); (42891, 42954); (42960, 42961); (42963, 42963);
   (42965, 42969); (42994, 43009); (43011, 43013); (43015, 43018); (43020,
   43042); (43056, 43061); (43072, 43123); (43138, 43187); (43216, 43225);
   (43250, 43255); (43259, 43259); (43261, 43262); (43264, 43301); (43312,
   43334); (43360, 43388); (43396, 43442); (43471, 43481); (43488, 43492);
   (43494, 43518); (43520, 43560); (43584, 43586); (43588, 43595); (43600,
   43609); (43616, 43638); (43642, 43642); (43646, 43695); (43697, 43697);
   (43701, 43702); (43705, 43709); (43712, 43712); (43714, 43714); (43739,
   43741); (43744, 43754); (43762, 43764); (43777, 43782); (43785, 43790);
   (43793, 43798); (43808, 43814); (43816, 43822); (43824, 43866); (43868,
   43881); (43888, 44002); (44016, 44025); (44032, 55203); (55216, 55238);
   (55243, 55291); (63744, 64109); (64112, 64217); (64256, 64262); (64275,
   64279); (64285, 64285); (64287, 64296); (64298, 64310); (64312, 64316);
   (64318, 64318); (64320, 64321); (64323, 64324); (64326, 64433); (64467,
   64829); (64848, 64911); (64914, 64967); (65008, 65019); (65136, 65140);
   (65142, 65276); (65296, 65305); (65313, 65338); (65345, 65370); (65382,
   65470); (65474, 65479); (65482, 65487); (65490, 65495); (65498, 65500);
   (65536, 65547); (65549, 65574); (65576, 65594); (65596, 65597); (65599,
   65613); (65616, 65629); (65664, 65786); (65799, 65843); (65856, 65912);
   (65930, 65931); (66176, 66204); (66208, 66256); (66273, 66299); (66304,
   66339); (66349, 66378); (66384, 66421); (66432, 66461); (66464, 66499);
   (66504, 66511); (66513, 66517); (66560, 66717); (66720, 66729); (66736,
   66771); (66776, 66811); (66816, 66855); (66864, 66915); (66928, 66938);
   (66940, 66954); (66956, 66962); (66964, 66965); (66967, 66977); (66979,
   66993); (66995, 67001); (67003, 67004); (67072, 67382); (67392, 67413);
   (67424, 67431); (67456, 67461); (67463, 67504); (67506, 67514); (67584,
   67589); (67592, 67592); (67594, 67637); (67639, 67640); (67644, 67644);
   (67647, 67669); (67672, 67702); (67705, 67742); (67751, 67759); (67808,
   67826); (67828, 67829); (67835, 67867); (67872, 67897); (67968, 68023);
   (68028, 68047); (68050, 68096); (68112, 68115); (68117, 68119); (68121,
   68149); (68160, 68168); (68192, 68222); (68224, 68255); (68288, 68295);
   (68297, 68324); (68331, 68335); (68352, 68405); (68416, 68437); (68440,
   68466); (68472, 68497); (68521, 68527); (68608, 68680); (68736, 68786);
   (68800, 68850); (68858, 68899); (68912, 68921); (69216, 69246); (69248,
   69289); (69296, 69297); (69376, 69415); (69424, 69445); (69457, 69460);
   (69488, 69505); (69552, 69579); (69600, 69622); (69635, 69687); (69714,
   69743); (69745, 69746); (69749, 69749); (69763, 69807); (69840, 69864);
   (69872, 69881); (69891, 69926); (69942, 69951); (69956, 69956); (69959,
   69959); (69968, 70002); (70006, 70006); (70019, 70066); (70081, 70084);
   (70096, 70106); (70108, 70108); (70113, 70132); (70144, 70161); (70163,
   70187); (70272, 70278); (70280, 70280); (70282, 70285); (70287, 70301);
   (70303, 70312); (70320, 70366); (70384, 70393); (70405, 70412); (70415,
   70416); (70419, 70440); (70442, 70448); (70450, 70451); (70453, 70457);
   (70461, 70461); (70480, 70480); (70493, 70497); (70656, 70708); (70727,
   70730); (70736, 70745); (70751, 70753); (70784, 70831); (70852, 70853);
   (70855, 70855); (70864, 70873); (71040, 71086); (71128, 71131); (71168,
   71215); (71236, 71236); (71248, 71257); (71296, 71338); (71352, 71352);
   (71360, 71369); (71424, 71450); (71472, 71483); (71488, 71494); (71680,
   71723); (71840, 71922); (71935, 71942); (71945, 71945); (71948, 71955);
   (71957, 71958); (71960, 71983); (71999, 71999); (72001, 72001); (72016,
   72025); (72096, 72103); (72106, 72144); (72161, 72161); (72163, 72163);
   (72192, 72192); (72203, 72242); (72250, 72250); (72272, 72272); (72284,
   72329); (72349, 72349); (72368, 72440); (72704, 72712); (72714, 72750);
   (72768, 72768); (72784, 72812); (72818, 72847); (72960, 72966); (72968,
   72969); (72971, 73008); (73030, 73030); (73040, 73049); (73056, 73061);
   (73063, 73064); (73066, 73097); (73112, 73112); (73120, 73129); (73440,
   73458); (73648, 73648); (73664, 73684); (73728, 74649); (74752, 74862);
   (74880, 75075); (77712, 77808); (77824, 78894); (82944, 83526); (92160,
   92728); (92736, 92766); (92768, 92777); (92784, 92862); (92864, 92873);
   (92880, 92909); (92928, 92975); (92992, 92995); (93008, 93017); (93019,
   93025); (93027, 93047); (93053, 93071); (93760, 93846); (93952, 94026);
   (94032, 94032); (94099, 94111); (94176, 94177); (94179, 94179); (94208,
   100343); (100352, 101589); (101632, 101640); (110576, 110579); (110581,
   110587); (110589, 110590); (110592, 110882); (110928, 110930); (110948,
   110951); (110960, 111355); (113664, 113770); (113776, 113788); (113792,
   113800); (113808, 113817); (119520, 119539); (119648, 119672); (119808,
   119892); (119894, 119964); (119966, 119967); (119970, 119970); (119973,
   119974); (119977, 119980); (119982, 119993); (119995, 119995); (119997,
   120003); (120005, 120069); (120071, 120074); (120077, 120084); (120086,
   120092); (120094, 120121); (120123, 120126); (120128, 120132); (120134,
   120134); (120138, 120144); (120146, 120485); (120488, 120512); (120514,
   120538); (120540, 120570); (120572, 120596); (120598, 120628); (120630,
   120654); (120656, 120686); (120688, 120712); (120714, 120744); (120746,
   120770); (120772, 120779); (120782, 120831); (122624, 122654); (123136,
   123180); (123191, 123197); (123200, 123209); (123214, 123214); (123536,
   123565); (123584, 123627); (123632, 123641); (124896, 124902); (124904,
   124907); (124909, 124910); (124912, 124926); (124928, 125124); (125127,
   125135); (125184, 125251); (125259, 125259); (125264, 125273); (126065,
   126123); (126125, 126127); (126129, 126132); (126209, 126253); (126255,
   126269); (126464, 126467); (126469, 126495); (126497, 126498); (126500,
   126500); (126503, 126503); (126505, 126514); (126516, 126519); (126521,
   126521); (126523, 126523); (126530, 126530); (126535, 126535); (126537,
   126537); (126539, 126539); (126541, 126543); (126545, 126546); (126548,
   126548); (126551, 126551); (126553, 126553); (126555, 126555); (126557,
   126557); (126559, 126559); (126561, 126562); (126564, 126564); (126567,
   126570); (126572, 126578); (126580, 126583); (126585, 126588); (126590,
   126590); (126592, 126601); (126603, 126619); (126625, 126627); (126629,
   126633); (126635, 126651); (127232, 127244); (130032, 130041); (131072,
   173791); (173824, 177976); (177984, 178205); (178208, 183969); (183984,
   191456); (194560, 195101); (196608, 201546)].

(** The class [\w] of a [str] pattern: [str.isalnum] or the underscore. *)
Definition is_word (c : char) : bool :=
  existsb (fun r => between (fst r) (snd r) c) WORD_RANGES.

(** ** String operations of [str] *)

Fixpoint startswith (p s : str) : bool :=
  match p, s with
  | [], _ => true
  | x :: p', y :: s' => chr_eqb x y && startswith p' s'
  | _ :: _, [] => false
  end.

(** [needle in hay]. *)
Fixpoint isin (needle hay : str) : bool :=
  startswith needle hay ||
  match hay with
  | [] => false
  | _ :: hay' => isin needle hay'
  end.

(** [hay.find(needle)], with [None] for Python's [-1]. *)
Fixpoint find (needle hay : str) : option nat :=
  if startswith needle hay then Some 0%nat
  else match hay with
       | [] => None
       | _ :: hay' => option_map S (find needle hay')
       end.

(** [any(c in text for c in cues)]. *)
Definition any_in (cues : list str) (text : str) : bool :=
  existsb (fun c => isin c text) cues.

(** [s.replace(old, new)] for a one-character [old]. *)
Definition replace1 (old : char) (new : str) (s : str) : str :=
  flat_map (fun c => if chr_eqb c old then new else [c]) s.

Fixpoint lstrip (s : str) : str :=
  match s with
  | c :: s' => if is_space c then lstrip s' else s
  | [] => []
  end.

Definition rstrip (s : str) : str := rev (lstrip (rev s)).

(** [s.strip()]. *)
Definition strip (s : str) : str := rstrip (lstrip s).

(** [s.split()]: the maximal runs of characters that are not white space. *)
Fixpoint split_ws_aux (cur : str) (s : str) : list str :=
  match s with
  | [] => match cur with [] => [] | _ => [rev cur] end
  | c :: s' =>
      if is_space c
      then match cur with
           | [] => split_ws_aux [] s'
           | _ => rev cur :: split_ws_aux [] s'
           end
      else split_ws_aux (c :: cur) s'
  end.

Definition split_ws (s : str) : list str := split_ws_aux [] s.

(** [sep.join(parts)]. *)
Fixpoint join (sep : str) (parts : list str) : str :=
  match parts with
  | [] => []
  | [p] => p
  | p :: rest => p ++ sep ++ join sep rest
  end.

(** Index of the last character of [s] satisfying [p] ([s.rfind(c)]). *)
Fixpoint rfind_aux (p : char -> bool) (s : str) (i : nat) (acc : option nat)
  : option nat :=
  match s with
  | [] => acc
  | c :: s' => rfind_aux p s' (S i) (if p c then Some i else acc)
  end.

Definition rfind (p : char -> bool) (s : str) : option nat :=
  rfind_aux p s 0%nat None.

(** [str(n)] for a Python [int]. *)
Definition str_of_Z (z : Z) : str :=
  u (DecimalString.NilZero.string_of_int (Z.to_int z)).

(** [sorted(l, key=...)] and [list.sort(key=...)]: the stable sort by the
    keys [key x], which [cmp] compares; an element is inserted before the
    first element whose key is not smaller than its own. *)
Section Sorted.
Variables A K : Type.
Variable key : A -> K.
Variable cmp : K -> K -> comparison.

Definition key_le (a b : A) : bool :=
  match cmp (key a) (key b) with
  | Gt => false
  | _ => true
  end.

Fixpoint insert (x : A) (l : list A) : list A :=
  match l with
  | [] => [x]
  | y :: l' => if key_le x y then x :: l else y :: insert x l'
  end.

Fixpoint sorted (l : list A) : list A :=
  match l with
  | [] => []
  | x :: l' => insert x (sorted l')
  end.

(** The elements whose key is [k]. *)
Definition same_key (k : K) (a : A) : bool :=
  match cmp k (key a) with
  | Eq => true
  | _ => false
  end.

End Sorted.

Arguments key_le {A K} key cmp a b.
Arguments insert {A K} key cmp x l.
Arguments sorted {A K} key cmp l.
Arguments same_key {A K} key cmp k a.

(** The order of [str]: by code points, a proper prefix first. *)
Fixpoint str_compare (a b : str) : comparison :=
  match a, b with
  | [], [] => Eq
  | [], _ :: _ => Lt
  | _ :: _, [] => Gt
  | x :: a', y :: b' =>
      match N.compare x y with
      | Eq => str_compare a' b'
      | o => o
      end
  end.

(** [s.endswith(suffix)]. *)
Definition endswith (suffix s : str) : bool :=
  startswith (rev suffix) (rev s).

(** [s[:n]] for a Python [int] [n]; a negative [n] counts from the end. *)
Definition slice_to (n : Z) (s : str) : str :=
  if (0 <=? n)%Z then firstn (Z.to_nat n) s
  else firstn (length s - Z.to_nat (- n)) s.

End Py.

(* ------------------------------------------------------------------ *)
(** * Regular expressions

    The patterns of the program are values of [regex]; [rmatch] is a
    backtracking matcher with the priorities of Python's [re]: the
    alternatives of [|] are tried from left to right, and a repetition is
    greedy (it tries one more iteration before it tries to stop).  An
    iteration of a repetition has to consume input; no repeated or optional
    part of the program's patterns can match the empty string. *)

Module Re.
Import Py.

(** The items of a character class. *)
Inductive citem :=
| CChar (c : char)
| CRange (lo hi : char)
| CDigit          (* \d *)
| CSpace          (* \s *)
| CWord.          (* \w *)

Inductive regex :=
| Eps
| Chr (c : char)
| Cls (items : list citem)
| Seq (a b : regex)
| Alt (a b : regex)
| Rep (a : regex) (lo : nat) (hi : option nat)   (* a{lo,hi}, greedy *)
| Grp (name : string) (a : regex)                (* (?P<name>a) *)
| WordB.                                         (* \b *)

(** Derived forms. *)
Definition Opt (a : regex) : regex := Rep a 0 (Some 1).
Definition Star (a : regex) : regex := Rep a 0 None.
Definition Plus (a : regex) : regex := Rep a 1 None.

Fixpoint Lit (s : str) : regex :=
  match s with
  | [] => Eps
  | [c] => Chr c
  | c :: s' => Seq (Chr c) (Lit s')
  end.

Fixpoint Seqs (rs : list regex) : regex :=
  match rs with
  | [] => Eps
  | [r] => r
  | r :: rs' => Seq r (Seqs rs')
  end.

Fixpoint Alts (rs : list regex) : regex :=
  match rs with
  | [] => Cls []
  | [r] => r
  | r :: rs' => Alt r (Alts rs')
  end.

Definition L (s : string) : regex := Lit (u s).
Definition OneOf (s : string) : regex := Cls (List.map CChar (u s)).
Definition digit : regex := Cls [CDigit].
Definition space : regex := Cls [CSpace].

(** The state of a match: the character before the current position (for
    [\b]), the input that remains, and the groups captured so far (the most
    recent first). *)
Record mstate := MState {
  prev : option char;
  rest : str;
  caps : list (string * str)
}.

Definition citem_match (it : citem) (x : char) : bool :=
  match it with
  | CChar c => chr_eqb c x
  | CRange lo hi => between lo hi x
  | CDigit => is_digit x
  | CSpace => is_space x
  | CWord => is_word x
  end.

(** The characters that [re.I] takes for a character of U+0000..U+00FF
    without having its lower case: the dotless small i, the long s and the
    two Greek letters mu (for the micro sign), each with the character it
    stands for. *)
Definition CASE_FOLDS : list (char * char) :=
  [(305, 105); (383, 115); (924, 181); (956, 181)]%N.

Definition fold1 (x : char) : char :=
  match List.find (fun p => chr_eqb (fst p) x) CASE_FOLDS with
  | Some p => snd p
  | None => lower1 x
  end.

(** [ic] is the flag [re.I]; the characters of the patterns lie in
    U+0000..U+00FF. *)
Definition chr_match (ic : bool) (c x : char) : bool :=
  if ic then chr_eqb (lower1 c) (fold1 x) else chr_eqb c x.

(** The classes of the patterns compiled with [re.I] hold no letter. *)
Definition cls_match (ic : bool) (items : list citem) (x : char) : bool :=
  existsb (fun it => citem_match it x || (ic && citem_match it (lower1 x))) items.

Definition is_word_opt (c : option char) : bool :=
  match c with Some x => is_word x | None => false end.

Definition at_boundary (st : mstate) : bool :=
  xorb (is_word_opt (prev st)) (is_word_opt (hd_error (rest st))).

Definition step1 (p : char -> bool) (st : mstate) (k : mstate -> option mstate)
  : option mstate :=
  match rest st with
  | x :: xs => if p x then k (MState (Some x) xs (caps st)) else None
  | [] => None
  end.

(** The text consumed between two states of one match. *)
Definition consumed (st st' : mstate) : str :=
  firstn (length (rest st) - length (rest st')) (rest st).

Definition hi_zero (hi : option nat) : bool :=
  match hi with Some O => true | _ => false end.

Definition hi_pred (hi : option nat) : option nat := option_map pred hi.

(** The loop of a repetition [a{lo,hi}]; [ma] is the matcher of [a].  The
    fuel is the length of the input that remains when the loop is entered:
    every iteration consumes at least one character. *)
Fixpoint rep_loop (ma : mstate -> (mstate -> option mstate) -> option mstate)
  (k : mstate -> option mstate) (fuel lo : nat) (hi : option nat)
  (st : mstate) {struct fuel} : option mstate :=
  let stop := match lo with O => k st | S _ => None end in
  match fuel with
  | O => stop
  | S fuel' =>
      if hi_zero hi then stop
      else
        match ma st (fun st' =>
                if Nat.ltb (length (rest st')) (length (rest st))
                then rep_loop ma k fuel' (pred lo) (hi_pred hi) st'
                else None) with
        | Some res => Some res
        | None => stop
        end
  end.

(** [rmatch ic r st k]: match [r] at [st], then go on with [k]; [None] when
    every way of matching [r] makes [k] fail. *)
Fixpoint rmatch (ic : bool) (r : regex) (st : mstate)
  (k : mstate -> option mstate) {struct r} : option mstate :=
  match r with
  | Eps => k st
  | Chr c => step1 (chr_match ic c) st k
  | Cls items => step1 (cls_match ic items) st k
  | Seq a b => rmatch ic a st (fun st' => rmatch ic b st' k)
  | Alt a b =>
      match rmatch ic a st k with
      | Some res => Some res
      | None => rmatch ic b st k
      end
  | Rep a lo hi => rep_loop (rmatch ic a) k (length (rest st)) lo hi st
  | Grp name a =>
      rmatch ic a st (fun st' =>
        k (MState (prev st') (rest st') ((name, consumed st st') :: caps st')))
  | WordB => if at_boundary st then k st else None
  end.

(** A match object: [group(0)], the named groups, and where the match
    stopped. *)
Record re_match := ReMatch {
  m_start : nat;
  m_text : str;
  m_groups : list (string * str);
  m_prev : option char;
  m_rest : str
}.

Fixpoint lookup (name : string) (gs : list (string * str)) : option str :=
  match gs with
  | [] => None
  | (n, v) :: gs' => if String.eqb n name then Some v else lookup name gs'
  end.

(** [m.group(name)]: [None] when the group took no part in the match. *)
Definition group (m : re_match) (name : string) : option str :=
  lookup name (m_groups m).

(** [m.group(name) or ""]. *)
Definition group_or_empty (m : re_match) (name : string) : str :=
  match group m name with Some v => v | None => [] end.

(** A match that starts exactly at the current position. *)
Definition match_here (ic : bool) (r : regex) (pv : option char) (s : str)
  (i : nat) : option re_match :=
  match rmatch ic r (MState pv s []) Some with
  | Some st' =>
      Some (ReMatch i (firstn (length s - length (rest st')) s)
                    (caps st') (prev st') (rest st'))
  | None => None
  end.

(** The leftmost match at or after the current position. *)
Fixpoint search_at (ic : bool) (r : regex) (pv : option char) (s : str)
  (i : nat) : option re_match :=
  match match_here ic r pv s i with
  | Some m => Some m
  | None =>
      match s with
      | [] => None
      | c :: s' => search_at ic r (Some c) s' (S i)
      end
  end.

(** [pattern.search(s)]. *)
Definition search (ic : bool) (r : regex) (s : str) : option re_match :=
  search_at ic r None s 0.

(** [pattern.finditer(s)]: the successive matches that do not overlap.
    After an empty match the scan resumes one character further. *)
Fixpoint finditer_at (fuel : nat) (ic : bool) (r : regex) (pv : option char)
  (s : str) (i : nat) : list re_match :=
  match fuel with
  | O => []
  | S fuel' =>
      match search_at ic r pv s i with
      | None => []
      | Some m =>
          m :: match m_text m, m_rest m with
               | [], [] => []
               | [], c :: s' =>
                   finditer_at fuel' ic r (Some c) s' (S (m_start m))
               | _ :: _, s' =>
                   finditer_at fuel' ic r (m_prev m) s'
                     (m_start m + length (m_text m))
               end
      end
  end.

Definition finditer (ic : bool) (r : regex) (s : str) : list re_match :=
  finditer_at (S (length s)) ic r None s 0.

(** [re.split(class, s)[0]]: the text before the first character of the
    class. *)
Fixpoint before_first (items : list citem) (s : str) : str :=
  match s with
  | [] => []
  | c :: s' => if cls_match false items c then [] else c :: before_first items s'
  end.

End Re.

(* ------------------------------------------------------------------ *)
(** * Floating point

    Python's [float] is IEEE 754 binary64; [SpecFloat] gives its
    operations on [spec_float] with round to nearest, ties to even. *)

Module Flt.
Import Py.
Local Open Scope Z_scope.

Definition prec : Z := 53.
Definition emax : Z := 1024.

Definition float := spec_float.

Definition of_Z (z : Z) : float := binary_normalize prec emax z 0 false.

Definition mul (x y : float) : float := SFmul prec emax x y.
Definition ltb (x y : float) : bool := SFltb x y.
Definition eqb (x y : float) : bool := SFeqb x y.

(** The float nearest to the fraction [n / d], for [0 <= n] and [0 < d]. *)
Definition of_ratio (n d : Z) : float :=
  match n, d with
  | Zpos pn, Zpos pd =>
      SFdiv prec emax (S754_finite false pn 0) (S754_finite false pd 0)
  | _, _ => S754_zero false
  end.

(** [x.is_integer()] and [int(x)] for a float that is not negative. *)
Definition is_integer (x : float) : bool :=
  match x with
  | S754_zero _ => true
  | S754_finite _ m e =>
      if 0 <=? e then true
      else Z.eqb (Z.modulo (Zpos m) (2 ^ (- e))) 0
  | _ => false
  end.

Definition to_Z (x : float) : Z :=
  match x with
  | S754_finite s m e =>
      let a := if 0 <=? e then Zpos m * 2 ^ e else Zpos m / 2 ^ (- e) in
      if s then - a else a
  | _ => 0
  end.

Fixpoint digits_val (acc : Z) (ds : str) : Z :=
  match ds with
  | [] => acc
  | c :: ds' => digits_val (10 * acc + digit_val c) ds'
  end.

(** ** [float(s)] for a [str]

    CPython first rewrites the string to ASCII, then checks and removes the
    underscores, strips the white space of C and parses what is left,
    which it must consume entirely. *)

(** [_PyUnicode_TransformDecimalAndSpaceToASCII] on one character: a
    character below 127 stays, white space becomes a space, a decimal digit
    its ASCII digit; any other character becomes a question mark, with
    which no number is written ([None]). *)
Definition to_ascii (c : char) : option char :=
  if N.ltb c 127 then Some c
  else if is_space c then Some 32%N
  else if is_digit c then Some (48 + Z.to_N (digit_val c))%N
  else None.

Fixpoint transform (s : str) : option str :=
  match s with
  | [] => Some []
  | c :: s' =>
      match to_ascii c, transform s' with
      | Some a, Some t => Some (a :: t)
      | _, _ => None
      end
  end.

Definition is_ascii_digit (c : char) : bool := between 48%N 57%N c.
Definition is_dot (c : char) : bool := chr_eqb c 46%N.
Definition is_underscore (c : char) : bool := chr_eqb c 95%N.

(** [_Py_string_to_number_with_underscores]: an underscore stands between
    two digits. *)
Fixpoint underscores_ok (prev : char) (s : str) : bool :=
  match s with
  | [] => negb (is_underscore prev)
  | c :: s' =>
      (if is_underscore c then is_ascii_digit prev
       else if is_underscore prev then is_ascii_digit c
       else true)
      && underscores_ok c s'
  end.

(** [Py_ISSPACE] *)
Definition is_c_space (c : char) : bool :=
  between 9%N 13%N c || chr_eqb c 32%N.

Fixpoint lstrip_c (s : str) : str :=
  match s with
  | c :: s' => if is_c_space c then lstrip_c s' else s
  | [] => []
  end.

Definition strip_c (s : str) : str := rev (lstrip_c (rev (lstrip_c s))).

(** The ASCII digits at the head of [s], and what follows them. *)
Fixpoint take_digits (s : str) : str * str :=
  match s with
  | c :: s' =>
      if is_ascii_digit c
      then let '(ds, r) := take_digits s' in (c :: ds, r)
      else ([], s)
  | [] => ([], [])
  end.

(** [Py_TOLOWER] *)
Definition ascii_lower (c : char) : char :=
  if between 65%N 90%N c then (c + 32)%N else c.

Definition is_minus (c : char) : bool := chr_eqb c 45%N.
Definition is_plus (c : char) : bool := chr_eqb c 43%N.

(** The exponent that follows the mantissa: nothing, or [e] or [E], a sign
    if any, and digits up to the end. *)
Definition parse_exponent (s : str) : option Z :=
  match s with
  | [] => Some 0
  | c :: s' =>
      if chr_eqb (ascii_lower c) 101%N then
        let '(neg, s2) :=
          match s' with
          | x :: t => if is_minus x then (true, t)
                      else if is_plus x then (false, t)
                      else (false, s')
          | [] => (false, s')
          end in
        match take_digits s2 with
        | (d :: ds, []) =>
            Some (if neg then - digits_val 0 (d :: ds)
                  else digits_val 0 (d :: ds))
        | _ => None
        end
      else None
  end.

(** A decimal number without sign: digits with at most one point and at
    least one digit, and an exponent if any; the float nearest to it. *)
Definition parse_decimal (s : str) : option float :=
  let '(ip, r1) := take_digits s in
  let '(fp, r2) :=
    match r1 with
    | c :: t => if is_dot c then take_digits t else ([], r1)
    | [] => ([], r1)
    end in
  match ip ++ fp with
  | [] => None
  | d :: ds =>
      match parse_exponent r2 with
      | None => None
      | Some e =>
          let k := e - Z.of_nat (length fp) in
          Some (if 0 <=? k
                then of_ratio (digits_val 0 (d :: ds) * 10 ^ k) 1
                else of_ratio (digits_val 0 (d :: ds)) (10 ^ (- k)))
      end
  end.

(** [inf], [infinity] and [nan] in any case, or a decimal number. *)
Definition parse_unsigned (s : str) : option float :=
  let l := List.map ascii_lower s in
  if str_eqb l (u "inf") || str_eqb l (u "infinity")
  then Some (S754_infinity false)
  else if str_eqb l (u "nan") then Some S754_nan
  else parse_decimal s.

Definition parse_signed (s : str) : option float :=
  match s with
  | c :: r =>
      if is_minus c then option_map SFopp (parse_unsigned r)
      else if is_plus c then parse_unsigned r
      else parse_unsigned s
  | [] => None
  end.

(** [float(s)]; [None] stands for the [ValueError]. *)
Definition py_float (s : str) : option float :=
  match transform s with
  | None => None
  | Some t =>
      if underscores_ok 0%N t
      then parse_signed (strip_c (filter (fun c => negb (is_underscore c)) t))
      else None
  end.

End Flt.

(* ------------------------------------------------------------------ *)
(** * Rendering a float ([round(val, 2)] inside an f-string) *)

Module FltRepr.
Import Py Flt.
Local Open Scope Z_scope.

(** The integer nearest to [n / d], ties to even ([0 <= n], [0 < d]). *)
Definition round_half_even (n d : Z) : Z :=
  let q := n / d in
  match Z.compare (2 * (n mod d)) d with
  | Lt => q
  | Gt => q + 1
  | Eq => if Z.even q then q else q + 1
  end.

(** The exact value of a positive finite float, as a fraction. *)
Definition frac_of (m : positive) (e : Z) : Z * Z :=
  if 0 <=? e then (Zpos m * 2 ^ e, 1) else (Zpos m, 2 ^ (- e)).

(** [round(x, 2)]: the float nearest to the decimal with two places nearest
    to [x]; infinities round to themselves. *)
Definition round2 (x : float) : float :=
  match x with
  | S754_finite false m e =>
      let '(n, d) := frac_of m e in of_ratio (round_half_even (100 * n) d) 100
  | _ => x
  end.

(** The decimal point position [p] of [n / d > 0]:
    [10 ^ (p - 1) <= n / d < 10 ^ p]. *)
Fixpoint decpt_up (fuel : nat) (n d p : Z) : Z :=
  match fuel with
  | O => p
  | S f => if n <? d * 10 ^ p then p else decpt_up f n d (p + 1)
  end.

Fixpoint decpt_down (fuel : nat) (n d p : Z) : Z :=
  match fuel with
  | O => p
  | S f => if d <=? n * 10 ^ (1 - p) then p else decpt_down f n d (p - 1)
  end.

Definition decpt (n d : Z) : Z :=
  if d <=? n then decpt_up 400 n d 1 else decpt_down 400 n d 0.

(** [n / d * 10 ^ k] as a fraction. *)
Definition scale10 (n d k : Z) : Z * Z :=
  if 0 <=? k then (n * 10 ^ k, d) else (n, d * 10 ^ (- k)).

(** The shortest run of digits (with its point position) that reads back as
    the float [x = n / d]: the nearest decimal of [p] digits, for the first
    [p] that reads back. *)
Fixpoint shortest (fuel : nat) (x : float) (n d pt p : Z) : Z * Z :=
  let '(sn, sd) := scale10 n d (p - pt) in
  let dg := round_half_even sn sd in
  let '(dg, pt') := if dg =? 10 ^ p then (10 ^ (p - 1), pt + 1) else (dg, pt) in
  let '(bn, bd) := scale10 dg 1 (pt' - p) in
  match fuel with
  | O => (dg, pt')
  | S f => if eqb (of_ratio bn bd) x then (dg, pt') else shortest f x n d pt (p + 1)
  end.

Fixpoint strip_zeros (fuel : nat) (dg : Z) : Z :=
  match fuel with
  | O => dg
  | S f => if (dg mod 10 =? 0) && negb (dg =? 0) then strip_zeros f (dg / 10) else dg
  end.

Definition zeros (n : Z) : str := repeat 48%N (Z.to_nat n).

(** [repr(x)] for a float that is not negative. *)
Definition repr (x : float) : str :=
  match x with
  | S754_zero _ => u "0.0"
  | S754_infinity _ => u "inf"
  | S754_nan => u "nan"
  | S754_finite _ m e =>
      let '(n, d) := frac_of m e in
      let '(dg, pt) := shortest 17 x n d (decpt n d) 1 in
      let ds := str_of_Z (strip_zeros 20 dg) in
      let len := Z.of_nat (length ds) in
      if (pt <=? -4) || (16 <? pt) then
        let ex := pt - 1 in
        let man := match ds with
                   | [c] => [c]
                   | c :: tl => c :: 46%N :: tl
                   | [] => []
                   end in
        let exs := str_of_Z (Z.abs ex) in
        man ++ u "e" ++ (if ex <? 0 then u "-" else u "+")
            ++ (if Z.abs ex <? 10 then u "0" else []) ++ exs
      else if pt <=? 0 then u "0." ++ zeros (- pt) ++ ds
      else if len <=? pt then ds ++ zeros (pt - len) ++ u ".0"
      else firstn (Z.to_nat pt) ds ++ u "." ++ skipn (Z.to_nat pt) ds
  end.

End FltRepr.

(* ------------------------------------------------------------------ *)
(** * [run.py]: the single-thread scraper (Strategy A) *)

Module Run.
Import Py Re.

(** The numeric literal shared by the two money patterns:
    [\d{1,3}(?:[.,]\d{3})*(?:[.,]\d+)?|\d+(?:[.,]\d+)?]. *)
Definition number_re : regex :=
  Alt (Seqs [Rep digit 1 (Some 3);
             Star (Seq (OneOf ".,") (Rep digit 3 (Some 3)));
             Opt (Seq (OneOf ".,") (Plus digit))])
      (Seq (Plus digit) (Opt (Seq (OneOf ".,") (Plus digit)))).

Definition RE_MONEY : regex :=
  Seqs [Opt (Seq (Grp "currency" (OneOf "$€£")) (Star space));
        Grp "number" number_re;
        Star space;
        Opt (Grp "suffix"
               (Alts [OneOf "kKmMbB"; L "million"; L "millions";
                      L "thousand"; L "k"]));
        Star space;
        Opt (Grp "per"
               (Seqs [L "/"; Star space;
                      Alts [L "h"; L "hr"; L "hour"; L "day"; L "week";
                            L "mo"; L "month"; L "yr"; L "year";
                            Seqs [L "per"; Star space;
                                  Alts [L "hour"; L "day"; L "week";
                                        L "month"; L "year"]]]]))].

(** [\d{1,4}(?:[.,]\d+)?] *)
Definition small_number : regex :=
  Seq (Rep digit 1 (Some 4)) (Opt (Seq (OneOf ".,") (Plus digit))).

(** The four patterns below carry [\b] at both ends; the first three are
    compiled with [re.I]. *)
Definition RE_DURATION : regex :=
  Seqs [WordB; small_number; Star space;
        Alts [Seq (L "hour") (Opt (L "s")); Seq (L "hr") (Opt (L "s")); L "h";
              Seq (L "day") (Opt (L "s")); L "d";
              Seq (L "week") (Opt (L "s")); L "w";
              Seq (L "month") (Opt (L "s")); Seq (L "mo") (Opt (L "s"));
              L "mo";
              Seq (L "year") (Opt (L "s")); Seq (L "yr") (Opt (L "s"))];
        WordB].

Definition RE_RATE : regex :=
  Seqs [WordB; small_number; Star space;
        Alt (L "per") (L "/"); Star space;
        Alts [L "hour"; L "hr"; L "day"; L "week"; L "month"; L "mo";
              L "year"; L "yr"];
        Opt (L "s"); WordB].

Definition RE_COUNT : regex :=
  Seqs [WordB; Rep digit 1 (Some 4); Star space;
        Alts [Seq (L "client") (Opt (L "s")); Seq (L "customer") (Opt (L "s"));
              Seq (L "user") (Opt (L "s")); Seq (L "lead") (Opt (L "s"));
              Seq (L "email") (Opt (L "s")); Seq (L "meeting") (Opt (L "s"));
              Seq (L "call") (Opt (L "s")); Seq (L "ticket") (Opt (L "s"));
              Seq (L "demo") (Opt (L "s"))];
        WordB].

Definition RE_PERCENT : regex :=
  Seqs [WordB; Rep digit 1 (Some 3); Opt (Seq (OneOf ".,") (Plus digit));
        Star space; L "%"; WordB].

Definition KEYWORDS_SELL : list str :=
  List.map u
    ["client"; "clients"; "customer"; "customers"; "sold"; "selling"; "sell";
     "paying"; "paid"; "charge"; "charged"; "pricing"; "price";
     "subscription"; "contract"; "invoice"; "retainer"; "freelance";
     "agency"; "MRR"; "ARR"]%string.

Definition KEYWORDS_AGENT : list str :=
  List.map u
    ["agent"; "ai agent"; "automation"; "autonomous"; "bot"; "assistant";
     "workflow"; "rpa"; "gpt"; "langchain"; "autogen"]%string.

Definition MARKET_HINTS : list str :=
  List.map u
    ["ecom"; "e-commerce"; "shopify"; "woocommerce"; "amazon seller"; "smb";
     "dentists"; "lawyers"; "real estate"; "realtors"; "restaurants";
     "plumbers"; "roofers"; "contractors"; "saas"; "startups"; "enterprise";
     "agencies"; "healthcare"; "doctors"; "clinics"; "education"; "coaches";
     "course creators"; "marketing"; "sales"; "support"; "customer support";
     "helpdesk"; "hotel"; "hospitality"; "travel"; "logistics"]%string.

Definition NARRATIVE_CUES : list str :=
  List.map u [" we "; " i "; " my "; " our "; "case study"; "story"]%string.

(** The [group(0)] of every match of a pattern. *)
Definition spans (ic : bool) (r : regex) (text : str) : list str :=
  List.map m_text (finditer ic r text).

Record quantities := Quantities {
  q_money : list str;
  q_duration : list str;
  q_rate : list str;
  q_count : list str;
  q_percent : list str
}.

Definition nonempty {A} (l : list A) : bool :=
  match l with [] => false | _ => true end.

Definition has_quantitative (text : str) : bool * quantities :=
  let money := spans false RE_MONEY text in
  let duration := spans true RE_DURATION text in
  let rate := spans true RE_RATE text in
  let count := spans true RE_COUNT text in
  let percent := spans false RE_PERCENT text in
  let any_num := nonempty money || nonempty duration || nonempty rate
                 || nonempty count || nonempty percent in
  (any_num, Quantities money duration rate count percent).

Record details := Details {
  money_spans : list str;
  markets_found : list str
}.

Local Open Scope Z_scope.

Definition score_comment (body : str) : Z * details :=
  let text := lower body in
  let score := 0 in
  let score := if any_in KEYWORDS_SELL text then score + 2 else score in
  let score := if any_in KEYWORDS_AGENT text then score + 2 else score in
  let money_matches := finditer false RE_MONEY text in
  let score := if nonempty money_matches
               then score + Z.min 3 (Z.of_nat (length money_matches))
               else score in
  let markets := filter (fun m => isin m text) MARKET_HINTS in
  let score := if nonempty markets then score + 1 else score in
  let score := if any_in NARRATIVE_CUES text then score + 1 else score in
  (score, Details (List.map m_text money_matches) markets).

(** The value of a money token: the literal with its commas and spaces
    removed, read as a float, times the magnitude of the suffix.  [None]
    stands for the [ValueError] of [float]. *)
Definition truthy (s : option str) : bool :=
  match s with Some (_ :: _) => true | _ => false end.

Definition or_empty (s : option str) : str :=
  match s with Some v => v | None => [] end.

Definition token_value (m : re_match) : option Flt.float :=
  let num := replace1 32%N [] (replace1 44%N [] (group_or_empty m "number")) in
  match Flt.py_float num with
  | None => None
  | Some val =>
      let suffix := group m "suffix" in
      Some (if truthy suffix && startswith (u "m") (lower (or_empty suffix))
            then Flt.mul val (Flt.of_Z 1000000)
            else if truthy suffix
                    && (startswith (u "k") (lower (or_empty suffix))
                        || isin (u "thousand") (lower (or_empty suffix)))
            then Flt.mul val (Flt.of_Z 1000)
            else val)
  end.

Definition normalize_money (token : str) : option str :=
  match search false RE_MONEY (lower token) with
  | None => None
  | Some m =>
      match token_value m with
      | None => Some token
      | Some val =>
          let currency := group_or_empty m "currency" in
          let per := group m "per" in
          let base :=
            currency ++ (if Flt.is_integer val
                         then str_of_Z (Flt.to_Z val)
                         else FltRepr.repr (FltRepr.round2 val)) in
          Some (if truthy per
                then base ++ u " " ++ strip (replace1 47%N [] (or_empty per))
                else base)
      end
  end.

(** The loop of [extract_best_money]: [best] and [best_val] are carried
    along the tokens. *)
Fixpoint best_money_loop (toks : list str) (best : option str)
  (best_val : Flt.float) : option str :=
  match toks with
  | [] => best
  | tok :: toks' =>
      match search false RE_MONEY (lower tok) with
      | None => best_money_loop toks' best best_val
      | Some m =>
          match token_value m with
          | None => best_money_loop toks' best best_val
          | Some val =>
              if Flt.ltb best_val val
              then best_money_loop toks' (Some tok) val
              else best_money_loop toks' best best_val
          end
      end
  end.

Definition extract_best_money (money_spans : list str) : option str :=
  match money_spans with
  | [] => None
  | _ =>
      match best_money_loop money_spans None (Flt.of_Z (-1)) with
      | Some (c :: best) => normalize_money (c :: best)
      | _ => None
      end
  end.

(** ** The selection loop and the ranking of [main] *)

(** What [main] reads of a comment of the thread; [j_body] is the text
    after [html.unescape(c.get("body", "") or "")]. *)
Record jcomment := JComment {
  j_id : str;
  j_author : str;
  j_ups : option Z;
  j_permalink : str;
  j_body : str
}.

Record row := Row {
  row_score : Z;
  row_reasons : str;
  row_extracted_revenue : str;
  row_target_market : str;
  row_service_description : str;
  row_quantitative_evidence : str;
  row_comment_id : str;
  row_author : str;
  row_ups : option Z;
  row_permalink : str;
  row_body : str
}.

Definition labelled (k : string) (v : list str) : list str :=
  match v with
  | [] => []
  | _ => [u k ++ u ":" ++ join (u ", ") v]
  end.

(** One turn of the loop of [main]: [None] is a [continue]. *)
Definition select_row (allow_no_numbers : bool) (min_score : Z) (c : jcomment)
  : option row :=
  let body := j_body c in
  match strip body with
  | [] => None
  | _ =>
      let '(has_nums, q) := has_quantitative body in
      if negb allow_no_numbers && negb has_nums then None
      else
        let '(score, d) := score_comment body in
        if score <? min_score then None
        else
          Some (Row score
                  (join (u ",")
                     ((if has_nums then [u "has_numbers"] else [])
                      ++ (if nonempty (markets_found d) then [u "market_hint"] else [])
                      ++ (if nonempty (money_spans d) then [u "money_mention"] else [])))
                  (or_empty (extract_best_money (money_spans d)))
                  (join (u ", ") (markets_found d))
                  []
                  (join (u "; ")
                     (labelled "money" (q_money q) ++ labelled "duration" (q_duration q)
                      ++ labelled "rate" (q_rate q) ++ labelled "count" (q_count q)
                      ++ labelled "percent" (q_percent q)))
                  (j_id c) (j_author c) (j_ups c)
                  (u "https://www.reddit.com" ++ j_permalink c)
                  body)
  end.

Fixpoint select_rows (allow_no_numbers : bool) (min_score : Z)
  (flat : list jcomment) : list row :=
  match flat with
  | [] => []
  | c :: flat' =>
      match select_row allow_no_numbers min_score c with
      | Some r => r :: select_rows allow_no_numbers min_score flat'
      | None => select_rows allow_no_numbers min_score flat'
      end
  end.

(** [(-x["score"], -(x["ups"] or 0))] *)
Definition row_key (r : row) : Z * Z :=
  (- row_score r, - match row_ups r with Some n => n | None => 0 end).

Definition pair_compare (a b : Z * Z) : comparison :=
  match Z.compare (fst a) (fst b) with
  | Eq => Z.compare (snd a) (snd b)
  | o => o
  end.

(** [sorted(rows, key=lambda x: (-x["score"], -(x["ups"] or 0)))], the
    order of the Markdown report. *)
Definition ranked (rows : list row) : list row :=
  sorted row_key pair_compare rows.

(** ** The thread: its address and its tree of comments *)

Definition to_json_url (url : str) : str :=
  if endswith (u ".json") url then url
  else
    let url := if negb (endswith (u "/") url) then url ++ u "/" else url in
    url ++ u ".json".

(** The outcome of a call that returns a value or raises. *)
Inductive outcome (E A : Type) : Type :=
| Returns (a : A)
| Raises (e : E).

Arguments Returns {E A} a.
Arguments Raises {E A} e.

(** [http_get]: [urlopen i] is what the request of turn [i] of the loop
    does, the bytes it reads or the exception it raises.  The function
    returns with the pauses it has made (the factors [i + 1] of
    [time.sleep(backoff * (i + 1))]); [Raises None] is the [raise None] of a
    call with no turn. *)
Fixpoint http_get_from {E A} (urlopen : nat -> outcome E A) (i turns : nat)
  (last_err : option E) (slept : list nat)
  : outcome (option E) A * list nat :=
  match turns with
  | O => (Raises last_err, slept)
  | S turns' =>
      match urlopen i with
      | Returns body => (Returns body, slept)
      | Raises e =>
          http_get_from urlopen (S i) turns' (Some e) (slept ++ [(i + 1)%nat])
      end
  end.

Definition http_get {E A} (urlopen : nat -> outcome E A) (retries : nat)
  : outcome (option E) A * list nat :=
  http_get_from urlopen 0 retries None [].

(** An element of a listing of comments: a dict with its ["kind"] and its
    ["data"].  For a comment (kind ["t1"]), [replies] is [Some children]
    when [data["replies"]] is a dict, whose children are
    [replies.get("data", {}).get("children", [])], and [None] when it is
    anything else (Reddit sends an empty string for a comment without
    replies). *)
Local Unset Elimination Schemes.
Inductive thing (D : Type) : Type :=
| T1 (data : D) (replies : option (list (thing D)))
| More
| Other.
Local Set Elimination Schemes.

Arguments T1 {D} data replies.
Arguments More {D}.
Arguments Other {D}.

(** [{**data, "_depth": depth}] *)
Record flat_row (D : Type) := FlatRow {
  fields : D;
  _depth : Z
}.

Arguments FlatRow {D} fields _depth.
Arguments fields {D} f.
Arguments _depth {D} f.

(** One turn of the [for ch in children] of [flatten_comments]: the rows
    that the turn appends, those of the replies by the recursive call. *)
Fixpoint flatten_child {D} (depth : Z) (ch : thing D) : list (flat_row D) :=
  match ch with
  | T1 data replies =>
      FlatRow data depth
        :: match replies with
           | Some l => flat_map (flatten_child (depth + 1)) l
           | None => []
           end
  | More => []
  | Other => []
  end.

Definition flatten_comments {D} (children : list (thing D)) (depth : Z)
  : list (flat_row D) :=
  flat_map (flatten_child depth) children.

Definition summarize_text (text : str) (limit : Z) : str :=
  let clean := join (u " ") (split_ws text) in
  slice_to limit clean
    ++ (if limit <? Z.of_nat (length clean) then u "…" else []).

End Run.

(* ------------------------------------------------------------------ *)
(** * [scrape_reddit_agents.py]: the search scraper (Strategy B) *)

Module Scrape.
Import Py Re.

Definition CURRENCY_MAP (sym : str) : option str :=
  if str_eqb sym (u "€") then Some (u "EUR")
  else if str_eqb sym (u "$") then Some (u "USD")
  else if str_eqb sym (u "£") then Some (u "GBP")
  else None.

Definition CURRENCY_CODES : list str :=
  List.map u ["eur"; "usd"; "gbp"; "€"; "$"; "£"]%string.

(** [\d{1,3}(?:[.,]\d{3})*(?:[.,]\d+)?|\d+(?:[.,]\d+)?] *)
Definition amount_re : regex :=
  Alt (Seqs [Rep digit 1 (Some 3);
             Star (Seq (OneOf ".,") (Rep digit 3 (Some 3)));
             Opt (Seq (OneOf ".,") (Plus digit))])
      (Seq (Plus digit) (Opt (Seq (OneOf ".,") (Plus digit)))).

(** [(?:/|\bper\s+|p/)?\s*(?:d(?:ay)?|jour|j|w(?:k|eek)?|semaine|sem|
      mo(?:nth)?|month|mois|m|y(?:r|ear)?|an|année|ans)] *)
Definition unit_prefix_re : regex :=
  Alts [L "/"; Seqs [WordB; L "per"; Plus space]; L "p/"].

Definition unit_word_re : regex :=
  Alts [Seq (L "d") (Opt (L "ay")); L "jour"; L "j";
        Seq (L "w") (Opt (Alt (L "k") (L "eek"))); L "semaine"; L "sem";
        Seq (L "mo") (Opt (L "nth")); L "month"; L "mois"; L "m";
        Seq (L "y") (Opt (Alt (L "r") (L "ear"))); L "an"; L "année";
        L "ans"].

Definition unit_re : regex :=
  Seqs [Opt unit_prefix_re; Star space; unit_word_re].

Definition REVENUE_PATTERNS : regex :=
  Seqs [Grp "currency" (Opt (OneOf "$€£")); Star space;
        Grp "amount" amount_re;
        Star space; Opt (Grp "mult" (OneOf "kKmM"));
        Star space; Opt (Grp "unit" unit_re)].

Definition SERVICE_CUES : list str :=
  List.map u
    ["openai"; "assistants api"; "gpt-4"; "gpt-4o"; "anthropic"; "claude";
     "cohere"; "langchain"; "llamaindex"; "crewai"; "autogen"; "openagents";
     "flowise"; "n8n"; "zapier"; "make.com"; "make (integromat)";
     "relevance ai"; "agentops"; "vercel ai sdk"; "modal"; "bedrock";
     "vertex ai"; "hugging face"; "groq"; "ollama"]%string.

Definition NICHE_PIVOTS : list str :=
  List.map u
    ["for "; "pour "; "to help "; "serving "; "targeting "; "for helping ";
     "aider "; "auprès des "; "with "]%string.

Definition SUCCESS_CUES : list str :=
  List.map u
    ["paying customer"; "paying customers"; "mrr"; "arr"; "profitable";
     "sold"; "closed"; "booked"; "recurring"; "retain"; "retainer";
     "works well"; "working well"; "it works"; "fonctionne"; "ça marche";
     "clients payent"; "clients payants"]%string.

Definition DOUBT_CUES : list str :=
  List.map u
    ["anyone making"; "anyone here"; "how to"; "question"; "help";
     "struggling"; "trying"; "explore"; "exploring"; "idea"; "idée";
     "en cours"; "hésite"; "tester"; "tests"; "proof of concept";
     "poc"]%string.

Definition FAIL_CUES : list str :=
  List.map u
    ["failed"; "no sales"; "can't monetize"; "cannot monetize";
     "didn't sell"; "aucune vente"; "pas de vente";
     "impossible à monétiser"; "échec"]%string.

Definition APPROX_CUES : list str :=
  List.map u
    ["~"; "≈"; "about"; "around"; "approx"; "approximately"; "environ";
     "roughly"; "presque"]%string.

(** [\b\d+(?:[.,]?\d+)?\s*[-–]\s*\d+(?:[.,]?\d+)?\b] *)
Definition RANGE_PATTERN : regex :=
  Seqs [WordB; Plus digit; Opt (Seq (Opt (OneOf ".,")) (Plus digit));
        Star space; OneOf "-–"; Star space;
        Plus digit; Opt (Seq (Opt (OneOf ".,")) (Plus digit)); WordB].

(** [\b[A-Z][A-Za-z0-9&.\-]{2,}\b(?:\s(?:Inc|LLC|Ltd|SAS|GmbH|SARL|AG)\b)] *)
Definition COMPANY_PATTERN : regex :=
  Seqs [WordB; Cls [CRange 65 90]%N;
        Rep (Cls [CRange 65 90; CRange 97 122; CRange 48 57;
                  CChar 38; CChar 46; CChar 45]%N) 2 None;
        WordB; space;
        Alts [L "Inc"; L "LLC"; L "Ltd"; L "SAS"; L "GmbH"; L "SARL"; L "AG"];
        WordB].

(** [[.?!;:()\[\]{}|/\\]] *)
Definition NICHE_STOP : list citem :=
  List.map CChar (u ".?!;:()[]{}|/\").

Local Open Scope Z_scope.

(** [s.rfind(c)], [-1] when [c] does not occur. *)
Definition rfind_chr (c : char) (s : str) : Z :=
  match rfind (chr_eqb c) s with
  | Some i => Z.of_nat i
  | None => -1
  end.

Definition comma : char := 44%N.
Definition dot : char := 46%N.
Definition is_sep (c : char) : bool := chr_eqb c comma || chr_eqb c dot.

Definition has_chr (c : char) (s : str) : bool := existsb (chr_eqb c) s.

Definition _to_float_amount (amount_str : str) : option Flt.float :=
  match amount_str with
  | [] => None
  | _ =>
      let s := replace1 729%N [dot]
                 (replace1 8217%N [] (replace1 32%N [] (strip amount_str))) in
      let s :=
        if has_chr comma s && has_chr dot s then
          let last := Z.max (rfind_chr comma s) (rfind_chr dot s) in
          let int_part := filter (fun c => negb (is_sep c))
                                 (firstn (Z.to_nat last) s) in
          let frac_part := skipn (Z.to_nat (last + 1)) s in
          int_part ++ [dot] ++ frac_part
        else if has_chr comma s && negb (has_chr dot s)
             then replace1 comma [dot] s
             else s in
      Flt.py_float s
  end.

Definition nonempty {A} (l : list A) : bool :=
  match l with [] => false | _ => true end.

(** The result of [normalize_revenue]: [(amount, currency, period,
    original)]. *)
Record revenue := Revenue {
  r_amount : option Flt.float;
  r_currency : option str;
  r_period : option str;
  r_original : str
}.

Definition normalize_revenue (m : re_match) : revenue :=
  let original := strip (m_text m) in
  let currency_sym := group_or_empty m "currency" in
  let currency := if nonempty currency_sym then CURRENCY_MAP currency_sym
                  else None in
  let amount_raw := strip (group_or_empty m "amount") in
  let amount := _to_float_amount amount_raw in
  let mult := lower (group_or_empty m "mult") in
  let unit := replace1 32%N [] (lower (group_or_empty m "unit")) in
  match amount with
  | None => Revenue None currency None original
  | Some amount =>
      let amount :=
        if str_eqb mult (u "k") then Flt.mul amount (Flt.of_Z 1000)
        else if str_eqb mult (u "m") then Flt.mul amount (Flt.of_Z 1000000)
        else amount in
      let period :=
        if any_in (List.map u ["mo"; "month"; "mois"; "/m"]%string) unit
        then Some (u "month")
        else if any_in (List.map u ["wk"; "w"; "week"; "semaine"; "sem"]%string) unit
        then Some (u "week")
        else if any_in (List.map u ["d"; "day"; "jour"; "j"]%string) unit
        then Some (u "day")
        else if any_in (List.map u ["yr"; "y"; "year"; "an"; "année"; "ans"]%string) unit
        then Some (u "year")
        else None in
      Revenue (Some amount) currency period original
  end.

Definition find_niche (text : str) : str :=
  let t := u " " ++ replace1 10%N (u " ") text ++ u " " in
  (fix pivots (ps : list str) : str :=
     match ps with
     | [] => []
     | p :: ps' =>
         match find (u " " ++ p) (lower t) with
         | Some idx =>
             let start := (idx + 1 + length p)%nat in
             let tail := skipn start t in
             let words := split_ws tail in
             let snippet := join (u " ") (firstn 12 words) in
             let snippet := before_first NICHE_STOP snippet in
             strip snippet
         | None => pivots ps'
         end
     end) NICHE_PIVOTS.

Definition _text_has_any (text : str) (cues : list str) : bool :=
  any_in cues (lower text).

Definition _has_currency_code (text : str) : bool :=
  any_in CURRENCY_CODES (lower text).

Definition _detect_period (unit_text : option str) (full_text : str)
  : option str :=
  let u_ := lower (match unit_text with Some v => v | None => [] end) in
  let ft := lower full_text in
  if any_in (List.map u ["d"; "day"; "jour"; "j"]%string) u_
     || any_in (List.map u [" per day"; "/d"; "par jour"]%string) ft
  then Some (u "day")
  else if any_in (List.map u ["wk"; "w"; "week"; "semaine"; "sem"]%string) u_
          || any_in (List.map u [" per week"; "/wk"; "/w"; "par semaine"]%string) ft
  then Some (u "week")
  else if any_in (List.map u ["mo"; "month"; "mois"; "m"]%string) u_
          || any_in (List.map u [" per month"; "/mo"; "/m"; "par mois"]%string) ft
  then Some (u "month")
  else if any_in (List.map u ["yr"; "y"; "year"; "an"; "année"; "ans"]%string) u_
          || any_in (List.map u [" per year"; "/yr"; "/y"; "par an"; "par année"]%string) ft
  then Some (u "year")
  else None.

Definition is_match (o : option re_match) : bool :=
  match o with Some _ => true | None => false end.

Definition _precision_points (body rev_text : str) : Z :=
  let approx := _text_has_any rev_text APPROX_CUES
                || _text_has_any body APPROX_CUES in
  let ranged := is_match (search false RANGE_PATTERN rev_text)
                || is_match (search false RANGE_PATTERN body) in
  if approx || ranged then 5 else 10.

Definition opt_is (p : option str) (s : string) : bool :=
  match p with Some v => str_eqb v (u s) | None => false end.

Definition _period_points (period : option str) : Z :=
  if opt_is period "week" then 15
  else if opt_is period "month" then 15
  else if opt_is period "day" then 15
  else if opt_is period "year" then 15
  else match period with Some (_ :: _) => 5 | _ => 0 end.

Definition client_cues : list str :=
  List.map u
    ["client"; "customer"; "customers"; "clients"; "smb"; "realtor";
     "realtors"; "law firm"; "lawyer"; "attorney"; "restaurant"; "ecom";
     "saas"; "agency"; "agencies"]%string.

Definition _market_points (body : str) : Z :=
  let has_niche := nonempty (find_niche body) in
  let pts := if has_niche then 10 else 0 in
  let named := _text_has_any body client_cues
               || is_match (search false COMPANY_PATTERN body) in
  pts + (if named then 10 else 0).

(** [len(set(hits))] *)
Fixpoint distinct (l : list str) : list str :=
  match l with
  | [] => []
  | x :: l' => if existsb (str_eqb x) l' then distinct l' else x :: distinct l'
  end.

Definition _stack_points (body title : str) : Z :=
  let merged := lower (body ++ u " " ++ title) in
  let hits := filter (fun s => isin s merged) SERVICE_CUES in
  Z.min 15 (3 * Z.of_nat (length (distinct hits))).

Definition _sentiment_points (body : str) : Z :=
  let t := lower body in
  if _text_has_any t FAIL_CUES then -999
  else if _text_has_any t SUCCESS_CUES then 10
  else if _text_has_any t DOUBT_CUES then 5
  else 7.

Definition compute_score_v2 (body submission_title : str) (rev_match : re_match)
  (currency unit : option str) : Z :=
  let base := 25 in
  let currency_pts :=
    if match currency with Some (_ :: _) => true | _ => false end
       || _has_currency_code body then 5 else 0 in
  let period := _detect_period unit body in
  let period_pts := _period_points period in
  let precision_pts := _precision_points body (m_text rev_match) in
  let revenue_pts := base + currency_pts + period_pts + precision_pts in
  let market_pts := _market_points body in
  let stack_pts := _stack_points body submission_title in
  let sent := _sentiment_points body in
  if sent <? 0 then 0
  else
    let sentiment_pts := sent in
    let total := revenue_pts + market_pts + stack_pts + sentiment_pts in
    Z.max 0 (Z.min 100 total).

(** ** Evidence records *)

(** What [extract_evidence] reads of a PRAW comment and submission. *)
Record comment := Comment {
  c_id : str;
  c_body : option str;        (* [None]: the object has no [body] *)
  c_author : option str;      (* [None]: the author is gone *)
  c_permalink : str
}.

Record submission := Submission {
  s_title : str;
  s_permalink : str
}.

Record Evidence := MkEvidence {
  subreddit : str;
  thread_title : str;
  thread_url : str;
  comment_url : str;
  author : str;
  post : str;
  score : Z
}.

Definition extract_evidence (subreddit : str) (sub : submission) (c : comment)
  : option Evidence :=
  let body := match c_body c with Some b => b | None => [] end in
  match body with
  | [] => None
  | _ =>
      match search false REVENUE_PATTERNS body with
      | None => None
      | Some rev_match =>
          let r := normalize_revenue rev_match in
          let unit := group rev_match "unit" in
          let score := compute_score_v2 body (s_title sub) rev_match
                         (r_currency r) unit in
          Some (MkEvidence subreddit (s_title sub)
                  (u "https://www.reddit.com" ++ s_permalink sub)
                  (u "https://www.reddit.com" ++ c_permalink c)
                  (match c_author c with
                   | Some a => a
                   | None => u "[deleted]"
                   end)
                  (strip body) score)
      end
  end.

(** ** The crawl

    [search_threads] and [fetch_comments] talk to Reddit; a run is given by
    what they return: for each thread reference, the name of its subreddit
    and the outcome of [fetch_comments] ([None] when it raised, which the
    [except] of [run_scrape] turns into a skipped thread). *)
Definition thread := (str * option (submission * list comment))%type.

Definition seen (id : str) (ids : list str) : bool := existsb (str_eqb id) ids.

(** The inner loop of [run_scrape] over the comments of one thread. *)
Fixpoint scrape_comments (sr : str) (sub : submission) (cs : list comment)
  (seen_comments : list str) (evidences : list Evidence)
  : list str * list Evidence :=
  match cs with
  | [] => (seen_comments, evidences)
  | c :: cs' =>
      if seen (c_id c) seen_comments
      then scrape_comments sr sub cs' seen_comments evidences
      else
        let evidences :=
          match extract_evidence sr sub c with
          | Some ev => evidences ++ [ev]
          | None => evidences
          end in
        scrape_comments sr sub cs' (c_id c :: seen_comments) evidences
  end.

Fixpoint scrape_threads (ts : list thread) (seen_comments : list str)
  (evidences : list Evidence) : list Evidence :=
  match ts with
  | [] => evidences
  | (sub_name, None) :: ts' => scrape_threads ts' seen_comments evidences
  | (sub_name, Some (sub, comments)) :: ts' =>
      let '(seen_comments, evidences) :=
        scrape_comments sub_name sub comments seen_comments evidences in
      scrape_threads ts' seen_comments evidences
  end.

Definition run_scrape (thread_refs : list thread) : list Evidence :=
  scrape_threads thread_refs [] [].

(** ** Deduplication and ranking ([__main__]) *)

(** A [dict] keeps its keys in the order of their first insertion; setting
    a key that is present replaces its value in place. *)
Fixpoint dict_set {V} (k : str) (v : V) (d : list (str * V)) : list (str * V) :=
  match d with
  | [] => [(k, v)]
  | (k', v') :: d' =>
      if str_eqb k' k then (k', v) :: d' else (k', v') :: dict_set k v d'
  end.

(** [list({r.comment_url: r for r in rows}.values())] *)
Definition uniq (rows : list Evidence) : list Evidence :=
  List.map snd
    (fold_left (fun d r => dict_set (comment_url r) r d) rows []).

Definition sort_key (r : Evidence) : Z * str * str :=
  (- score r, lower (subreddit r), lower (thread_title r)).

(** The order of the key tuples. *)
Definition key_compare (a b : Z * str * str) : comparison :=
  let '(sa, na, ta) := a in
  let '(sb, nb, tb) := b in
  match Z.compare sa sb with
  | Eq => match str_compare na nb with
          | Eq => str_compare ta tb
          | o => o
          end
  | o => o
  end.

(** [uniq.sort(key=lambda r: (-r.score, r.subreddit.lower(),
    r.thread_title.lower()))] after the deduplication. *)
Definition rank (rows : list Evidence) : list Evidence :=
  sorted sort_key key_compare (uniq rows).

(** The records that [__main__] exports for a run. *)
Definition main (thread_refs : list thread) : list Evidence :=
  rank (run_scrape thread_refs).

(** ** Talking to Reddit: retries *)

Definition SUBREDDITS : list str :=
  List.map u
    ["AI_Agents"; "Entrepreneur"; "SaaS"; "startups";
     "ArtificialIntelligence"; "MachineLearning"; "nocode";
     "automation"]%string.

Definition SEARCH_QUERIES : list str :=
  List.map u
    ["making money AI agents"; "selling AI agents"; "AI agent revenue";
     "agent as a service"; "automations $/mo"; "monetize AI agent";
     "clients AI agent niche"; "vendre agent IA";
     "revenu par mois agent IA"]%string.

Definition MAX_COMMENTS_PER_THREAD : nat := 100.

(** What one turn of the [while True] of [fetch_comments] does: Reddit
    answers, or an exception of the three caught classes is raised, or
    another exception is raised, which leaves the function at once. *)
Inductive fetched (A : Type) : Type :=
| Answer (a : A)
| Caught
| Uncaught.

Arguments Answer {A} a.
Arguments Caught {A}.
Arguments Uncaught {A}.

(** [comments[:limit]] under [if limit:]. *)
Definition limited {A} (limit : nat) (comments : list A) : list A :=
  match limit with
  | O => comments
  | _ => firstn limit comments
  end.

(** [fetch_comments]: [reddit k] is what the [k]-th turn of the loop gets
    from Reddit (the turns are numbered by [attempt], from 1).  The result
    is [None] when the function raises; it comes with the values of
    [attempt] passed to [backoff_sleep].  [fuel] bounds the turns of the
    loop. *)
Fixpoint fetch_comments_loop (reddit : nat -> fetched (submission * list comment))
  (limit : nat) (fuel : nat) (attempt : nat) (slept : list nat)
  : option (option (submission * list comment) * list nat) :=
  match fuel with
  | O => None
  | S fuel' =>
      match reddit attempt with
      | Answer (submission, comments) =>
          Some (Some (submission, limited limit comments), slept)
      | Uncaught => Some (None, slept)
      | Caught =>
          let slept := slept ++ [attempt] in
          let attempt := (attempt + 1)%nat in
          if (5 <? attempt)%nat then Some (None, slept)
          else fetch_comments_loop reddit limit fuel' attempt slept
      end
  end.

Definition fetch_comments (reddit : nat -> fetched (submission * list comment))
  (limit : nat) (fuel : nat)
  : option (option (submission * list comment) * list nat) :=
  fetch_comments_loop reddit limit fuel 1%nat [].

(** What one turn of the [while True] of [search_threads] does: the
    generator [sr.search(...)] yields submissions (here their ids) and then
    ends, or raises an exception of the three caught classes ([is404]:
    ["404" in str(e)]), or raises another exception. *)
Inductive search_end : Type :=
| Completed
| SearchCaught (is404 : bool)
| SearchUncaught.

Record search_run := SearchRun {
  yielded : list str;
  ended : search_end
}.

(** The state of [search_threads]: [results] and [seen_ids]. *)
Definition search_state := (list (str * str) * list str)%type.

(** The [for submission in sr.search(...)] over the ids yielded. *)
Fixpoint add_new (sub : str) (ids : list str) (st : search_state)
  : search_state :=
  match ids with
  | [] => st
  | id :: ids' =>
      let '(results, seen_ids) := st in
      if seen id seen_ids then add_new sub ids' st
      else add_new sub ids' (results ++ [(sub, id)], id :: seen_ids)
  end.

(** The [while True] for one subreddit and one query; [None] when an
    exception leaves [search_threads] or the fuel runs out. *)
Fixpoint search_query (search : nat -> search_run) (sub : str)
  (fuel : nat) (attempt : nat) (st : search_state) : option search_state :=
  match fuel with
  | O => None
  | S fuel' =>
      let r := search attempt in
      let st := add_new sub (yielded r) st in
      match ended r with
      | Completed => Some st
      | SearchUncaught => None
      | SearchCaught true => Some st
      | SearchCaught false =>
          let attempt := (attempt + 1)%nat in
          if (5 <? attempt)%nat then Some st
          else search_query search sub fuel' attempt st
      end
  end.

Fixpoint search_queries (search : str -> nat -> search_run) (sub : str)
  (fuel : nat) (qs : list str) (st : search_state) : option search_state :=
  match qs with
  | [] => Some st
  | q :: qs' =>
      match search_query (search q) sub fuel 1%nat st with
      | None => None
      | Some st => search_queries search sub fuel qs' st
      end
  end.

Fixpoint search_subs (search : str -> str -> nat -> search_run)
  (fuel : nat) (subs : list str) (st : search_state) : option search_state :=
  match subs with
  | [] => Some st
  | sub :: subs' =>
      match search_queries (search sub) sub fuel SEARCH_QUERIES st with
      | None => None
      | Some st => search_subs search fuel subs' st
      end
  end.

(** [search_threads]: [search sub q k] is what the [k]-th call of
    [reddit.subreddit(sub).search(q, ...)] does. *)
Definition search_threads (search : str -> str -> nat -> search_run)
  (fuel : nat) : option (list (str * str)) :=
  option_map fst (search_subs search fuel SUBREDDITS ([], [])).

End Scrape.

(* ------------------------------------------------------------------ *)
(** * Notions used to state the properties *)

Module Spec.
Import Py Re.

(** [cue] occurs in [text] when case is ignored. *)
Definition occurs_ci (cue text : str) : bool := isin (lower cue) (lower text).

(** A body carries a failure cue. *)
Definition has_failure_cue (body : str) : bool :=
  existsb (fun cue => occurs_ci cue body) Scrape.FAIL_CUES.

(** A body names a selling keyword. *)
Definition has_selling_keyword (body : str) : bool :=
  existsb (fun k => occurs_ci k body) Run.KEYWORDS_SELL.

(** The normalized revenue of the first money match of a text (Strategy B),
    as [extract_evidence] computes it. *)
Definition revenue_of (text : str) : option Scrape.revenue :=
  option_map Scrape.normalize_revenue
             (search false Scrape.REVENUE_PATTERNS text).

Definition amount_of (text : str) : option Flt.float :=
  match revenue_of text with
  | Some r => Scrape.r_amount r
  | None => None
  end.

(** The value that [normalize_money] and [extract_best_money] read in a
    token (Strategy A); [None] when the token has no money match or its
    literal is not a number. *)
Definition money_value (tok : str) : option Flt.float :=
  match search false Run.RE_MONEY (lower tok) with
  | Some m => Run.token_value m
  | None => None
  end.

Definition parses (tok : str) : bool :=
  match money_value tok with Some _ => true | None => false end.

(** The loop of [main] keeps the comment. *)
Definition selected (allow_no_numbers : bool) (min_score : Z)
  (c : Run.jcomment) : bool :=
  match Run.select_row allow_no_numbers min_score c with
  | Some _ => true
  | None => false
  end.

(** The first category, in the order of the list, whose test holds. *)
Fixpoint first_matching (cats : list (bool * str)) : option str :=
  match cats with
  | [] => None
  | (true, name) :: _ => Some name
  | (false, _) :: cats' => first_matching cats'
  end.

(** The fragments of the four periods, in the priority order day, week,
    month, year.  [normalize_revenue] looks for the month as ["/m"],
    [_detect_period] as ["m"], and [_detect_period] also reads cues in the
    body. *)
Definition DAY_FRAGMENTS : list str := List.map u ["d"; "day"; "jour"; "j"]%string.
Definition WEEK_FRAGMENTS : list str :=
  List.map u ["wk"; "w"; "week"; "semaine"; "sem"]%string.
Definition MONTH_FRAGMENTS : list str := List.map u ["mo"; "month"; "mois"; "m"]%string.
Definition MONTH_FRAGMENTS_REVENUE : list str :=
  List.map u ["mo"; "month"; "mois"; "/m"]%string.
Definition YEAR_FRAGMENTS : list str :=
  List.map u ["yr"; "y"; "year"; "an"; "année"; "ans"]%string.

Definition DAY_CUES : list str := List.map u [" per day"; "/d"; "par jour"]%string.
Definition WEEK_CUES : list str :=
  List.map u [" per week"; "/wk"; "/w"; "par semaine"]%string.
Definition MONTH_CUES : list str :=
  List.map u [" per month"; "/mo"; "/m"; "par mois"]%string.
Definition YEAR_CUES : list str :=
  List.map u [" per year"; "/yr"; "/y"; "par an"; "par année"]%string.

(** The unit suffix as [normalize_revenue] reads it. *)
Definition revenue_unit (m : re_match) : str :=
  replace1 32%N [] (lower (group_or_empty m "unit")).

(** The period by priority: the first of day, week, month, year that has a
    fragment in the unit suffix. *)
Definition revenue_period (unit : str) : option str :=
  first_matching
    [(any_in DAY_FRAGMENTS unit, u "day");
     (any_in WEEK_FRAGMENTS unit, u "week");
     (any_in MONTH_FRAGMENTS_REVENUE unit, u "month");
     (any_in YEAR_FRAGMENTS unit, u "year")].

(** The same for [_detect_period], where a category also matches by a cue
    in the body. *)
Definition detected_period (unit : option str) (body : str) : option str :=
  let unit := lower (match unit with Some v => v | None => [] end) in
  let body := lower body in
  first_matching
    [(any_in DAY_FRAGMENTS unit || any_in DAY_CUES body, u "day");
     (any_in WEEK_FRAGMENTS unit || any_in WEEK_CUES body, u "week");
     (any_in MONTH_FRAGMENTS unit || any_in MONTH_CUES body, u "month");
     (any_in YEAR_FRAGMENTS unit || any_in YEAR_CUES body, u "year")].

(** The characters of a numeric literal: digits, commas and points. *)
Definition is_literal_chr (c : char) : bool := is_digit c || Scrape.is_sep c.

Definition unseparated (s : str) : str :=
  filter (fun c => negb (Scrape.is_sep c)) s.

(** The order in which [normalize_revenue] tests the four categories. *)
Definition revenue_period_code (unit : str) : option str :=
  first_matching
    [(any_in MONTH_FRAGMENTS_REVENUE unit, u "month");
     (any_in WEEK_FRAGMENTS unit, u "week");
     (any_in DAY_FRAGMENTS unit, u "day");
     (any_in YEAR_FRAGMENTS unit, u "year")].

(** The unit suffixes of the money pattern of Strategy B: one of
    [unit_prefixes], white space, one of [unit_words]. *)
Definition unit_prefixes : list str := List.map u [""; "/"; "per"; "p/"]%string.
Definition unit_words : list str :=
  List.map u
    ["d"; "day"; "jour"; "j"; "w"; "wk"; "week"; "semaine"; "sem"; "mo";
     "month"; "mois"; "m"; "y"; "yr"; "year"; "an"; "année"; "ans"]%string.

Definition opt_str_eqb (a b : option str) : bool :=
  match a, b with
  | Some x, Some y => str_eqb x y
  | None, None => true
  | _, _ => false
  end.

(** The two orders agree on a unit suffix written without white space, and
    on one whose prefix and word are kept apart by white space. *)
Definition orders_agree_joined (a b : str) : bool :=
  opt_str_eqb (revenue_period_code (a ++ b)) (revenue_period (a ++ b)).

Definition apart (frs : list str) (a b : str) : bool :=
  any_in frs a || any_in frs b.

Definition orders_agree_apart (a b : str) : bool :=
  opt_str_eqb
    (first_matching
       [(apart MONTH_FRAGMENTS_REVENUE a b, u "month");
        (apart WEEK_FRAGMENTS a b, u "week");
        (apart DAY_FRAGMENTS a b, u "day");
        (apart YEAR_FRAGMENTS a b, u "year")])
    (first_matching
       [(apart DAY_FRAGMENTS a b, u "day");
        (apart WEEK_FRAGMENTS a b, u "week");
        (apart MONTH_FRAGMENTS_REVENUE a b, u "month");
        (apart YEAR_FRAGMENTS a b, u "year")]).

(** A fragment list whose fragments are not empty and hold no white
    space. *)
Definition solid (frs : list str) : bool :=
  forallb (fun f => match f with [] => false | _ => true end
                    && forallb (fun c => negb (is_space c)) f) frs.

(** The patterns of the groups named [name] in [r]. *)
Fixpoint group_regexes (r : regex) (name : string) : list regex :=
  match r with
  | Seq a b | Alt a b => group_regexes a name ++ group_regexes b name
  | Rep a _ _ => group_regexes a name
  | Grp n a =>
      (if String.eqb n name then [a] else []) ++ group_regexes a name
  | _ => []
  end.

Definition within (n : nat) (hi : option nat) : Prop :=
  match hi with
  | Some h => n <= h
  | None => True
  end.

(** The words matched by a pattern, where [\b] is read as the empty word:
    every text that [rmatch] consumes for [r] is one of them. *)
Fixpoint lang (ic : bool) (r : regex) (w : str) : Prop :=
  match r with
  | Eps => w = []
  | Chr c => exists x, w = [x] /\ chr_match ic c x = true
  | Cls items => exists x, w = [x] /\ cls_match ic items x = true
  | Seq a b => exists w1 w2, w = w1 ++ w2 /\ lang ic a w1 /\ lang ic b w2
  | Alt a b => lang ic a w \/ lang ic b w
  | Rep a lo hi =>
      exists ws,
        w = concat ws /\ Forall (lang ic a) ws
        /\ lo <= length ws /\ within (length ws) hi
  | Grp _ a => lang ic a w
  | WordB => w = []
  end.

(** The texts that the group [name] of [r] can capture. *)
Fixpoint group_lang (ic : bool) (r : regex) (name : string) (v : str) : Prop :=
  match r with
  | Seq a b | Alt a b => group_lang ic a name v \/ group_lang ic b name v
  | Rep a _ _ => group_lang ic a name v
  | Grp n a => (n = name /\ lang ic a v) \/ group_lang ic a name v
  | _ => False
  end.

(** A pattern that succeeds without consuming anything whenever what
    follows it succeeds at the same place. *)
Fixpoint skippable (r : regex) : bool :=
  match r with
  | Eps => true
  | Rep _ O _ => true
  | Seq a b => skippable a && skippable b
  | Alt a b => skippable a || skippable b
  | Grp _ a => skippable a
  | _ => false
  end.

Definition digit_class (r : regex) : bool :=
  match r with
  | Cls items =>
      existsb (fun it => match it with CDigit => true | _ => false end) items
  | _ => false
  end.

(** A pattern that matches at every position where a digit stands, when
    what follows it cannot fail. *)
Fixpoint digit_first (r : regex) : bool :=
  skippable r ||
  match r with
  | Cls _ => digit_class r
  | Rep a lo hi => Nat.leb lo 1 && negb (hi_zero hi) && digit_class a
  | Seq a b => (skippable a && digit_first b) || (digit_first a && skippable b)
  | Alt a b => digit_first a || digit_first b
  | Grp _ a => digit_first a
  | _ => false
  end.

(** A pattern whose every match holds a digit. *)
Fixpoint needs_digit (r : regex) : bool :=
  match r with
  | Cls items =>
      match items with [] => false | _ => true end
      && forallb (fun it => match it with CDigit => true | _ => false end) items
  | Seq a b => needs_digit a || needs_digit b
  | Alt a b => needs_digit a && needs_digit b
  | Rep a lo _ => Nat.ltb 0 lo && needs_digit a
  | Grp _ a => needs_digit a
  | _ => false
  end.

(** The finite language of a pattern built without classes and without
    unbounded repetition ([None] for the other patterns). *)
Fixpoint words (r : regex) : option (list str) :=
  match r with
  | Eps => Some [[]]
  | WordB => Some [[]]
  | Chr c => Some [[c]]
  | Seq a b =>
      match words a, words b with
      | Some la, Some lb =>
          Some (flat_map (fun x => List.map (fun y => x ++ y) lb) la)
      | _, _ => None
      end
  | Alt a b =>
      match words a, words b with
      | Some la, Some lb => Some (la ++ lb)
      | _, _ => None
      end
  | Rep a O (Some 1) =>
      match words a with
      | Some la => Some ([] :: la)
      | None => None
      end
  | Grp _ a => words a
  | _ => None
  end.

Definition last_chr (pv : option char) (pre : str) : option char :=
  match rev pre with
  | c :: _ => Some c
  | [] => pv
  end.

(** The pattern matches somewhere in [s]. *)
Definition has_match (ic : bool) (r : regex) (s : str) : Prop :=
  exists pre suf i,
    s = pre ++ suf /\ match_here ic r (last_chr None pre) suf i <> None.

(** The rows of [rows] after [r] carry other URLs than [r]. *)
Definition last_of_its_url (r : Scrape.Evidence) (rows : list Scrape.Evidence)
  : Prop :=
  exists before after,
    rows = before ++ r :: after
    /\ forallb (fun r' => negb (str_eqb (Scrape.comment_url r')
                                        (Scrape.comment_url r))) after = true.

(** The comments of a run in the order [run_scrape] meets them, each with
    the subreddit and the submission of its thread. *)
Definition all_comments (ts : list Scrape.thread)
  : list (str * Scrape.submission * Scrape.comment) :=
  flat_map (fun t : Scrape.thread =>
              match t with
              | (sr, Some (sub, cs)) => List.map (fun c => (sr, sub, c)) cs
              | (_, None) => []
              end) ts.

(** The comments whose identifier occurs for the first time. *)
Fixpoint first_seen (ids : list str)
  (cs : list (str * Scrape.submission * Scrape.comment))
  : list (str * Scrape.submission * Scrape.comment) :=
  match cs with
  | [] => []
  | (sr, sub, c) :: cs' =>
      if Scrape.seen (Scrape.c_id c) ids then first_seen ids cs'
      else (sr, sub, c) :: first_seen (Scrape.c_id c :: ids) cs'
  end.

Definition evidence_of (x : str * Scrape.submission * Scrape.comment)
  : list Scrape.Evidence :=
  let '(sr, sub, c) := x in
  match Scrape.extract_evidence sr sub c with
  | Some ev => [ev]
  | None => []
  end.

(** The comments of a listing itself, without their replies. *)
Definition top_level {D} (children : list (Run.thing D)) : list D :=
  flat_map (fun ch => match ch with Run.T1 data _ => [data] | _ => [] end)
           children.

(** A row with its depth moved by [k]. *)
Definition deeper {D} (k : Z) (r : Run.flat_row D) : Run.flat_row D :=
  Run.FlatRow (Run.fields r) (Run._depth r + k).

(** Every character of every word of the pattern is a decimal digit or a
    character of [cs] (for a pattern compiled without [re.I]). *)
Fixpoint digits_and (cs : str) (r : regex) : bool :=
  match r with
  | Eps | WordB => true
  | Chr c => existsb (chr_eqb c) cs
  | Cls items =>
      forallb (fun it => match it with
                         | CDigit => true
                         | CChar c => existsb (chr_eqb c) cs
                         | _ => false
                         end) items
  | Seq a b | Alt a b => digits_and cs a && digits_and cs b
  | Rep a _ _ | Grp _ a => digits_and cs a
  end.

End Spec.

(* ------------------------------------------------------------------ *)
(** * Scenarios of the specification *)

Module Scenarios.
Import Py.

(** The bodies of the scenarios of the specification. *)
Definition scenario1 : str :=
  u "I charge clients $2k/month for my AI agent, 5 clients so far".
Definition scenario3 : str :=
  u "We made about 10k-15k per month but it failed and we got no sales".

Definition scenario2 : str :=
  u "Thinking about trying to sell an AI agent, no idea how".

Definition as_comment (body : str) : Run.jcomment :=
  Run.JComment (u "c1") (u "ann") (Some 3%Z) (u "/r/SaaS/comments/t1/agents/c1/")
               body.

(** A weekly amount in a body that also names a daily rate, an amount
    whose literal is not a number, and a daily amount. *)
Definition weekly_with_daily_cue : str := u "3 semaine, 2/day".
Definition unparsed_per_day : str := u "1.200.300 per day".
Definition five_per_day : str := u "I earn $5 per day".

(** The money match that [extract_evidence] finds in scenario 3. *)
Definition scenario3_match : option Re.re_match :=
  Re.search false Scrape.REVENUE_PATTERNS scenario3.


(** The run of scenario 4: one thread in which the comment [k1] is met
    twice, first with a stale body, then with a fresh one. *)
Definition stale : Scrape.comment :=
  Scrape.Comment (u "k1") (Some (u "I made $5 last month")) (Some (u "ann"))
                 (u "/r/SaaS/comments/t1/agents/k1/").
Definition fresh : Scrape.comment :=
  Scrape.Comment (u "k1") (Some (u "I made $7 last month")) (Some (u "ann"))
                 (u "/r/SaaS/comments/t1/agents/k1/").
Definition scenario4 : list Scrape.thread :=
  [(u "SaaS",
    Some (Scrape.Submission (u "Agents") (u "/r/SaaS/comments/t1/agents/"),
          [stale; fresh]))].

(** A server that fails twice and then answers; a Reddit that fails twice
    and then sends the thread of scenario 4; a search that finds the same
    thread for every subreddit and every query. *)
Definition flaky_urlopen (i : nat) : Run.outcome nat str :=
  if (i <? 2)%nat then Run.Raises i else Run.Returns (u "[]").

Definition flaky_reddit (k : nat)
  : Scrape.fetched (Scrape.submission * list Scrape.comment) :=
  if (k <? 3)%nat then Scrape.Caught
  else Scrape.Answer
         (Scrape.Submission (u "Agents") (u "/r/SaaS/comments/t1/agents/"),
          [stale; fresh]).

Definition same_thread_search (sub q : str) (k : nat) : Scrape.search_run :=
  Scrape.SearchRun [u "t1"] Scrape.Completed.

(** Money spans of which two are worth 2000. *)
Definition money_tokens : list str := [u "$5"; u "2k"; u "$2,000"].

(** A listing with a comment, its reply and a stub. *)
Definition small_listing : list (Run.thing str) :=
  [Run.T1 (u "a") (Some [Run.T1 (u "b") None; Run.More]); Run.T1 (u "c") None].

(** A text on two lines. *)
Definition two_lines : str := u "pay  me" ++ 10%N :: u " now".

End Scenarios.

(* ------------------------------------------------------------------ *)
(** * Notions used in the proofs *)

Module Notions.
Import Py Re Scrape.

(** A dictionary from URLs to records: no key twice, every record under
    its own URL. *)
Definition url_dict (d : list (str * Evidence)) : Prop :=
  NoDup (List.map fst d) /\ forall k v, In (k, v) d -> k = comment_url v.

(** The dictionary [d] after the rows have been set in it. *)
Definition fill (d : list (str * Evidence)) (rows : list Evidence)
  : list (str * Evidence) :=
  fold_left (fun d r => dict_set (comment_url r) r d) rows d.

Definition no_url (k : str) (rows : list Evidence) : bool :=
  forallb (fun r' => negb (str_eqb (comment_url r') k)) rows.

Definition matcher := mstate -> (mstate -> option mstate) -> option mstate.

(** [ma] consumes a word of [La] and captures texts of [Ga]. *)
Definition sound (ma : matcher) (La : str -> Prop)
  (Ga : string -> str -> Prop) : Prop :=
  forall st k res,
    ma st k = Some res ->
    exists st' w,
      k st' = Some res /\ rest st = w ++ rest st' /\ La w
      /\ forall n v, In (n, v) (caps st') -> In (n, v) (caps st) \/ Ga n v.

Definition total (k : mstate -> option mstate) : Prop :=
  forall st, k st <> None.

(** [ma] succeeds at [st] as soon as what follows succeeds on every state
    that has the input of [st]. *)
Definition skips (ma : matcher) : Prop :=
  forall st k,
    (forall st', rest st' = rest st -> k st' <> None) -> ma st k <> None.

(** [ma] succeeds where a digit stands, when what follows cannot fail. *)
Definition takes_digit (ma : matcher) : Prop :=
  forall st k d tl,
    total k -> rest st = d :: tl -> is_digit d = true -> ma st k <> None.

Definition below (o : option nat) (n : nat) : Prop :=
  match o with Some j => j < n | None => True end.

(** The state of [search_threads] is sound: no id is twice in the
    results, and the ids seen are the ids of the results. *)
Definition search_inv (st : search_state) : Prop :=
  NoDup (List.map snd (fst st))
  /\ forall id, In id (List.map snd (fst st)) <-> In id (snd st).

(** [st'] comes from [st] by appending results that satisfy [P]. *)
Definition grows (P : str * str -> Prop) (st st' : search_state) : Prop :=
  search_inv st' /\ exists new, fst st' = fst st ++ new /\ Forall P new.

(** A float with a clear sign bit that is not a NaN: zero, a positive
    number or the positive infinity. *)
Definition nonneg (x : Flt.float) : bool :=
  match x with
  | S754_zero false | S754_finite false _ _ | S754_infinity false => true
  | _ => false
  end.

(** [p] holds of every decimal digit. *)
Definition every_digit (p : char -> bool) : bool :=
  forallb (fun z => forallb (fun k => p (z + k)%N)
                            [0; 1; 2; 3; 4; 5; 6; 7; 8; 9]%N)
          DIGIT_ZEROS.

(** The characters of a run of capitals. *)
Definition run_chars (r : char * char * char * char) : list char :=
  match r with
  | (lo, hi, _, step) =>
      List.map (fun k => (lo + N.of_nat k * step)%N)
               (seq 0 (S (N.to_nat ((hi - lo) / step))))
  end.

(** [p] holds of every capital. *)
Definition every_capital (p : char -> bool) : bool :=
  forallb p (flat_map run_chars ((65, 90, 97, 1)%N :: LOWER_RUNS)).

(** A character that [str.lower] leaves as it is, wherever it stands. *)
Definition is_lowered (c : char) : bool :=
  chr_eqb (lower1 c) c && negb (chr_eqb c 931%N) && negb (chr_eqb c 304%N).

(** A text of decimal digits and points. *)
Definition plain (s : str) : bool :=
  forallb (fun c => is_digit c || Flt.is_dot c) s.

(** A text of ASCII digits and points. *)
Definition plain_ascii (s : str) : bool :=
  forallb (fun c => Flt.is_ascii_digit c || Flt.is_dot c) s.

End Notions.

(* ------------------------------------------------------------------ *)
(** * Facts about strings *)

Module PyFacts.
Import Py.
Local Open Scope N_scope.

Lemma chr_eqb_eq (a b : char) : chr_eqb a b = true <-> a = b.
Proof. apply N.eqb_eq. Qed.

Lemma chr_eqb_refl (a : char) : chr_eqb a a = true.
Proof. apply N.eqb_refl. Qed.

Lemma str_eqb_eq (a b : str) : str_eqb a b = true <-> a = b.
Proof.
  revert b; induction a as [|x a IH]; intros [|y b]; simpl;
    try (split; [discriminate | discriminate]); try tauto.
  rewrite andb_true_iff, chr_eqb_eq, IH.
  split; [intros [-> ->]; reflexivity | intros H; inversion H; auto].
Qed.

Lemma str_eqb_refl (a : str) : str_eqb a a = true.
Proof. apply str_eqb_eq; reflexivity. Qed.

Lemma between_spec (lo hi c : char) :
  between lo hi c = true <-> (lo <= c /\ c <= hi)%N.
Proof.
  unfold between. rewrite andb_true_iff, !N.leb_le. tauto.
Qed.

Lemma between_false (lo hi c : char) :
  between lo hi c = false <-> (c < lo \/ hi < c)%N.
Proof.
  unfold between. rewrite andb_false_iff, !N.leb_gt. tauto.
Qed.

(** The characters of a run are listed by [run_chars]. *)
Lemma in_run_chars (c : char) (r : char * char * char * char) :
  in_run c r = true -> In c (Notions.run_chars r).
Proof.
  destruct r as [[[lo hi] l] step]. unfold in_run, Notions.run_chars.
  intros H. apply andb_true_iff in H. destruct H as [Hb Hm].
  apply between_spec in Hb. apply N.eqb_eq in Hm.
  apply in_map_iff. exists (N.to_nat ((c - lo) / step)). split.
  - rewrite N2Nat.id.
    destruct (N.eq_dec step 0) as [-> | Hs].
    + rewrite N.mod_0_r in Hm. rewrite N.mul_0_r. lia.
    + pose proof (N.div_mod (c - lo) step Hs) as E. rewrite Hm in E. lia.
  - apply in_seq. split; [apply Nat.le_0_l|].
    assert (Hd : (c - lo) / step <= (hi - lo) / step)
      by (apply N.Div0.div_le_mono; lia).
    revert Hd. generalize ((c - lo) / step), ((hi - lo) / step).
    intros q1 q2 Hd. lia.
Qed.

Lemma lower1_ascii_capital (c : char) :
  between 65 90 c = true -> lower1 c = c + 32.
Proof.
  intros H. unfold lower1. rewrite H.
  apply between_spec in H.
  assert (E : N.ltb c 128 = true) by (apply N.ltb_lt; lia).
  rewrite E. reflexivity.
Qed.

(** What holds of the capitals holds of every character that [lower1]
    changes. *)
Lemma every_capital_spec (p : char -> bool) :
  Notions.every_capital p = true ->
  forall c, p c = true \/ lower1 c = c.
Proof.
  intros H c. unfold Notions.every_capital in H. rewrite forallb_forall in H.
  unfold lower1.
  destruct (N.ltb c 128).
  - destruct (between 65 90 c) eqn:E; [|right; reflexivity].
    left. apply H, in_flat_map. exists (65, 90, 97, 1). split; [left; reflexivity|].
    apply in_run_chars. unfold in_run. rewrite E, N.mod_1_r. reflexivity.
  - destruct (List.find (in_run c) LOWER_RUNS) as [r|] eqn:E;
      [|right; reflexivity].
    left. apply find_some in E. destruct E as [Hr Hc].
    apply H, in_flat_map. exists r. split; [right; exact Hr|].
    apply in_run_chars, Hc.
Qed.

(** A capital is no white space, and its small letter is no digit, no
    capital, and is left as it is by [str.lower]. *)
Lemma capital_facts (c : char) :
  lower1 c = c
  \/ (is_space c = false /\ is_digit (lower1 c) = false
      /\ Notions.is_lowered (lower1 c) = true
      /\ between 65 90 (lower1 c) = false).
Proof.
  assert (T : Notions.every_capital
                (fun x => negb (is_space x) && negb (is_digit (lower1 x))
                          && Notions.is_lowered (lower1 x)
                          && negb (between 65 90 (lower1 x))) = true)
    by (vm_compute; reflexivity).
  destruct (every_capital_spec _ T c) as [H | H]; [right | left; exact H].
  rewrite !andb_true_iff, !negb_true_iff in H. tauto.
Qed.

Lemma lowered_spec (c : char) :
  Notions.is_lowered c = true <-> lower1 c = c /\ c <> 931 /\ c <> 304.
Proof.
  unfold Notions.is_lowered.
  rewrite !andb_true_iff, !negb_true_iff, chr_eqb_eq.
  unfold chr_eqb. rewrite !N.eqb_neq. tauto.
Qed.

(** Lowering is idempotent. *)
Lemma lower1_idem (c : char) : lower1 (lower1 c) = lower1 c.
Proof.
  destruct (capital_facts c) as [H | [_ [_ [H _]]]].
  - rewrite !H. reflexivity.
  - apply lowered_spec in H. apply H.
Qed.

Lemma lower1_not_capital (x : char) : between 65 90 (lower1 x) = false.
Proof.
  destruct (capital_facts x) as [H | [_ [_ [_ H]]]]; [|exact H].
  destruct (between 65 90 x) eqn:E.
  - rewrite (lower1_ascii_capital x E) in H. lia.
  - rewrite H. exact E.
Qed.

(** White space is kept by [lower1]. *)
Lemma lower1_space (c : char) : is_space c = true -> lower1 c = c.
Proof.
  intros H. destruct (capital_facts c) as [E | [E _]]; [exact E | congruence].
Qed.

Lemma lower_chr_lowered (before after : str) (c x : char) :
  In x (lower_chr before after c) -> Notions.is_lowered x = true.
Proof.
  unfold lower_chr, final_sigma.
  destruct (chr_eqb c 931) eqn:E1.
  - destruct (cased_first before && negb (cased_first after));
      intros [<- | []]; vm_compute; reflexivity.
  - destruct (chr_eqb c 304) eqn:E2.
    + intros [<- | [<- | []]]; vm_compute; reflexivity.
    + intros [<- | []].
      destruct (capital_facts c) as [H | [_ [_ [H _]]]]; [|exact H].
      apply lowered_spec. unfold chr_eqb in E1, E2.
      apply N.eqb_neq in E1, E2. rewrite H. auto.
Qed.

(** What [str.lower] gives is in lower case. *)
Lemma lower_from_lowered (before s : str) :
  forallb Notions.is_lowered (lower_from before s) = true.
Proof.
  revert before. induction s as [|c s IH]; intros before; [reflexivity|].
  cbn [lower_from]. rewrite forallb_app, IH, andb_true_r.
  apply forallb_forall. intros x. apply lower_chr_lowered.
Qed.

(** A text in lower case is left as it is. *)
Lemma lower_from_fixed (before s : str) :
  forallb Notions.is_lowered s = true -> lower_from before s = s.
Proof.
  revert before. induction s as [|c s IH]; intros before H; [reflexivity|].
  cbn [forallb] in H. apply andb_true_iff in H. destruct H as [Hc Hs].
  cbn [lower_from]. rewrite (IH _ Hs).
  apply lowered_spec in Hc. destruct Hc as [H1 [H2 H3]].
  unfold lower_chr, chr_eqb.
  apply N.eqb_neq in H2, H3. rewrite H2, H3, H1. reflexivity.
Qed.

Lemma lower_fixed (s : str) :
  forallb Notions.is_lowered s = true -> lower s = s.
Proof. apply lower_from_fixed. Qed.

Lemma lower_idem (s : str) : lower (lower s) = lower s.
Proof. apply lower_fixed, lower_from_lowered. Qed.

Lemma space_lowered (c : char) :
  is_space c = true -> Notions.is_lowered c = true.
Proof.
  intros H. apply lowered_spec. split; [apply lower1_space, H|].
  split; intros ->; vm_compute in H; discriminate.
Qed.

(** White space is kept by [lower]. *)
Lemma lower_spaces (g : str) : forallb is_space g = true -> lower g = g.
Proof.
  intros H. apply lower_fixed. rewrite forallb_forall in *.
  intros c Hc. apply space_lowered, H, Hc.
Qed.

(** A lowered text holds no capital of A..Z. *)
Lemma lower_no_capital (c : char) (s : str) :
  In c (lower s) -> between 65 90 c = false.
Proof.
  intros H.
  pose proof (lower_from_lowered [] s) as L. rewrite forallb_forall in L.
  apply L, lowered_spec in H. destruct H as [H _].
  rewrite <- H. apply lower1_not_capital.
Qed.

Lemma startswith_spec (p s : str) :
  startswith p s = true <-> exists t, s = p ++ t.
Proof.
  revert s; induction p as [|x p IH]; intros s; simpl.
  - split; [intros _; exists s; reflexivity | reflexivity].
  - destruct s as [|y s].
    + split; [discriminate | intros [t H]; discriminate].
    + rewrite andb_true_iff, chr_eqb_eq, IH. split.
      * intros [-> [t ->]]. exists t. reflexivity.
      * intros [t H]. inversion H. split; [reflexivity | exists t; reflexivity].
Qed.

(** [isin] is the occurrence of a substring. *)
Lemma isin_spec (needle hay : str) :
  isin needle hay = true <-> exists l r, hay = l ++ needle ++ r.
Proof.
  induction hay as [|c hay IH].
  - simpl. rewrite orb_false_r, startswith_spec. split.
    + intros [t H]. exists [], t. exact H.
    + intros [l [r H]]. destruct l; simpl in H.
      * exists r. exact H.
      * discriminate.
  - simpl. rewrite orb_true_iff, startswith_spec, IH. split.
    + intros [[t H] | [l [r H]]].
      * exists [], t. exact H.
      * exists (c :: l), r. rewrite H. reflexivity.
    + intros [l [r H]]. destruct l as [|x l]; simpl in H.
      * left. exists r. exact H.
      * right. inversion H. exists l, r. reflexivity.
Qed.

Lemma any_in_spec (cues : list str) (text : str) :
  any_in cues text = true <-> exists c, In c cues /\ isin c text = true.
Proof. unfold any_in. apply existsb_exists. Qed.

(** What holds of the ten digits of every run holds of every digit. *)
Lemma every_digit_spec (p : char -> bool) :
  Notions.every_digit p = true -> forall c, is_digit c = true -> p c = true.
Proof.
  intros H c Hc. unfold is_digit, digit_zero in Hc.
  destruct (List.find (fun z => between z (z + 9) c) DIGIT_ZEROS) as [z|] eqn:E;
    [|discriminate].
  apply find_some in E. destruct E as [Hz Hb]. apply between_spec in Hb.
  unfold Notions.every_digit in H. rewrite forallb_forall in H.
  specialize (H z Hz). rewrite forallb_forall in H.
  replace c with (z + (c - z)) by lia. apply H.
  assert (Hk : c - z = 0 \/ c - z = 1 \/ c - z = 2 \/ c - z = 3 \/ c - z = 4
               \/ c - z = 5 \/ c - z = 6 \/ c - z = 7 \/ c - z = 8
               \/ c - z = 9) by lia.
  cbn [In]. intuition congruence.
Qed.

(** A digit is an ASCII digit or stands above U+065F. *)
Lemma digit_range (c : char) :
  is_digit c = true -> 48 <= c <= 57 \/ 1632 <= c.
Proof.
  intros H.
  apply (every_digit_spec (fun x => between 48 57 x || N.leb 1632 x)) in H;
    [|vm_compute; reflexivity].
  apply orb_true_iff in H. destruct H as [H | H].
  - left. apply between_spec, H.
  - right. apply N.leb_le, H.
Qed.

Lemma digit_not_space (c : char) : is_digit c = true -> is_space c = false.
Proof.
  intros H.
  apply (every_digit_spec (fun x => negb (is_space x))) in H;
    [|vm_compute; reflexivity].
  apply negb_true_iff, H.
Qed.

Lemma digit_lower1 (c : char) : is_digit c = true -> lower1 c = c.
Proof.
  intros H.
  apply (every_digit_spec (fun x => chr_eqb (lower1 x) x)) in H;
    [|vm_compute; reflexivity].
  apply chr_eqb_eq, H.
Qed.

Lemma is_digit_lower1 (x : char) :
  is_digit (lower1 x) = true -> is_digit x = true.
Proof.
  destruct (capital_facts x) as [H | [_ [H _]]].
  - rewrite H. auto.
  - congruence.
Qed.

Lemma is_digit_lower (c : char) : is_digit (lower1 c) = is_digit c.
Proof.
  destruct (is_digit c) eqn:E.
  - rewrite (digit_lower1 c E). exact E.
  - destruct (is_digit (lower1 c)) eqn:E2; [|reflexivity].
    apply is_digit_lower1 in E2. congruence.
Qed.

(** [str.lower] brings no digit and takes none away. *)
Lemma lower_from_digits (before s : str) :
  existsb is_digit (lower_from before s) = existsb is_digit s.
Proof.
  revert before. induction s as [|c s IH]; intros before; [reflexivity|].
  cbn [lower_from existsb]. rewrite existsb_app, IH. f_equal.
  unfold lower_chr, final_sigma.
  destruct (chr_eqb c 931) eqn:E1.
  - apply chr_eqb_eq in E1. subst c.
    destruct (cased_first before && negb (cased_first s));
      vm_compute; reflexivity.
  - destruct (chr_eqb c 304) eqn:E2.
    + apply chr_eqb_eq in E2. subst c. vm_compute. reflexivity.
    + cbn [existsb]. rewrite orb_false_r. apply is_digit_lower.
Qed.

Lemma digits_lower (s : str) :
  existsb is_digit (lower s) = existsb is_digit s.
Proof. apply lower_from_digits. Qed.

End PyFacts.

(* ------------------------------------------------------------------ *)
(** * The score of Strategy B: ranges of its parts *)

Module ScoreFacts.
Import Py Re Scrape Spec PyFacts.
Local Open Scope Z_scope.

(** The cue lists of the sentiment are written in lower case. *)
Lemma FAIL_CUES_lower : forall cue, In cue FAIL_CUES -> lower cue = cue.
Proof.
  assert (H : forallb (fun c => str_eqb (lower c) c) FAIL_CUES = true)
    by (vm_compute; reflexivity).
  intros cue Hin. rewrite forallb_forall in H.
  apply str_eqb_eq. apply H. exact Hin.
Qed.

(** The test of [_sentiment_points] is the occurrence of a failure cue. *)
Lemma fail_test_spec (body : str) :
  _text_has_any (lower body) FAIL_CUES = has_failure_cue body.
Proof.
  unfold _text_has_any, has_failure_cue, any_in, occurs_ci.
  rewrite lower_idem.
  apply eq_true_iff_eq. rewrite !existsb_exists.
  split; intros [cue [Hin H]]; exists cue; split; auto.
  - rewrite (FAIL_CUES_lower _ Hin). exact H.
  - rewrite (FAIL_CUES_lower _ Hin) in H. exact H.
Qed.

Lemma sentiment_fail (body : str) :
  has_failure_cue body = true -> _sentiment_points body = -999.
Proof.
  intros H. unfold _sentiment_points.
  rewrite fail_test_spec, H. reflexivity.
Qed.

Lemma sentiment_no_fail (body : str) :
  has_failure_cue body = false -> 5 <= _sentiment_points body <= 10.
Proof.
  intros H. unfold _sentiment_points.
  rewrite fail_test_spec, H.
  destruct (_text_has_any (lower body) SUCCESS_CUES);
    [lia | destruct (_text_has_any (lower body) DOUBT_CUES); lia].
Qed.

Lemma precision_range (body rev_text : str) :
  5 <= _precision_points body rev_text <= 10.
Proof.
  unfold _precision_points.
  match goal with |- context [if ?b then _ else _] => destruct b end; lia.
Qed.

Lemma period_points_range (period : option str) :
  0 <= _period_points period <= 15.
Proof.
  unfold _period_points.
  repeat match goal with
         | |- context [if ?b then _ else _] => destruct b; try lia
         end.
  destruct period as [[|c p]|]; lia.
Qed.

Lemma market_range (body : str) : 0 <= _market_points body <= 20.
Proof.
  unfold _market_points.
  repeat match goal with
         | |- context [if ?b then _ else _] => destruct b
         end; lia.
Qed.

Lemma stack_range (body title : str) : 0 <= _stack_points body title <= 15.
Proof. unfold _stack_points. lia. Qed.

(** The score with and without a failure cue. *)
Lemma score_fail (body title : str) (m : re_match) (cur unit : option str) :
  has_failure_cue body = true -> compute_score_v2 body title m cur unit = 0.
Proof.
  intros H. unfold compute_score_v2.
  rewrite (sentiment_fail _ H). reflexivity.
Qed.

Lemma score_no_fail (body title : str) (m : re_match) (cur unit : option str) :
  has_failure_cue body = false ->
  35 <= compute_score_v2 body title m cur unit <= 100.
Proof.
  intros H. unfold compute_score_v2.
  pose proof (sentiment_no_fail _ H) as Hs.
  pose proof (precision_range body (m_text m)) as Hp.
  pose proof (period_points_range (_detect_period unit body)) as Hq.
  pose proof (market_range body) as Hm.
  pose proof (stack_range body title) as Hk.
  cbv zeta.
  destruct (_sentiment_points body <? 0) eqn:E; [apply Z.ltb_lt in E; lia|].
  match goal with
  | |- context [if ?b then 5 else 0] => destruct b
  end; lia.
Qed.

(** The score of an evidence record is the score of its body. *)
Lemma evidence_score (sr : str) (sub : submission) (c : comment) (ev : Evidence) :
  extract_evidence sr sub c = Some ev ->
  exists body m cur unit,
    c_body c = Some body /\ post ev = strip body
    /\ score ev = compute_score_v2 body (s_title sub) m cur unit.
Proof.
  unfold extract_evidence. destruct (c_body c) as [body|]; [|discriminate].
  destruct body as [|x body]; [discriminate|].
  destruct (search false REVENUE_PATTERNS (x :: body)) as [m|]; [|discriminate].
  intros H. inversion H; subst; clear H. simpl.
  eexists _, m, _, _. split; [reflexivity|]. split; reflexivity.
Qed.

End ScoreFacts.

(* ------------------------------------------------------------------ *)
(** * The stable sort *)

Module SortFacts.
Import Py PyFacts.

Section StableSort.
Variables A K : Type.
Variable key : A -> K.
Variable cmp : K -> K -> comparison.
Hypothesis cmp_refl : forall k, cmp k k = Eq.
Hypothesis cmp_eq : forall a b, cmp a b = Eq -> a = b.
Hypothesis cmp_gt : forall a b, cmp a b = Gt -> cmp b a = Lt.

Local Abbreviation le := (key_le key cmp).
Local Abbreviation ins := (insert key cmp).
Local Abbreviation srt := (sorted key cmp).

Local Abbreviation le_prop := (fun a b : A => le a b = true).

Lemma le_total (a b : A) : le a b = true \/ le b a = true.
Proof.
  unfold key_le. destruct (cmp (key a) (key b)) eqn:E; auto.
  right. rewrite (cmp_gt _ _ E). reflexivity.
Qed.

Lemma insert_perm (x : A) (l : list A) : Permutation (x :: l) (ins x l).
Proof.
  induction l as [|y l IH]; simpl; [apply Permutation_refl|].
  destruct (le x y); [apply Permutation_refl|].
  eapply perm_trans; [apply perm_swap|]. apply perm_skip. exact IH.
Qed.

Lemma sorted_perm (l : list A) : Permutation l (srt l).
Proof.
  induction l as [|x l IH]; simpl; [constructor|].
  eapply perm_trans; [apply perm_skip; exact IH | apply insert_perm].
Qed.

Lemma insert_hdrel (a x : A) (l : list A) :
  le a x = true -> HdRel le_prop a l -> HdRel le_prop a (ins x l).
Proof.
  intros Hax H. destruct l as [|y l]; simpl.
  - constructor. exact Hax.
  - destruct (le x y); constructor; [exact Hax|].
    inversion H; assumption.
Qed.

Lemma insert_sorted (x : A) (l : list A) :
  Sorted le_prop l -> Sorted le_prop (ins x l).
Proof.
  induction l as [|y l IH]; intros Hs; simpl.
  - repeat constructor.
  - inversion Hs as [|? ? Hl Hh]; subst.
    destruct (le x y) eqn:E.
    + constructor; [exact Hs | constructor; exact E].
    + constructor; [apply IH; exact Hl|].
      apply insert_hdrel; [|exact Hh].
      destruct (le_total x y) as [H|H]; [congruence | exact H].
Qed.

Lemma sorted_sorted (l : list A) : Sorted le_prop (srt l).
Proof.
  induction l as [|x l IH]; simpl; [constructor | apply insert_sorted, IH].
Qed.

(** Sorting a sorted list changes nothing. *)
Lemma sorted_fixpoint (l : list A) : Sorted le_prop l -> srt l = l.
Proof.
  induction l as [|x l IH]; intros Hs; simpl; [reflexivity|].
  inversion Hs as [|? ? Hl Hh]; subst. rewrite (IH Hl).
  destruct l as [|y l]; simpl; [reflexivity|].
  inversion Hh as [|? ? Hxy]; subst. cbv beta in Hxy. rewrite Hxy.
  reflexivity.
Qed.

Lemma sorted_idempotent (l : list A) : srt (srt l) = srt l.
Proof. apply sorted_fixpoint, sorted_sorted. Qed.

(** Stability: the elements of one key keep their order. *)
Lemma filter_insert (k : K) (x : A) (l : list A) :
  filter (same_key key cmp k) (ins x l)
  = if same_key key cmp k x then x :: filter (same_key key cmp k) l
    else filter (same_key key cmp k) l.
Proof.
  induction l as [|y l IH]; simpl; [reflexivity|].
  destruct (le x y) eqn:E; simpl; [reflexivity|].
  rewrite IH.
  destruct (same_key key cmp k x) eqn:Ex;
    destruct (same_key key cmp k y) eqn:Ey; try reflexivity.
  exfalso. unfold same_key in Ex, Ey.
  destruct (cmp k (key x)) eqn:Cx; try discriminate.
  destruct (cmp k (key y)) eqn:Cy; try discriminate.
  apply cmp_eq in Cx. apply cmp_eq in Cy.
  unfold key_le in E. rewrite <- Cx, <- Cy, cmp_refl in E. discriminate.
Qed.

Lemma sorted_stable (k : K) (l : list A) :
  filter (same_key key cmp k) (srt l) = filter (same_key key cmp k) l.
Proof.
  induction l as [|x l IH]; simpl; [reflexivity|].
  rewrite filter_insert, IH. reflexivity.
Qed.

End StableSort.

(** The comparisons of the two rankings. *)
Lemma str_compare_refl (a : str) : str_compare a a = Eq.
Proof.
  induction a as [|x a IH]; simpl; [reflexivity|].
  rewrite N.compare_refl. exact IH.
Qed.

Lemma str_compare_eq (a b : str) : str_compare a b = Eq -> a = b.
Proof.
  revert b; induction a as [|x a IH]; intros [|y b]; simpl;
    try discriminate; [reflexivity|].
  destruct (N.compare x y) eqn:E; try discriminate.
  apply N.compare_eq in E. intros H. rewrite E, (IH _ H). reflexivity.
Qed.

Lemma str_compare_gt (a b : str) : str_compare a b = Gt -> str_compare b a = Lt.
Proof.
  revert b; induction a as [|x a IH]; intros [|y b]; simpl;
    try discriminate; [reflexivity|].
  rewrite (N.compare_antisym x y).
  destruct (N.compare x y); simpl; try discriminate; auto.
Qed.

Lemma key_compare_refl (k : Z * str * str) : Scrape.key_compare k k = Eq.
Proof.
  destruct k as [[s n] t]. simpl.
  rewrite Z.compare_refl, !str_compare_refl. reflexivity.
Qed.

Lemma key_compare_eq (a b : Z * str * str) :
  Scrape.key_compare a b = Eq -> a = b.
Proof.
  destruct a as [[sa na] ta], b as [[sb nb] tb]. simpl.
  destruct (Z.compare sa sb) eqn:E1; try discriminate.
  destruct (str_compare na nb) eqn:E2; try discriminate.
  intros E3. apply Z.compare_eq in E1. apply str_compare_eq in E2, E3.
  subst. reflexivity.
Qed.

Lemma key_compare_gt (a b : Z * str * str) :
  Scrape.key_compare a b = Gt -> Scrape.key_compare b a = Lt.
Proof.
  destruct a as [[sa na] ta], b as [[sb nb] tb]. simpl.
  rewrite (Z.compare_antisym sa sb).
  destruct (Z.compare sa sb) eqn:E1; simpl; try discriminate; auto.
  destruct (str_compare na nb) eqn:E2; try discriminate.
  - apply str_compare_eq in E2. subst. rewrite str_compare_refl.
    apply str_compare_gt.
  - intros _. rewrite (str_compare_gt _ _ E2). reflexivity.
Qed.

Lemma pair_compare_refl (k : Z * Z) : Run.pair_compare k k = Eq.
Proof.
  unfold Run.pair_compare. rewrite !Z.compare_refl. reflexivity.
Qed.

Lemma pair_compare_eq (a b : Z * Z) : Run.pair_compare a b = Eq -> a = b.
Proof.
  destruct a as [a1 a2], b as [b1 b2]. unfold Run.pair_compare. simpl.
  destruct (Z.compare a1 b1) eqn:E1; try discriminate.
  intros E2. apply Z.compare_eq in E1, E2. subst. reflexivity.
Qed.

Lemma pair_compare_gt (a b : Z * Z) :
  Run.pair_compare a b = Gt -> Run.pair_compare b a = Lt.
Proof.
  destruct a as [a1 a2], b as [b1 b2]. unfold Run.pair_compare. simpl.
  rewrite (Z.compare_antisym a1 b1), (Z.compare_antisym a2 b2).
  destruct (Z.compare a1 b1); simpl; try discriminate; auto.
  destruct (Z.compare a2 b2); simpl; try discriminate; auto.
Qed.

End SortFacts.

(* ------------------------------------------------------------------ *)
(** * Deduplication and the crawl *)

Module DedupFacts.
Import Py PyFacts Scrape Spec Notions.

Lemma uniq_fill (rows : list Evidence) : uniq rows = List.map snd (fill [] rows).
Proof. reflexivity. Qed.

Lemma str_eqb_neq (a b : str) : str_eqb a b = false <-> a <> b.
Proof.
  split.
  - intros H E. apply str_eqb_eq in E. congruence.
  - intros H. destruct (str_eqb a b) eqn:E; [|reflexivity].
    apply str_eqb_eq in E. contradiction.
Qed.

Lemma dict_set_keys {V} (k : str) (v : V) (d : list (str * V)) :
  List.map fst (dict_set k v d)
  = if existsb (str_eqb k) (List.map fst d) then List.map fst d
    else List.map fst d ++ [k].
Proof.
  induction d as [|[k' v'] d IH]; simpl; [reflexivity|].
  destruct (str_eqb k' k) eqn:E.
  - apply str_eqb_eq in E. subst. rewrite str_eqb_refl. reflexivity.
  - assert (E' : str_eqb k k' = false).
    { apply str_eqb_neq. intros ->. rewrite str_eqb_refl in E. discriminate. }
    rewrite E'. simpl. rewrite IH.
    destruct (existsb (str_eqb k) (List.map fst d)); reflexivity.
Qed.

Lemma existsb_str_In (k : str) (l : list str) :
  existsb (str_eqb k) l = true <-> In k l.
Proof.
  rewrite existsb_exists. split.
  - intros [x [Hx E]]. apply str_eqb_eq in E. subst. exact Hx.
  - intros H. exists k. split; [exact H | apply str_eqb_refl].
Qed.

Lemma dict_set_fresh {V} (k : str) (v : V) (d : list (str * V)) :
  ~ In k (List.map fst d) -> dict_set k v d = d ++ [(k, v)].
Proof.
  induction d as [|[k' v'] d IH]; simpl; intros H; [reflexivity|].
  destruct (str_eqb k' k) eqn:E.
  - apply str_eqb_eq in E. subst. tauto.
  - rewrite IH; [reflexivity | tauto].
Qed.

Lemma dict_set_In {V} (k0 : str) (v0 : V) (d : list (str * V)) (k : str) (v : V) :
  NoDup (List.map fst d) ->
  In (k, v) (dict_set k0 v0 d)
  <-> (k = k0 /\ v = v0) \/ (k <> k0 /\ In (k, v) d).
Proof.
  induction d as [|[k' v'] d IH]; simpl; intros Hnd.
  - split.
    + intros [H|[]]. inversion H. auto.
    + intros [[-> ->]|[_ []]]. auto.
  - inversion Hnd as [|? ? Hk' Hd]; subst.
    destruct (str_eqb k' k0) eqn:E.
    + apply str_eqb_eq in E. subst k'. simpl. split.
      * intros [H|H]; [inversion H; auto|].
        right. split; [|auto].
        intros ->. apply Hk'. apply (in_map fst) in H. exact H.
      * intros [[-> ->]|[Hne [H|H]]]; auto.
        inversion H. congruence.
    + apply str_eqb_neq in E. simpl. rewrite (IH Hd). split.
      * intros [H|[H|[Hne H]]]; auto.
        inversion H; subst. auto.
      * intros [H|[Hne [H|H]]]; auto.
Qed.

Lemma dict_set_url_dict (r : Evidence) (d : list (str * Evidence)) :
  url_dict d -> url_dict (dict_set (comment_url r) r d).
Proof.
  intros [Hnd Hk]. split.
  - rewrite dict_set_keys.
    destruct (existsb (str_eqb (comment_url r)) (List.map fst d)) eqn:E;
      [exact Hnd|].
    apply NoDup_rev in Hnd. rewrite <- (rev_involutive (_ ++ _)).
    apply NoDup_rev. rewrite rev_app_distr. simpl. constructor; [|exact Hnd].
    rewrite <- in_rev. intros H. apply existsb_str_In in H. congruence.
  - intros k v H. apply (dict_set_In _ _ _ _ _ Hnd) in H.
    destruct H as [[-> ->]|[_ H]]; [reflexivity | apply Hk, H].
Qed.

Lemma fill_url_dict (rows : list Evidence) (d : list (str * Evidence)) :
  url_dict d -> url_dict (fill d rows).
Proof.
  revert d; induction rows as [|r rows IH]; intros d Hd; simpl; [exact Hd|].
  apply IH, dict_set_url_dict, Hd.
Qed.

Lemma url_dict_nil : url_dict [].
Proof. split; [constructor | intros k v []]. Qed.

Lemma url_dict_urls (d : list (str * Evidence)) :
  url_dict d -> List.map comment_url (List.map snd d) = List.map fst d.
Proof.
  intros [_ Hk]. induction d as [|[k v] d IH]; simpl; [reflexivity|].
  rewrite IH.
  - rewrite <- (Hk k v); [reflexivity | left; reflexivity].
  - intros k' v' H. apply Hk. right. exact H.
Qed.

(** One record per URL. *)
Lemma uniq_NoDup (rows : list Evidence) :
  NoDup (List.map comment_url (uniq rows)).
Proof.
  rewrite uniq_fill.
  pose proof (fill_url_dict rows [] url_dict_nil) as H.
  rewrite (url_dict_urls _ H). apply H.
Qed.

Lemma last_of_its_url_cons (r r0 : Evidence) (rows : list Evidence) :
  last_of_its_url r (r0 :: rows)
  <-> (r = r0 /\ no_url (comment_url r) rows = true) \/ last_of_its_url r rows.
Proof.
  unfold last_of_its_url. split.
  - intros [b [a [E H]]]. destruct b as [|x b]; simpl in E; inversion E; subst.
    + left. split; [reflexivity | exact H].
    + right. exists b, a. split; [reflexivity | exact H].
  - intros [[-> H]|[b [a [E H]]]].
    + exists [], rows. split; [reflexivity | exact H].
    + exists (r0 :: b), a. subst. split; [reflexivity | exact H].
Qed.

Lemma last_of_its_url_nil (r : Evidence) : ~ last_of_its_url r [].
Proof. intros [b [a [E _]]]. destruct b; discriminate. Qed.

(** The entries of the dictionary after the rows have been set. *)
Lemma fill_In (rows : list Evidence) (d : list (str * Evidence)) (k : str)
  (v : Evidence) :
  url_dict d ->
  In (k, v) (fill d rows)
  <-> (k = comment_url v /\ last_of_its_url v rows)
      \/ (In (k, v) d /\ no_url k rows = true).
Proof.
  revert d; induction rows as [|r rows IH]; intros d Hd; simpl.
  - split.
    + intros H. right. split; [exact H | reflexivity].
    + intros [[_ H]|[H _]]; [destruct (last_of_its_url_nil _ H) | exact H].
  - rewrite (IH _ (dict_set_url_dict r d Hd)).
    rewrite (dict_set_In _ _ _ _ _ (proj1 Hd)).
    rewrite last_of_its_url_cons. unfold no_url at 2. simpl.
    fold (no_url k rows). rewrite andb_true_iff, negb_true_iff, str_eqb_neq.
    split.
    + intros [[E H]|[[[-> ->]|[Hne Hin]] Hno]].
      * left. split; [exact E | right; exact H].
      * left. split; [reflexivity | left; split; [reflexivity | exact Hno]].
      * right. split; [exact Hin | split; [congruence | exact Hno]].
    + intros [[E [[-> Hno]|H]]|[Hin [Hne Hno]]].
      * right. split; [left; split; [exact E | reflexivity]|].
        subst k. exact Hno.
      * left. split; [exact E | exact H].
      * right. split; [right; split; [congruence | exact Hin] | exact Hno].
Qed.

(** The record kept for a URL is the last row that carries it. *)
Lemma uniq_In (rows : list Evidence) (r : Evidence) :
  In r (uniq rows) <-> last_of_its_url r rows.
Proof.
  rewrite uniq_fill, in_map_iff. split.
  - intros [[k v] [E H]]. simpl in E. subst v.
    apply (fill_In _ _ _ _ url_dict_nil) in H.
    destruct H as [[_ H]|[[] _]]. exact H.
  - intros H. exists (comment_url r, r). split; [reflexivity|].
    apply (fill_In _ _ _ _ url_dict_nil). left. split; [reflexivity | exact H].
Qed.

Lemma fill_fresh (rows : list Evidence) (d : list (str * Evidence)) :
  NoDup (List.map fst d ++ List.map comment_url rows) ->
  fill d rows = d ++ List.map (fun r => (comment_url r, r)) rows.
Proof.
  revert d; induction rows as [|r rows IH]; intros d H; simpl.
  - rewrite app_nil_r. reflexivity.
  - simpl in H. pose proof (NoDup_remove_2 _ _ _ H) as Hr.
    rewrite dict_set_fresh by (intros Hin; apply Hr, in_or_app; auto).
    rewrite IH.
    + rewrite <- app_assoc. reflexivity.
    + rewrite map_app. simpl. rewrite <- app_assoc. simpl.
      exact H.
Qed.

(** Rows with distinct URLs are left as they are. *)
Lemma uniq_fixpoint (rows : list Evidence) :
  NoDup (List.map comment_url rows) -> uniq rows = rows.
Proof.
  intros H. rewrite uniq_fill, fill_fresh by exact H. simpl.
  rewrite map_map. simpl. apply map_id.
Qed.

(** ** The crawl skips the identifiers it has seen *)

Lemma scrape_comments_spec (sr : str) (sub : submission) (cs : list comment)
  (ids : list str) (evs : list Evidence)
  (rest : list (str * submission * comment)) :
  let '(ids', evs') := scrape_comments sr sub cs ids evs in
  evs' ++ flat_map evidence_of (first_seen ids' rest)
  = evs ++ flat_map evidence_of
             (first_seen ids (List.map (fun c => (sr, sub, c)) cs ++ rest)).
Proof.
  revert ids evs; induction cs as [|c cs IH]; intros ids evs; simpl.
  - reflexivity.
  - destruct (seen (c_id c) ids) eqn:E.
    + apply IH.
    + specialize (IH (c_id c :: ids)
                    (match extract_evidence sr sub c with
                     | Some ev => evs ++ [ev]
                     | None => evs
                     end)).
      destruct (scrape_comments sr sub cs (c_id c :: ids) _) as [ids' evs'].
      rewrite IH. simpl.
      destruct (extract_evidence sr sub c); simpl; [|reflexivity].
      rewrite <- app_assoc. reflexivity.
Qed.

Lemma scrape_threads_spec (ts : list thread) (ids : list str)
  (evs : list Evidence) :
  scrape_threads ts ids evs
  = evs ++ flat_map evidence_of (first_seen ids (all_comments ts)).
Proof.
  revert ids evs; induction ts as [|[sr [[sub cs]|]] ts IH]; intros ids evs;
    simpl.
  - rewrite app_nil_r. reflexivity.
  - pose proof (scrape_comments_spec sr sub cs ids evs (all_comments ts)) as H.
    destruct (scrape_comments sr sub cs ids evs) as [ids' evs'].
    rewrite IH. exact H.
  - apply IH.
Qed.

(** The records of a run come from the first comment of every identifier. *)
Lemma run_scrape_spec (ts : list thread) :
  run_scrape ts = flat_map evidence_of (first_seen [] (all_comments ts)).
Proof. unfold run_scrape. rewrite scrape_threads_spec. reflexivity. Qed.

(** A second comment with the identifier of the first adds nothing. *)
Lemma run_scrape_refetch (sr : str) (sub : submission) (c1 c2 : comment)
  (cs : list comment) :
  c_id c2 = c_id c1 ->
  run_scrape [(sr, Some (sub, c1 :: c2 :: cs))]
  = run_scrape [(sr, Some (sub, c1 :: cs))].
Proof.
  intros E. rewrite !run_scrape_spec.
  unfold all_comments. simpl flat_map. rewrite !app_nil_r.
  cbn [List.map first_seen seen existsb].
  rewrite E, str_eqb_refl. reflexivity.
Qed.

End DedupFacts.

(* ------------------------------------------------------------------ *)
(** * The matcher: what a match consumes and captures *)

Module ReFacts.
Import Py Re Spec Notions PyFacts.

Lemma step1_inv (p : char -> bool) (st : mstate) (k : mstate -> option mstate)
  (res : mstate) :
  step1 p st k = Some res ->
  exists x xs,
    rest st = x :: xs /\ p x = true /\ k (MState (Some x) xs (caps st)) = Some res.
Proof.
  unfold step1. destruct (rest st) as [|x xs]; [discriminate|].
  destruct (p x) eqn:E; [|discriminate].
  intros H. exists x, xs. auto.
Qed.

Lemma step1_sound (p : char -> bool) (G : string -> str -> Prop) :
  sound (step1 p) (fun w => exists x, w = [x] /\ p x = true) G.
Proof.
  intros st k res H. apply step1_inv in H.
  destruct H as [x [xs [Hr [Hp Hk]]]].
  exists (MState (Some x) xs (caps st)), [x]. simpl.
  repeat split; auto. exists x. auto.
Qed.

Lemma consumed_app (st st' : mstate) (w : str) :
  rest st = w ++ rest st' -> consumed st st' = w.
Proof.
  intros H. unfold consumed. rewrite H, length_app.
  replace (length w + length (rest st') - length (rest st')) with (length w)
    by lia.
  rewrite firstn_app, Nat.sub_diag, firstn_all. simpl. apply app_nil_r.
Qed.

Lemma within_pred (n : nat) (hi : option nat) :
  hi_zero hi = false -> within n (hi_pred hi) -> within (S n) hi.
Proof.
  destruct hi as [[|h]|]; simpl; try discriminate; intros; lia.
Qed.

Lemma rep_loop_sound (ma : matcher) (La : str -> Prop)
  (Ga : string -> str -> Prop) (k : mstate -> option mstate) :
  sound ma La Ga ->
  forall fuel lo hi st res,
    rep_loop ma k fuel lo hi st = Some res ->
    exists st' ws,
      k st' = Some res /\ rest st = concat ws ++ rest st' /\ Forall La ws
      /\ lo <= length ws /\ within (length ws) hi
      /\ forall n v, In (n, v) (caps st') -> In (n, v) (caps st) \/ Ga n v.
Proof.
  intros Hma.
  assert (Hstop : forall lo hi st res,
             match lo with O => k st | S _ => None end = Some res ->
             exists st' ws,
               k st' = Some res /\ rest st = concat ws ++ rest st'
               /\ Forall La ws /\ lo <= length ws /\ within (length ws) hi
               /\ forall n v, In (n, v) (caps st') -> In (n, v) (caps st) \/ Ga n v).
  { intros lo hi st res H. destruct lo; [|discriminate].
    exists st, []. simpl. repeat split; auto.
    destruct hi; simpl; lia. }
  induction fuel as [|fuel IH]; intros lo hi st res H; simpl in H.
  - apply Hstop, H.
  - destruct (hi_zero hi) eqn:Ez; [apply Hstop, H|].
    match type of H with
    | match ?X with _ => _ end = _ => destruct X as [r1|] eqn:E
    end; [|apply Hstop, H].
    inversion H; subst r1; clear H.
    apply Hma in E. destruct E as [st1 [w1 [Hk [Hr [Hw Hc]]]]].
    destruct (Nat.ltb (length (rest st1)) (length (rest st))); [|discriminate].
    apply IH in Hk. destruct Hk as [st' [ws [Hk' [Hr' [Hws [Hlo [Hhi Hc']]]]]]].
    exists st', (w1 :: ws). simpl. repeat split.
    + exact Hk'.
    + rewrite Hr, Hr', app_assoc. reflexivity.
    + constructor; assumption.
    + lia.
    + apply within_pred; assumption.
    + intros n v Hin. destruct (Hc' n v Hin) as [H1|H1]; auto.
Qed.

(** The matcher is sound for [lang] and [group_lang]. *)
Lemma rmatch_sound (ic : bool) (r : regex) :
  sound (rmatch ic r) (lang ic r) (group_lang ic r).
Proof.
  induction r as [|c|items|a IHa b IHb|a IHa b IHb|a IHa lo hi|name a IHa|];
    intros st k res H; simpl in H.
  - exists st, []. simpl. auto.
  - destruct (step1_sound (chr_match ic c) (group_lang ic (Chr c)) _ _ _ H)
      as [st' [w Hs]]. exists st', w. exact Hs.
  - destruct (step1_sound (cls_match ic items) (group_lang ic (Cls items)) _ _ _ H)
      as [st' [w Hs]]. exists st', w. exact Hs.
  - apply IHa in H. destruct H as [st1 [w1 [Hk [Hr [Hw Hc]]]]].
    apply IHb in Hk. destruct Hk as [st2 [w2 [Hk' [Hr' [Hw' Hc']]]]].
    exists st2, (w1 ++ w2). repeat split.
    + exact Hk'.
    + rewrite Hr, Hr', app_assoc. reflexivity.
    + simpl. exists w1, w2. auto.
    + intros n v Hin. simpl. destruct (Hc' n v Hin) as [H1|H1]; auto.
      destruct (Hc n v H1); auto.
  - destruct (rmatch ic a st k) as [r1|] eqn:E.
    + inversion H; subst r1. apply IHa in E.
      destruct E as [st' [w [Hk [Hr [Hw Hc]]]]].
      exists st', w. simpl. repeat split; auto.
      intros n v Hin. destruct (Hc n v Hin); auto.
    + apply IHb in H. destruct H as [st' [w [Hk [Hr [Hw Hc]]]]].
      exists st', w. simpl. repeat split; auto.
      intros n v Hin. destruct (Hc n v Hin); auto.
  - apply (rep_loop_sound (rmatch ic a) (lang ic a) (group_lang ic a) k IHa) in H.
    destruct H as [st' [ws [Hk [Hr [Hws [Hlo [Hhi Hc]]]]]]].
    exists st', (concat ws). simpl. repeat split; auto.
    exists ws. auto.
  - apply IHa in H. destruct H as [st1 [w1 [Hk [Hr [Hw Hc]]]]].
    exists (MState (prev st1) (rest st1) ((name, consumed st st1) :: caps st1)), w1.
    simpl. repeat split; auto.
    intros n v [Hin|Hin].
    + inversion Hin; subst. rewrite (consumed_app _ _ _ Hr). auto.
    + destruct (Hc n v Hin); auto.
  - destruct (at_boundary st); [|discriminate].
    exists st, []. simpl. auto.
Qed.

Lemma lookup_In (name : string) (gs : list (string * str)) (v : str) :
  lookup name gs = Some v -> In (name, v) gs.
Proof.
  induction gs as [|[n x] gs IH]; simpl; [discriminate|].
  destruct (String.eqb n name) eqn:E.
  - apply String.eqb_eq in E. intros H. inversion H. subst. auto.
  - auto.
Qed.

(** What a match object holds. *)
Lemma match_here_sound (ic : bool) (r : regex) (pv : option char) (s : str)
  (i : nat) (m : re_match) :
  match_here ic r pv s i = Some m ->
  s = m_text m ++ m_rest m /\ lang ic r (m_text m)
  /\ forall n v, group m n = Some v -> group_lang ic r n v.
Proof.
  unfold match_here.
  destruct (rmatch ic r (MState pv s []) Some) as [st'|] eqn:E; [|discriminate].
  intros H. inversion H; subst m; clear H. simpl.
  apply rmatch_sound in E. destruct E as [st1 [w [Hk [Hr [Hw Hc]]]]].
  inversion Hk; subst st1. simpl in Hr.
  assert (Ht : firstn (length s - length (rest st')) s = w).
  { rewrite Hr, length_app.
    replace (length w + length (rest st') - length (rest st')) with (length w)
      by lia.
    rewrite firstn_app, Nat.sub_diag, firstn_all. simpl. apply app_nil_r. }
  rewrite Ht. repeat split; auto.
  intros n v Hg. unfold group in Hg. simpl in Hg. apply lookup_In in Hg.
  destruct (Hc n v Hg) as [[]|Hgl]. exact Hgl.
Qed.

Lemma search_at_sound (ic : bool) (r : regex) (s : str) :
  forall (pv : option char) (i : nat) (m : re_match),
    search_at ic r pv s i = Some m ->
    (exists pre, s = pre ++ m_text m ++ m_rest m) /\ lang ic r (m_text m)
    /\ forall n v, group m n = Some v -> group_lang ic r n v.
Proof.
  induction s as [|c s IH]; intros pv i m H; simpl in H.
  - destruct (match_here ic r pv [] i) as [m'|] eqn:E; [|discriminate].
    inversion H; subst m'. apply match_here_sound in E.
    destruct E as [Hs [Hl Hg]]. repeat split; auto. exists []. exact Hs.
  - destruct (match_here ic r pv (c :: s) i) as [m'|] eqn:E.
    + inversion H; subst m'. apply match_here_sound in E.
      destruct E as [Hs [Hl Hg]]. repeat split; auto. exists []. exact Hs.
    + apply IH in H. destruct H as [[pre Hs] [Hl Hg]]. repeat split; auto.
      exists (c :: pre). simpl. rewrite Hs. reflexivity.
Qed.

Lemma search_sound (ic : bool) (r : regex) (s : str) (m : re_match) :
  search ic r s = Some m ->
  (exists pre, s = pre ++ m_text m ++ m_rest m) /\ lang ic r (m_text m)
  /\ forall n v, group m n = Some v -> group_lang ic r n v.
Proof. apply search_at_sound. Qed.

(** [search] finds a match exactly when there is one. *)
Lemma search_at_has_match (ic : bool) (r : regex) (s : str) :
  forall (pv : option char) (i : nat),
    search_at ic r pv s i <> None
    <-> exists pre suf j,
          s = pre ++ suf /\ match_here ic r (last_chr pv pre) suf j <> None.
Proof.
  induction s as [|c s IH]; intros pv i; simpl.
  - destruct (match_here ic r pv [] i) eqn:E.
    + split; [|discriminate]. intros _. exists [], [], i. simpl.
      split; [reflexivity|]. unfold last_chr. simpl. rewrite E. discriminate.
    + split; [congruence|]. intros [pre [suf [j [Hs Hm]]]].
      destruct pre; [|discriminate]. simpl in Hs. subst suf.
      unfold last_chr in Hm. simpl in Hm. exfalso. apply Hm.
      unfold match_here in *.
      destruct (rmatch ic r (MState pv [] []) Some); [discriminate | reflexivity].
  - destruct (match_here ic r pv (c :: s) i) eqn:E.
    + split; [|discriminate]. intros _. exists [], (c :: s), i.
      split; [reflexivity|]. unfold last_chr. simpl. rewrite E. discriminate.
    + rewrite IH. split.
      * intros [pre [suf [j [Hs Hm]]]]. exists (c :: pre), suf, j.
        split; [simpl; rewrite Hs; reflexivity|].
        unfold last_chr in *. simpl.
        destruct (rev pre) eqn:Er; simpl; exact Hm.
      * intros [pre [suf [j [Hs Hm]]]]. destruct pre as [|x pre].
        -- simpl in Hs. subst suf. unfold last_chr in Hm. simpl in Hm.
           exfalso. apply Hm. unfold match_here in *.
           destruct (rmatch ic r (MState pv (c :: s) []) Some);
             [discriminate | reflexivity].
        -- simpl in Hs. inversion Hs; subst x s. exists pre, suf, j.
           split; [reflexivity|].
           unfold last_chr in *. simpl in Hm.
           destruct (rev pre) eqn:Er; simpl in *; exact Hm.
Qed.

Lemma search_has_match (ic : bool) (r : regex) (s : str) :
  search ic r s <> None <-> has_match ic r s.
Proof. apply search_at_has_match. Qed.

(** [finditer] yields a match exactly when [search] does. *)
Lemma finditer_nonempty (ic : bool) (r : regex) (s : str) :
  Run.nonempty (finditer ic r s) = Scrape.is_match (search ic r s).
Proof.
  unfold finditer, search. simpl.
  destruct (search_at ic r None s 0); reflexivity.
Qed.

End ReFacts.

(* ------------------------------------------------------------------ *)
(** * The matcher: when a match is certain *)

Module ReChecks.
Import Py Re Spec Notions PyFacts ReFacts.

Lemma rep_loop_stop (ma : matcher) (k : mstate -> option mstate)
  (fuel : nat) (hi : option nat) (st : mstate) :
  k st <> None -> rep_loop ma k fuel 0 hi st <> None.
Proof.
  intros H. destruct fuel; simpl; [exact H|].
  destruct (hi_zero hi); [exact H|].
  match goal with |- match ?X with _ => _ end <> _ => destruct X end;
    [discriminate | exact H].
Qed.

Lemma skips_total (ma : matcher) (st : mstate) (k : mstate -> option mstate) :
  skips ma -> total k -> ma st k <> None.
Proof. intros Hs Hk. apply Hs. intros st' _. apply Hk. Qed.

Lemma skippable_sound (ic : bool) (r : regex) :
  skippable r = true -> skips (rmatch ic r).
Proof.
  induction r as [|c|items|a IHa b IHb|a IHa b IHb|a IHa lo hi|name a IHa|];
    simpl; intros H st k Hk; try discriminate.
  - apply Hk. reflexivity.
  - apply andb_true_iff in H. destruct H as [Ha Hb].
    apply (IHa Ha). intros st' Hr. apply (IHb Hb). intros st'' Hr'.
    apply Hk. congruence.
  - destruct (rmatch ic a st k) eqn:E; [discriminate|].
    apply orb_true_iff in H. destruct H as [Ha|Hb].
    + exfalso. exact (IHa Ha st k Hk E).
    + apply (IHb Hb). exact Hk.
  - destruct lo; [|discriminate]. apply rep_loop_stop. apply Hk. reflexivity.
  - apply (IHa H). intros st' Hr. apply Hk. simpl. exact Hr.
Qed.

Lemma digit_class_match (ic : bool) (r : regex) (st : mstate)
  (k : mstate -> option mstate) (d : char) (tl : str) :
  digit_class r = true -> rest st = d :: tl -> is_digit d = true ->
  rmatch ic r st k = k (MState (Some d) tl (caps st)).
Proof.
  destruct r; simpl; try discriminate. intros H Hr Hd.
  unfold step1. rewrite Hr.
  assert (E : cls_match ic items d = true).
  { unfold cls_match. apply existsb_exists. apply existsb_exists in H.
    destruct H as [it [Hin Hit]]. exists it. split; [exact Hin|].
    destruct it; try discriminate. simpl. rewrite Hd. reflexivity. }
  rewrite E. reflexivity.
Qed.

Lemma digit_first_sound (ic : bool) (r : regex) :
  digit_first r = true -> takes_digit (rmatch ic r).
Proof.
  induction r as [|c|items|a IHa b IHb|a IHa b IHb|a IHa lo hi|name a IHa|];
    intros H st k d tl Hk Hr Hd.
  - simpl. apply Hk.
  - discriminate.
  - simpl in H. rewrite (digit_class_match ic (Cls items) st k d tl H Hr Hd).
    apply Hk.
  - simpl in H. simpl.
    apply orb_true_iff in H. destruct H as [H|H].
    { apply (skippable_sound ic (Seq a b) H). intros; apply Hk. }
    apply orb_true_iff in H. destruct H as [H|H];
      apply andb_true_iff in H; destruct H as [H1 H2].
    + apply (skippable_sound ic a H1). intros st' Hr'.
      apply (IHb H2 st' k d tl Hk); [congruence | exact Hd].
    + apply (IHa H1 st _ d tl); [|exact Hr | exact Hd].
      intros st'. apply skips_total; [apply skippable_sound, H2 | exact Hk].
  - simpl in H. simpl.
    destruct (rmatch ic a st k) eqn:E; [discriminate|].
    apply orb_true_iff in H. destruct H as [H|H].
    { pose proof (skippable_sound ic (Alt a b) H st k) as Hs. simpl in Hs.
      rewrite E in Hs. apply Hs. intros; apply Hk. }
    apply orb_true_iff in H. destruct H as [H|H].
    + exfalso. exact (IHa H st k d tl Hk Hr Hd E).
    + exact (IHb H st k d tl Hk Hr Hd).
  - simpl in H. apply orb_true_iff in H. destruct H as [H|H].
    { apply (skippable_sound ic (Rep a lo hi) H). intros; apply Hk. }
    apply andb_true_iff in H. destruct H as [H Hc].
    apply andb_true_iff in H. destruct H as [Hlo Hz].
    apply negb_true_iff in Hz. apply Nat.leb_le in Hlo.
    simpl. rewrite Hr. simpl. rewrite Hz.
    rewrite (digit_class_match ic a st _ d tl Hc Hr Hd). simpl.
    rewrite Hr. simpl length.
    assert (Hlt : Nat.ltb (length tl) (S (length tl)) = true)
      by (apply Nat.ltb_lt; lia).
    rewrite Hlt.
    replace (pred lo) with 0 by lia.
    match goal with
    | |- match ?X with _ => _ end <> _ =>
        assert (Hx : X <> None) by (apply rep_loop_stop, Hk);
        destruct X; [discriminate | contradiction]
    end.
  - simpl in H. simpl.
    assert (H' : digit_first a = true).
    { apply orb_true_iff in H. destruct H as [H|H]; [|exact H].
      destruct a; simpl in *; try discriminate; rewrite ?H; auto. }
    apply (IHa H' st _ d tl); [|exact Hr | exact Hd].
    intros st'. apply Hk.
  - discriminate.
Qed.

(** A pattern that takes digits matches in every text that holds one. *)
Lemma search_at_digit (ic : bool) (r : regex) (s : str) :
  digit_first r = true ->
  forall (pv : option char) (i : nat),
    existsb is_digit s = true -> search_at ic r pv s i <> None.
Proof.
  intros Hr. induction s as [|c s IH]; intros pv i Hd; simpl in *;
    [discriminate|].
  unfold match_here at 1.
  destruct (rmatch ic r (MState pv (c :: s) []) Some) eqn:E; [discriminate|].
  destruct (is_digit c) eqn:Ec.
  - exfalso.
    refine (digit_first_sound ic r Hr (MState pv (c :: s) []) Some c s _ _ Ec E).
    + intros st. discriminate.
    + reflexivity.
  - apply IH. exact Hd.
Qed.

Lemma needs_digit_sound (ic : bool) (r : regex) :
  needs_digit r = true ->
  forall w, lang ic r w -> existsb is_digit w = true.
Proof.
  induction r as [|c|items|a IHa b IHb|a IHa b IHb|a IHa lo hi|name a IHa|];
    simpl; intros H w Hw; try discriminate.
  - destruct Hw as [x [-> Hx]]. simpl. rewrite orb_false_r.
    apply andb_true_iff in H. destruct H as [_ H].
    unfold cls_match in Hx. apply existsb_exists in Hx.
    destruct Hx as [it [Hin Hit]].
    rewrite forallb_forall in H. specialize (H it Hin).
    destruct it; try discriminate. simpl in Hit.
    apply orb_true_iff in Hit. destruct Hit as [Hit|Hit]; [exact Hit|].
    apply andb_true_iff in Hit. apply is_digit_lower1, Hit.
  - destruct Hw as [w1 [w2 [-> [H1 H2]]]]. rewrite existsb_app.
    apply orb_true_iff in H. apply orb_true_iff.
    destruct H as [H|H]; [left; apply (IHa H), H1 | right; apply (IHb H), H2].
  - apply andb_true_iff in H. destruct H as [Ha Hb].
    destruct Hw as [Hw|Hw]; [apply (IHa Ha), Hw | apply (IHb Hb), Hw].
  - apply andb_true_iff in H. destruct H as [Hlo Ha].
    apply Nat.ltb_lt in Hlo.
    destruct Hw as [ws [-> [Hws [Hl _]]]].
    destruct ws as [|w1 ws]; [simpl in Hl; lia|].
    simpl. rewrite existsb_app. apply orb_true_iff. left.
    inversion Hws; subst. apply (IHa Ha). assumption.
  - apply (IHa H), Hw.
Qed.

(** A pattern whose matches hold a digit finds nothing in a text without
    digits. *)
Lemma search_needs_digit (ic : bool) (r : regex) (s : str) :
  needs_digit r = true -> existsb is_digit s = false -> search ic r s = None.
Proof.
  intros Hr Hs. destruct (search ic r s) as [m|] eqn:E; [|reflexivity].
  apply search_sound in E. destruct E as [[pre Hp] [Hl _]].
  apply (needs_digit_sound ic r Hr) in Hl.
  rewrite Hp, !existsb_app, Hl, orb_true_r in Hs. discriminate.
Qed.

Lemma search_digit (ic : bool) (r : regex) (s : str) :
  digit_first r = true -> needs_digit r = true ->
  Scrape.is_match (search ic r s) = existsb is_digit s.
Proof.
  intros H1 H2. destruct (existsb is_digit s) eqn:E.
  - pose proof (search_at_digit ic r s H1 None 0 E) as H.
    unfold search. destruct (search_at ic r None s 0); [reflexivity | contradiction].
  - rewrite (search_needs_digit ic r s H2 E). reflexivity.
Qed.

(** ** Finite languages *)

Lemma chr_match_exact (c x : char) : chr_match false c x = true -> x = c.
Proof. unfold chr_match. intros H. apply chr_eqb_eq in H. auto. Qed.

Lemma words_sound (r : regex) :
  forall l w, words r = Some l -> lang false r w -> In w l.
Proof.
  induction r as [|c|items|a IHa b IHb|a IHa b IHb|a IHa lo hi|name a IHa|];
    simpl; intros l w H Hw; try discriminate.
  - inversion H; subst. left. auto.
  - inversion H; subst. destruct Hw as [x [-> Hx]].
    apply chr_match_exact in Hx. subst. left. reflexivity.
  - destruct (words a) as [la|]; [|discriminate].
    destruct (words b) as [lb|]; [|discriminate].
    inversion H; subst. destruct Hw as [w1 [w2 [-> [H1 H2]]]].
    apply in_flat_map. exists w1. split; [apply (IHa la), H1; reflexivity|].
    apply in_map. apply (IHb lb), H2. reflexivity.
  - destruct (words a) as [la|]; [|discriminate].
    destruct (words b) as [lb|]; [|discriminate].
    inversion H; subst. apply in_or_app.
    destruct Hw as [Hw|Hw]; [left; apply (IHa la) | right; apply (IHb lb)]; auto.
  - destruct lo; [|discriminate]. destruct hi as [[|[|h]]|]; try discriminate.
    destruct (words a) as [la|]; [|discriminate].
    inversion H; subst. destruct Hw as [ws [-> [Hws [_ Hhi]]]].
    simpl in Hhi. destruct ws as [|w1 [|w2 ws]]; simpl in *; try lia.
    + left. reflexivity.
    + right. rewrite app_nil_r. inversion Hws; subst. apply (IHa la); auto.
  - apply (IHa l); auto.
  - inversion H; subst. left. auto.
Qed.

Lemma lang_spaces (w : str) (lo : nat) (hi : option nat) :
  lang false (Rep space lo hi) w ->
  forallb is_space w = true /\ lo <= length w.
Proof.
  simpl. intros [ws [-> [Hws [Hlo _]]]]. revert lo Hlo.
  induction Hws as [|x ws Hx Hws IH]; intros lo Hlo; simpl in *.
  - split; [reflexivity | exact Hlo].
  - destruct Hx as [c [-> Hc]]. simpl.
    unfold cls_match in Hc. simpl in Hc. rewrite !orb_false_r in Hc.
    rewrite Hc. destruct (IH (pred lo)) as [H1 H2]; [lia|].
    split; [exact H1 | lia].
Qed.

End ReChecks.

(* ------------------------------------------------------------------ *)
(** * The money tokens of Strategy A *)

Module MoneyFacts.
Import Py Re Run Spec.

Lemma best_money_loop_skip (toks : list str) (best : option str)
  (best_val : Flt.float) :
  best_money_loop (filter parses toks) best best_val
  = best_money_loop toks best best_val.
Proof.
  revert best best_val; induction toks as [|tok toks IH]; intros best bv;
    simpl; [reflexivity|].
  unfold parses, money_value at 1.
  destruct (search false RE_MONEY (lower tok)) as [m|] eqn:E; [|apply IH].
  destruct (token_value m) as [val|] eqn:V; [|apply IH].
  simpl. rewrite E, V. destruct (Flt.ltb bv val); apply IH.
Qed.

(** The tokens that do not parse contribute nothing to the best money. *)
Lemma extract_best_money_skip (toks : list str) :
  extract_best_money (filter parses toks) = extract_best_money toks.
Proof.
  unfold extract_best_money.
  rewrite <- (best_money_loop_skip toks).
  destruct toks as [|t toks]; [reflexivity|].
  destruct (filter parses (t :: toks)) eqn:E; reflexivity.
Qed.

Lemma filter_parses_remove (pre post : list str) (tok : str) :
  parses tok = false ->
  filter parses (pre ++ tok :: post) = filter parses (pre ++ post).
Proof.
  intros H. rewrite !filter_app. simpl. rewrite H. reflexivity.
Qed.

Lemma normalize_money_unparsed (token : str) (m : re_match) :
  search false RE_MONEY (lower token) = Some m ->
  token_value m = None ->
  normalize_money token = Some token.
Proof.
  intros E V. unfold normalize_money. rewrite E, V. reflexivity.
Qed.

(** ** The score of Strategy A *)

Lemma nonempty_filter (p : str -> bool) (l : list str) :
  nonempty (filter p l) = existsb p l.
Proof.
  induction l as [|x l IH]; simpl; [reflexivity|].
  destruct (p x); [reflexivity | exact IH].
Qed.

(** The score is the sum of its five terms, each read in the lowered
    body. *)
Lemma score_comment_sum (body : str) :
  fst (score_comment body)
  = ((if any_in KEYWORDS_SELL (lower body) then 2 else 0)
     + (if any_in KEYWORDS_AGENT (lower body) then 2 else 0)
     + Z.min 3 (Z.of_nat (length (finditer false RE_MONEY (lower body))))
     + (if any_in MARKET_HINTS (lower body) then 1 else 0)
     + (if any_in NARRATIVE_CUES (lower body) then 1 else 0))%Z.
Proof.
  unfold score_comment. cbv zeta. cbn [fst]. rewrite nonempty_filter.
  fold (any_in MARKET_HINTS (lower body)).
  destruct (any_in KEYWORDS_SELL (lower body)),
    (any_in KEYWORDS_AGENT (lower body)),
    (any_in MARKET_HINTS (lower body)),
    (any_in NARRATIVE_CUES (lower body));
    destruct (finditer false RE_MONEY (lower body)) as [|x l];
    cbn [nonempty length]; lia.
Qed.

Lemma score_comment_range (body : str) : (0 <= fst (score_comment body) <= 9)%Z.
Proof.
  rewrite score_comment_sum.
  destruct (any_in KEYWORDS_SELL (lower body)),
    (any_in KEYWORDS_AGENT (lower body)),
    (any_in MARKET_HINTS (lower body)),
    (any_in NARRATIVE_CUES (lower body)); lia.
Qed.

(** A lowered text holds no capital of A..Z, so a keyword that starts with
    one does not occur in it. *)
Lemma capital_not_in_lower (c : char) (k body : str) :
  between 65%N 90%N c = true -> isin (c :: k) (lower body) = false.
Proof.
  intros Hc. destruct (isin (c :: k) (lower body)) eqn:E; [|reflexivity].
  apply PyFacts.isin_spec in E. destruct E as [l [r E]].
  assert (Hin : In c (lower body)).
  { rewrite E. apply in_or_app. right. left. reflexivity. }
  apply PyFacts.lower_no_capital in Hin. congruence.
Qed.

(** Selecting among the selected comments selects the same rows. *)
Lemma select_rows_selected (allow_no_numbers : bool) (min_score : Z)
  (flat : list jcomment) :
  select_rows allow_no_numbers min_score
    (filter (selected allow_no_numbers min_score) flat)
  = select_rows allow_no_numbers min_score flat.
Proof.
  induction flat as [|c flat IH]; [reflexivity|].
  cbn [filter select_rows]. unfold selected at 1.
  destruct (select_row allow_no_numbers min_score c) as [r|] eqn:E.
  - cbn [select_rows]. rewrite E, IH. reflexivity.
  - exact IH.
Qed.

End MoneyFacts.

(* ------------------------------------------------------------------ *)
(** * The numeric gates *)

Module GateFacts.
Import Py Re Spec PyFacts ReFacts ReChecks.

Lemma nonempty_map {A B} (f : A -> B) (l : list A) :
  Run.nonempty (List.map f l) = Run.nonempty l.
Proof. destruct l; reflexivity. Qed.

Lemma spans_nonempty (ic : bool) (r : regex) (text : str) :
  Run.nonempty (Run.spans ic r text) = Scrape.is_match (search ic r text).
Proof. unfold Run.spans. rewrite nonempty_map. apply finditer_nonempty. Qed.

Lemma money_digit (text : str) :
  Run.nonempty (Run.spans false Run.RE_MONEY text) = existsb is_digit text.
Proof.
  rewrite spans_nonempty. apply search_digit; vm_compute; reflexivity.
Qed.

Lemma revenue_digit (text : str) :
  Scrape.is_match (search false Scrape.REVENUE_PATTERNS text)
  = existsb is_digit text.
Proof. apply search_digit; vm_compute; reflexivity. Qed.

Lemma spans_no_digit (ic : bool) (r : regex) (text : str) :
  needs_digit r = true -> existsb is_digit text = false ->
  Run.nonempty (Run.spans ic r text) = false.
Proof.
  intros Hr Hd. rewrite spans_nonempty, (search_needs_digit ic r text Hr Hd).
  reflexivity.
Qed.

(** The gate of Strategy A is open exactly for the texts with a digit. *)
Lemma has_quantitative_digit (text : str) :
  fst (Run.has_quantitative text) = existsb is_digit text.
Proof.
  unfold Run.has_quantitative. cbv zeta. unfold fst.
  rewrite money_digit.
  destruct (existsb is_digit text) eqn:E; [reflexivity|].
  rewrite !spans_no_digit by (try exact E; vm_compute; reflexivity).
  reflexivity.
Qed.

Lemma nonempty_spec {A} (l : list A) : Run.nonempty l = true <-> l <> [].
Proof. destruct l; simpl; split; congruence. Qed.

Lemma has_quantitative_any (text : str) :
  fst (Run.has_quantitative text) = true
  <-> Run.spans false Run.RE_MONEY text <> []
      \/ Run.spans true Run.RE_DURATION text <> []
      \/ Run.spans true Run.RE_RATE text <> []
      \/ Run.spans true Run.RE_COUNT text <> []
      \/ Run.spans false Run.RE_PERCENT text <> [].
Proof.
  unfold Run.has_quantitative. cbv zeta. unfold fst.
  rewrite !orb_true_iff, !nonempty_spec. tauto.
Qed.

Lemma extract_evidence_some (sr : str) (sub : Scrape.submission)
  (c : Scrape.comment) :
  Scrape.extract_evidence sr sub c <> None
  <-> exists body,
        Scrape.c_body c = Some body /\ body <> []
        /\ has_match false Scrape.REVENUE_PATTERNS body.
Proof.
  unfold Scrape.extract_evidence. destruct (Scrape.c_body c) as [body|].
  - destruct body as [|x body].
    + split; [congruence|]. intros [b [E [Hb _]]]. inversion E. congruence.
    + destruct (search false Scrape.REVENUE_PATTERNS (x :: body)) eqn:E.
      * split; [|discriminate]. intros _. exists (x :: body).
        repeat split; try discriminate.
        apply search_has_match. rewrite E. discriminate.
      * split; [congruence|]. intros [b [Eb [_ Hm]]]. inversion Eb; subst b.
        apply search_has_match in Hm. contradiction.
  - split; [congruence|]. intros [b [E _]]. discriminate.
Qed.

Lemma select_row_gate (min_score : Z) (c : Run.jcomment) :
  Run.select_row false min_score c <> None ->
  fst (Run.has_quantitative (Run.j_body c)) = true.
Proof.
  unfold Run.select_row. destruct (strip (Run.j_body c)); [congruence|].
  destruct (Run.has_quantitative (Run.j_body c)) as [has_nums q].
  destruct has_nums; intros H; [reflexivity|].
  exfalso. apply H. reflexivity.
Qed.

End GateFacts.

(* ------------------------------------------------------------------ *)
(** * The period of a money match *)

Module PeriodFacts.
Import Py Re Spec PyFacts ReFacts ReChecks.

Lemma group_regexes_sound (ic : bool) (r : regex) (name : string) (v : str) :
  group_lang ic r name v ->
  exists a, In a (group_regexes r name) /\ lang ic a v.
Proof.
  induction r as [|c|items|a IHa b IHb|a IHa b IHb|a IHa lo hi|n a IHa|];
    simpl; intros H; try contradiction.
  - destruct H as [H|H]; [destruct (IHa H) as [x [Hx Hl]]
                         | destruct (IHb H) as [x [Hx Hl]]];
      exists x; split; auto; apply in_or_app; auto.
  - destruct H as [H|H]; [destruct (IHa H) as [x [Hx Hl]]
                         | destruct (IHb H) as [x [Hx Hl]]];
      exists x; split; auto; apply in_or_app; auto.
  - apply IHa, H.
  - destruct H as [[-> H]|H].
    + exists a. split; [|exact H]. rewrite String.eqb_refl. left. reflexivity.
    + destruct (IHa H) as [x [Hx Hl]]. exists x. split; [|exact Hl].
      apply in_or_app. right. exact Hx.
Qed.

(** The group [unit] of a match holds a word of [unit_re]. *)
Lemma unit_group_lang (text : str) (m : re_match) (v : str) :
  search false Scrape.REVENUE_PATTERNS text = Some m ->
  group m "unit" = Some v ->
  lang false Scrape.unit_re v.
Proof.
  intros Hs Hg. apply search_sound in Hs. destruct Hs as [_ [_ Hgl]].
  apply Hgl in Hg. apply group_regexes_sound in Hg.
  destruct Hg as [a [Ha Hl]].
  assert (E : group_regexes Scrape.REVENUE_PATTERNS "unit" = [Scrape.unit_re])
    by (vm_compute; reflexivity).
  rewrite E in Ha. destruct Ha as [<-|[]]. exact Hl.
Qed.

Lemma lang_opt (a : regex) (w : str) :
  lang false (Opt a) w -> w = [] \/ lang false a w.
Proof.
  intros [ws [-> [Hws [_ Hhi]]]]. simpl in Hhi.
  destruct ws as [|w1 [|w2 ws]]; simpl in *; try lia.
  - left. reflexivity.
  - right. rewrite app_nil_r. inversion Hws; assumption.
Qed.

Lemma unit_prefix_lang (w : str) :
  lang false Scrape.unit_prefix_re w ->
  exists a g, In a unit_prefixes /\ forallb is_space g = true /\ w = a ++ g.
Proof.
  intros H.
  change (lang false (L "/") w
          \/ lang false (Seq WordB (Seq (L "per") (Plus space))) w
          \/ lang false (L "p/") w) in H.
  destruct H as [H|[H|H]].
  - apply (words_sound (L "/") [u "/"]) in H; [|reflexivity].
    destruct H as [<-|[]]. exists (u "/"), []. rewrite app_nil_r.
    split; [vm_compute; tauto | split; reflexivity].
  - destruct H as [w1 [w2 [-> [H1 [w3 [w4 [-> [H3 H4]]]]]]]].
    change (w1 = []) in H1. subst w1.
    apply (words_sound (L "per") [u "per"]) in H3; [|reflexivity].
    destruct H3 as [<-|[]]. apply lang_spaces in H4.
    exists (u "per"), w4. split; [vm_compute; tauto|].
    split; [apply H4 | reflexivity].
  - apply (words_sound (L "p/") [u "p/"]) in H; [|reflexivity].
    destruct H as [<-|[]]. exists (u "p/"), []. rewrite app_nil_r.
    split; [vm_compute; tauto | split; reflexivity].
Qed.

Lemma In_str_list (w : str) (l l' : list str) :
  forallb (fun x => existsb (str_eqb x) l') l = true -> In w l -> In w l'.
Proof.
  intros H Hin. rewrite forallb_forall in H. specialize (H w Hin).
  apply existsb_exists in H. destruct H as [y [Hy E]].
  apply str_eqb_eq in E. subst. exact Hy.
Qed.

Lemma unit_word_lang (w : str) :
  lang false Scrape.unit_word_re w -> In w unit_words.
Proof.
  intros H.
  destruct (words Scrape.unit_word_re) as [l|] eqn:E;
    [|vm_compute in E; discriminate].
  apply (words_sound _ l) in H; [|exact E].
  refine (In_str_list w l unit_words _ H).
  revert E. vm_compute. intros E. inversion E. reflexivity.
Qed.

(** The shape of a unit suffix. *)
Lemma unit_lang (v : str) :
  lang false Scrape.unit_re v ->
  exists a g b,
    In a unit_prefixes /\ forallb is_space g = true /\ In b unit_words
    /\ v = a ++ g ++ b.
Proof.
  intros H.
  change (lang false (Seq (Opt Scrape.unit_prefix_re)
                          (Seq (Star space) Scrape.unit_word_re)) v) in H.
  destruct H as [w1 [w2 [-> [H1 [w3 [w4 [-> [H3 H4]]]]]]]].
  apply lang_spaces in H3. destruct H3 as [H3 _].
  apply unit_word_lang in H4.
  apply lang_opt in H1. destruct H1 as [->|H1].
  - exists [], w3, w4. repeat split; auto. vm_compute. tauto.
  - apply unit_prefix_lang in H1. destruct H1 as [a [g [Ha [Hg ->]]]].
    exists a, (g ++ w3), w4. repeat split; auto.
    + rewrite forallb_app, Hg, H3. reflexivity.
    + rewrite <- !app_assoc. reflexivity.
Qed.

Lemma replace1_app (old : char) (new a b : str) :
  replace1 old new (a ++ b) = replace1 old new a ++ replace1 old new b.
Proof. apply flat_map_app. Qed.

(** Removing the spaces of white space leaves white space. *)
Lemma unspace_spaces (g : str) :
  forallb is_space g = true -> forallb is_space (replace1 32%N [] g) = true.
Proof.
  induction g as [|c g IH]; simpl; [reflexivity|].
  intros H. apply andb_true_iff in H. destruct H as [Hc Hg].
  destruct (chr_eqb c 32%N); simpl; [apply IH, Hg|].
  rewrite Hc. apply IH, Hg.
Qed.

Lemma fixed_by (f : str -> str) (l : list str) (w : str) :
  forallb (fun x => str_eqb (f x) x) l = true -> In w l -> f w = w.
Proof.
  intros H Hin. rewrite forallb_forall in H. apply str_eqb_eq, H, Hin.
Qed.

(** The unit suffix that [normalize_revenue] reads. *)
Lemma revenue_unit_shape (text : str) (m : re_match) :
  search false Scrape.REVENUE_PATTERNS text = Some m ->
  exists a g b,
    In a ([] :: unit_prefixes) /\ forallb is_space g = true
    /\ In b ([] :: unit_words) /\ revenue_unit m = a ++ g ++ b.
Proof.
  intros Hs. unfold revenue_unit, group_or_empty.
  destruct (group m "unit") as [v|] eqn:Hg.
  - apply (unit_group_lang text m v Hs) in Hg. apply unit_lang in Hg.
    destruct Hg as [a [g [b [Ha [Hg [Hb ->]]]]]].
    exists a, (replace1 32%N [] g), b.
    split; [right; exact Ha|]. split; [apply unspace_spaces, Hg|].
    split; [right; exact Hb|].
    assert (La : forallb Notions.is_lowered a = true).
    { assert (T : forallb (forallb Notions.is_lowered) unit_prefixes = true)
        by (vm_compute; reflexivity).
      rewrite forallb_forall in T. apply T, Ha. }
    assert (Lb : forallb Notions.is_lowered b = true).
    { assert (T : forallb (forallb Notions.is_lowered) unit_words = true)
        by (vm_compute; reflexivity).
      rewrite forallb_forall in T. apply T, Hb. }
    assert (Lg : forallb Notions.is_lowered g = true).
    { rewrite forallb_forall in *. intros c Hc. apply space_lowered, Hg, Hc. }
    rewrite (lower_fixed (a ++ g ++ b))
      by (rewrite !forallb_app, La, Lg, Lb; reflexivity).
    rewrite !replace1_app.
    rewrite (fixed_by (replace1 32%N []) unit_prefixes a)
      by (auto; vm_compute; reflexivity).
    rewrite (fixed_by (replace1 32%N []) unit_words b)
      by (auto; vm_compute; reflexivity).
    reflexivity.
  - exists [], [], []. simpl. auto.
Qed.

(** ** Fragments and white space *)

Lemma startswith_gap (f x g b : str) (c : char) :
  forallb (fun y => negb (is_space y)) f = true ->
  is_space c = true ->
  startswith f (x ++ c :: g ++ b) = startswith f x.
Proof.
  revert x; induction f as [|y f IH]; intros x Hf Hc; [reflexivity|].
  simpl in Hf. apply andb_true_iff in Hf. destruct Hf as [Hy Hf].
  destruct x as [|z x]; simpl.
  - assert (E : chr_eqb y c = false).
    { destruct (chr_eqb y c) eqn:E; [|reflexivity].
      apply chr_eqb_eq in E. subst. rewrite Hc in Hy. discriminate. }
    rewrite E. reflexivity.
  - rewrite (IH x Hf Hc). reflexivity.
Qed.

Lemma isin_skip (f g b : str) :
  f <> [] ->
  forallb (fun y => negb (is_space y)) f = true ->
  forallb is_space g = true ->
  isin f (g ++ b) = isin f b.
Proof.
  intros Hne Hf. induction g as [|d g IH]; intros Hg; [reflexivity|].
  simpl in Hg. apply andb_true_iff in Hg. destruct Hg as [Hd Hg].
  change ((d :: g) ++ b) with (d :: g ++ b).
  change (isin f (d :: g ++ b))
    with (startswith f (d :: g ++ b) || isin f (g ++ b)).
  pose proof (startswith_gap f [] g b d Hf Hd) as E.
  change ([] ++ d :: g ++ b) with (d :: g ++ b) in E.
  rewrite E, (IH Hg).
  destruct f; [congruence | reflexivity].
Qed.

Lemma isin_gap (f a g b : str) (c : char) :
  f <> [] ->
  forallb (fun y => negb (is_space y)) f = true ->
  forallb is_space (c :: g) = true ->
  isin f (a ++ c :: g ++ b) = isin f a || isin f b.
Proof.
  intros Hne Hf Hg. induction a as [|x a IH].
  - change ([] ++ c :: g ++ b) with ((c :: g) ++ b).
    rewrite (isin_skip f (c :: g) b Hne Hf Hg).
    destruct f; [congruence | reflexivity].
  - simpl in Hg. apply andb_true_iff in Hg. destruct Hg as [Hc Hg'].
    change (isin f ((x :: a) ++ c :: g ++ b))
      with (startswith f ((x :: a) ++ c :: g ++ b) || isin f (a ++ c :: g ++ b)).
    rewrite (startswith_gap f (x :: a) g b c Hf Hc), IH.
    change (isin f (x :: a)) with (startswith f (x :: a) || isin f a).
    rewrite orb_assoc. reflexivity.
Qed.

Lemma any_in_gap (frs : list str) (a g b : str) (c : char) :
  solid frs = true ->
  forallb is_space (c :: g) = true ->
  any_in frs (a ++ c :: g ++ b) = apart frs a b.
Proof.
  intros Hs Hg. unfold apart, any_in. unfold solid in Hs.
  induction frs as [|f frs IH]; [reflexivity|].
  simpl in Hs. apply andb_true_iff in Hs. destruct Hs as [Hf Hs].
  apply andb_true_iff in Hf. destruct Hf as [Hne Hf].
  simpl existsb. rewrite (IH Hs), (isin_gap f a g b c); auto.
  - destruct (isin f a), (isin f b), (existsb (fun c0 => isin c0 a) frs),
      (existsb (fun c0 => isin c0 b) frs); reflexivity.
  - destruct f; [discriminate | congruence].
Qed.

Lemma opt_str_eqb_eq (a b : option str) : opt_str_eqb a b = true -> a = b.
Proof.
  destruct a, b; simpl; try discriminate; auto.
  intros H. apply str_eqb_eq in H. congruence.
Qed.

Lemma pairs_forall (P : str -> str -> bool) (la lb : list str) (a b : str) :
  forallb (fun x => forallb (P x) lb) la = true ->
  In a la -> In b lb -> P a b = true.
Proof.
  intros H Ha Hb. rewrite forallb_forall in H. specialize (H a Ha).
  rewrite forallb_forall in H. apply H, Hb.
Qed.

(** On a unit suffix of the money pattern, the order of the tests of
    [normalize_revenue] gives the period of the priority order. *)
Lemma orders_agree (a g b : str) :
  In a ([] :: unit_prefixes) -> forallb is_space g = true ->
  In b ([] :: unit_words) ->
  revenue_period_code (a ++ g ++ b) = revenue_period (a ++ g ++ b).
Proof.
  intros Ha Hg Hb. destruct g as [|c g].
  - simpl app. apply opt_str_eqb_eq.
    apply (pairs_forall orders_agree_joined ([] :: unit_prefixes)
                        ([] :: unit_words));
      [vm_compute; reflexivity | exact Ha | exact Hb].
  - change (a ++ (c :: g) ++ b) with (a ++ c :: g ++ b).
    unfold revenue_period_code, revenue_period.
    rewrite !(any_in_gap _ a g b c) by (auto; vm_compute; reflexivity).
    apply opt_str_eqb_eq.
    apply (pairs_forall orders_agree_apart ([] :: unit_prefixes)
                        ([] :: unit_words));
      [vm_compute; reflexivity | exact Ha | exact Hb].
Qed.

(** The period of [normalize_revenue] is the one its order of tests
    gives, when the amount is a number. *)
Lemma normalize_revenue_period (m : re_match) :
  Scrape.r_period (Scrape.normalize_revenue m)
  = match Scrape.r_amount (Scrape.normalize_revenue m) with
    | Some _ => revenue_period_code (revenue_unit m)
    | None => None
    end.
Proof.
  unfold Scrape.normalize_revenue. cbv zeta.
  destruct (Scrape._to_float_amount _); simpl; [|reflexivity].
  unfold revenue_period_code, revenue_unit. simpl.
  repeat match goal with
         | |- context [if ?b then _ else _] => destruct b; try reflexivity
         end.
Qed.

Lemma detect_period_priority (unit : option str) (body : str) :
  Scrape._detect_period unit body = detected_period unit body.
Proof.
  unfold Scrape._detect_period, detected_period. cbv zeta. simpl.
  repeat match goal with
         | |- context [if ?b then _ else _] => destruct b; try reflexivity
         end.
Qed.

End PeriodFacts.

(* ------------------------------------------------------------------ *)
(** * The numeric literal of Strategy B *)

Module AmountFacts.
Import Py Re Spec Notions PyFacts Scrape.
Local Open Scope Z_scope.

Lemma lstrip_solid (s : str) :
  forallb (fun c => negb (is_space c)) s = true -> lstrip s = s.
Proof.
  destruct s as [|c s]; simpl; [reflexivity|].
  intros H. apply andb_true_iff in H. destruct H as [Hc _].
  apply negb_true_iff in Hc. rewrite Hc. reflexivity.
Qed.

Lemma strip_solid (s : str) :
  forallb (fun c => negb (is_space c)) s = true -> strip s = s.
Proof.
  intros H. unfold strip, rstrip. rewrite (lstrip_solid s H).
  rewrite lstrip_solid; [apply rev_involutive|].
  rewrite forallb_forall in *. intros x Hx. apply H, in_rev, Hx.
Qed.

Lemma replace1_absent (old : char) (new s : str) :
  forallb (fun c => negb (chr_eqb c old)) s = true -> replace1 old new s = s.
Proof.
  induction s as [|c s IH]; simpl; [reflexivity|].
  intros H. apply andb_true_iff in H. destruct H as [Hc Hs].
  apply negb_true_iff in Hc. rewrite Hc, (IH Hs). reflexivity.
Qed.

Lemma literal_not_space (c : char) :
  is_literal_chr c = true -> is_space c = false.
Proof.
  unfold is_literal_chr, is_sep. rewrite !orb_true_iff.
  intros [H | [H | H]]; [apply digit_not_space, H | |];
    apply chr_eqb_eq in H; subst c; reflexivity.
Qed.

Lemma literal_not (c old : char) :
  is_literal_chr c = true -> is_literal_chr old = false ->
  chr_eqb c old = false.
Proof.
  intros H Ho. destruct (chr_eqb c old) eqn:E; [|reflexivity].
  apply chr_eqb_eq in E. subst old. rewrite H in Ho. discriminate.
Qed.

Lemma forallb_impl {A} (p q : A -> bool) (l : list A) :
  (forall x, p x = true -> q x = true) ->
  forallb p l = true -> forallb q l = true.
Proof.
  intros Hpq H. rewrite forallb_forall in *. auto.
Qed.

(** The text that [_to_float_amount] reads from a literal is the literal. *)
Lemma literal_cleaned (s : str) :
  forallb is_literal_chr s = true ->
  replace1 729%N [dot] (replace1 8217%N [] (replace1 32%N [] (strip s))) = s.
Proof.
  intros H.
  rewrite strip_solid
    by (revert H; apply forallb_impl; intros x Hx;
        rewrite (literal_not_space x Hx); reflexivity).
  rewrite (replace1_absent 32%N)
    by (revert H; apply forallb_impl; intros x Hx;
        rewrite (literal_not x 32%N Hx); [|vm_compute]; reflexivity).
  rewrite (replace1_absent 8217%N)
    by (revert H; apply forallb_impl; intros x Hx;
        rewrite (literal_not x 8217%N Hx); [|vm_compute]; reflexivity).
  apply replace1_absent.
  revert H; apply forallb_impl; intros x Hx.
  rewrite (literal_not x 729%N Hx); [|vm_compute]; reflexivity.
Qed.

(** ** The last separator *)

Lemma rfind_aux_app (p : char -> bool) (a b : str) (i : nat)
  (acc : option nat) :
  rfind_aux p (a ++ b) i acc
  = rfind_aux p b (i + length a) (rfind_aux p a i acc).
Proof.
  revert i acc; induction a as [|c a IH]; intros i acc; simpl.
  - rewrite Nat.add_0_r. reflexivity.
  - rewrite IH. f_equal. lia.
Qed.

Lemma rfind_aux_none (p : char -> bool) (b : str) (i : nat) (acc : option nat) :
  forallb (fun c => negb (p c)) b = true -> rfind_aux p b i acc = acc.
Proof.
  revert i acc; induction b as [|c b IH]; intros i acc; simpl; [reflexivity|].
  intros H. apply andb_true_iff in H. destruct H as [Hc Hb].
  apply negb_true_iff in Hc. rewrite Hc. apply IH, Hb.
Qed.

Lemma rfind_aux_below (p : char -> bool) (a : str) (i : nat) (acc : option nat) :
  below acc i -> below (rfind_aux p a i acc) (i + length a).
Proof.
  revert i acc; induction a as [|c a IH]; intros i acc H; simpl.
  - rewrite Nat.add_0_r. exact H.
  - replace (i + S (length a))%nat with (S i + length a)%nat by lia.
    apply IH. destruct (p c); simpl; [lia|].
    destruct acc; simpl in *; lia.
Qed.

Lemma rfind_chr_last (c sep : char) (pre frac : str) :
  forallb (fun x => negb (chr_eqb c x)) frac = true ->
  rfind_chr c (pre ++ sep :: frac)
  = if chr_eqb c sep then Z.of_nat (length pre) else rfind_chr c pre.
Proof.
  intros H. unfold rfind_chr, rfind.
  rewrite rfind_aux_app. simpl.
  rewrite (rfind_aux_none (chr_eqb c) frac _ _ H).
  destruct (chr_eqb c sep); reflexivity.
Qed.

Lemma rfind_chr_below (c : char) (pre : str) :
  rfind_chr c pre < Z.of_nat (length pre).
Proof.
  unfold rfind_chr, rfind.
  pose proof (rfind_aux_below (chr_eqb c) pre 0 None I) as H.
  destruct (rfind_aux (chr_eqb c) pre 0 None); simpl in *; lia.
Qed.

Lemma digit_not_sep (c x : char) :
  is_digit x = true -> (c = comma \/ c = dot) -> chr_eqb c x = false.
Proof.
  unfold comma, dot. intros Hx Hc. apply digit_range in Hx.
  destruct (chr_eqb c x) eqn:E; [|reflexivity].
  apply chr_eqb_eq in E. lia.
Qed.

Lemma last_separator (pre frac : str) (sep : char) :
  forallb is_digit frac = true -> is_sep sep = true ->
  Z.max (rfind_chr comma (pre ++ sep :: frac)) (rfind_chr dot (pre ++ sep :: frac))
  = Z.of_nat (length pre).
Proof.
  intros Hf Hs.
  rewrite !rfind_chr_last
    by (revert Hf; apply forallb_impl; intros x Hx;
        rewrite digit_not_sep; auto).
  pose proof (rfind_chr_below comma pre). pose proof (rfind_chr_below dot pre).
  unfold is_sep in Hs. apply orb_true_iff in Hs.
  destruct Hs as [Hs|Hs]; apply chr_eqb_eq in Hs; subst sep.
  - rewrite chr_eqb_refl.
    replace (chr_eqb dot comma) with false by reflexivity. lia.
  - rewrite chr_eqb_refl.
    replace (chr_eqb comma dot) with false by reflexivity. lia.
Qed.

Lemma has_chr_app (c : char) (a b : str) :
  has_chr c (a ++ b) = has_chr c a || has_chr c b.
Proof. apply existsb_app. Qed.

(** With a comma and a point, the last separator is the decimal one and
    the separators before it are dropped. *)
Lemma to_float_both (pre frac : str) (sep : char) :
  forallb is_literal_chr pre = true ->
  forallb is_digit frac = true ->
  is_sep sep = true ->
  has_chr comma (pre ++ [sep]) = true ->
  has_chr dot (pre ++ [sep]) = true ->
  _to_float_amount (pre ++ sep :: frac)
  = Flt.py_float (unseparated pre ++ dot :: frac).
Proof.
  intros Hp Hf Hs Hc Hd. unfold _to_float_amount.
  destruct (pre ++ sep :: frac) as [|x s] eqn:E;
    [destruct pre; discriminate|].
  rewrite <- E. clear E x s.
  assert (Hl : forallb is_literal_chr (pre ++ sep :: frac) = true).
  { rewrite forallb_app. simpl. rewrite Hp. unfold is_literal_chr at 1.
    rewrite Hs, orb_true_r. simpl.
    revert Hf. apply forallb_impl. intros x Hx. unfold is_literal_chr.
    rewrite Hx. reflexivity. }
  rewrite (literal_cleaned _ Hl). cbv zeta.
  assert (Hc' : has_chr comma (pre ++ sep :: frac) = true).
  { change (sep :: frac) with ([sep] ++ frac).
    rewrite app_assoc, has_chr_app, Hc. reflexivity. }
  assert (Hd' : has_chr dot (pre ++ sep :: frac) = true).
  { change (sep :: frac) with ([sep] ++ frac).
    rewrite app_assoc, has_chr_app, Hd. reflexivity. }
  rewrite Hc', Hd'. simpl andb. cbv iota.
  rewrite (last_separator pre frac sep Hf Hs).
  rewrite Nat2Z.id.
  replace (Z.to_nat (Z.of_nat (length pre) + 1)) with (S (length pre)) by lia.
  assert (Hfirst : firstn (length pre) (pre ++ sep :: frac) = pre).
  { rewrite firstn_app, Nat.sub_diag, firstn_all. simpl. apply app_nil_r. }
  assert (Hskip : skipn (S (length pre)) (pre ++ sep :: frac) = frac).
  { rewrite skipn_app, skipn_all2 by lia.
    replace (S (length pre) - length pre)%nat with 1%nat by lia.
    reflexivity. }
  rewrite Hfirst, Hskip. reflexivity.
Qed.

(** With commas only, every comma is read as a point. *)
Lemma to_float_commas (s : str) :
  forallb is_literal_chr s = true ->
  has_chr comma s = true -> has_chr dot s = false ->
  _to_float_amount s = Flt.py_float (replace1 comma [dot] s).
Proof.
  intros Hl Hc Hd. unfold _to_float_amount.
  destruct s as [|x s]; [discriminate|].
  rewrite (literal_cleaned _ Hl). cbv zeta. rewrite Hc, Hd. reflexivity.
Qed.

End AmountFacts.
(* ------------------------------------------------------------------ *)
(** * The address of the thread *)

Module UrlFacts.
Import Py Run PyFacts.

Lemma endswith_app (a suf : str) : endswith suf (a ++ suf) = true.
Proof.
  unfold endswith. rewrite rev_app_distr. apply startswith_spec.
  exists (rev a). reflexivity.
Qed.

Lemma endswith_spec (suf s : str) :
  endswith suf s = true <-> exists a, s = a ++ suf.
Proof.
  unfold endswith. rewrite startswith_spec. split.
  - intros [t H]. exists (rev t).
    rewrite <- (rev_involutive s), H, rev_app_distr, rev_involutive.
    reflexivity.
  - intros [a ->]. exists (rev a). apply rev_app_distr.
Qed.

End UrlFacts.

(* ------------------------------------------------------------------ *)
(** * The tree of comments *)

Module TreeFacts.
Import Py Run Spec.
Local Open Scope Z_scope.

(** The equations of the loop of [flatten_comments]. *)
Lemma flatten_comments_cons {D} (ch : thing D) children depth :
  flatten_comments (ch :: children) depth
  = match ch with
    | T1 data replies =>
        FlatRow data depth
          :: match replies with
             | Some l => flatten_comments l (depth + 1)
             | None => []
             end
    | More => []
    | Other => []
    end ++ flatten_comments children depth.
Proof. destruct ch as [data [l|]| |]; reflexivity. Qed.

Lemma flatten_comments_app {D} (a b : list (thing D)) depth :
  flatten_comments (a ++ b) depth
  = flatten_comments a depth ++ flatten_comments b depth.
Proof. unfold flatten_comments. apply flat_map_app. Qed.

(** Induction on a thing, with the property known for its replies. *)
Lemma thing_induction {D} (P : thing D -> Prop) :
  (forall data, P (T1 data None)) ->
  (forall data l, Forall P l -> P (T1 data (Some l))) ->
  P More -> P Other -> forall ch, P ch.
Proof.
  intros H1 H2 H3 H4. fix IH 1.
  intros [data [l|]| |]; [|apply H1|exact H3|exact H4].
  apply H2. induction l as [|c l IHl]; constructor; [apply IH | apply IHl].
Qed.

Lemma forest_induction {D} (P : list (thing D) -> Prop) :
  P [] ->
  (forall data rest, P rest -> P (T1 data None :: rest)) ->
  (forall data l rest, P l -> P rest -> P (T1 data (Some l) :: rest)) ->
  (forall rest, P rest -> P (More :: rest)) ->
  (forall rest, P rest -> P (Other :: rest)) ->
  forall children, P children.
Proof.
  intros Hnil Hleaf Hnode Hmore Hother.
  assert (H : forall ch : thing D, forall rest, P rest -> P (ch :: rest)).
  { intros ch. induction ch as [data|data l IH| |] using thing_induction; auto.
    intros rest Hrest. apply Hnode; [|exact Hrest].
    induction IH as [|c l Hc _ IHl]; [exact Hnil | apply Hc, IHl]. }
  intros children. induction children as [|ch rest IH]; [exact Hnil | apply H, IH].
Qed.

Lemma flatten_depth {D} (children : list (thing D)) :
  forall depth row, In row (flatten_comments children depth) -> depth <= _depth row.
Proof.
  induction children as [|data rest IH|data l rest IHl IH|rest IH|rest IH]
    using forest_induction; intros depth row; rewrite ?flatten_comments_cons.
  - intros [].
  - intros [<- | H]; [simpl; lia | apply IH, H].
  - intros [<- | H]; [simpl; lia |].
    apply in_app_or in H. destruct H as [H | H].
    + apply IHl in H. lia.
    + apply IH, H.
  - apply IH.
  - apply IH.
Qed.

Lemma filter_none {A} (f : A -> bool) (l : list A) :
  (forall x, In x l -> f x = false) -> filter f l = [].
Proof.
  induction l as [|x l IH]; intros H; [reflexivity|].
  simpl. rewrite (H x (or_introl eq_refl)). apply IH.
  intros y Hy. apply H. right. exact Hy.
Qed.

Lemma flatten_top_level {D} (children : list (thing D)) depth :
  filter (fun r => _depth r =? depth) (flatten_comments children depth)
  = List.map (fun data => FlatRow data depth) (top_level children).
Proof.
  assert (Hdeep : forall l : list (thing D),
             filter (fun r => _depth r =? depth) (flatten_comments l (depth + 1)) = []).
  { intros l. apply filter_none. intros r Hr. apply flatten_depth in Hr.
    apply Z.eqb_neq. lia. }
  induction children as [|ch rest IH]; [reflexivity|].
  rewrite flatten_comments_cons, filter_app, IH.
  unfold top_level. simpl flat_map. rewrite map_app. f_equal.
  destruct ch as [data [l|]| |]; simpl; rewrite ?Z.eqb_refl, ?Hdeep; reflexivity.
Qed.

Lemma flatten_deeper {D} (children : list (thing D)) :
  forall depth k,
    flatten_comments children (depth + k)
    = List.map (deeper k) (flatten_comments children depth).
Proof.
  induction children as [|data rest IH|data l rest IHl IH|rest IH|rest IH]
    using forest_induction; intros depth k; rewrite ?flatten_comments_cons.
  - reflexivity.
  - simpl. rewrite IH. reflexivity.
  - rewrite map_app. simpl. rewrite <- IH. f_equal. f_equal.
    replace (depth + k + 1) with (depth + 1 + k) by lia. apply IHl.
  - apply IH.
  - apply IH.
Qed.

End TreeFacts.

(* ------------------------------------------------------------------ *)
(** * Words and white space *)

Module TextFacts.
Import Py Re Run Scrape Spec PyFacts.

Lemma forallb_rev {A} (p : A -> bool) (l : list A) :
  forallb p (rev l) = forallb p l.
Proof.
  induction l as [|x l IH]; [reflexivity|].
  simpl. rewrite forallb_app, IH. simpl. rewrite andb_true_r. apply andb_comm.
Qed.

Lemma split_ws_aux_solid (s cur : str) :
  forallb (fun c => negb (is_space c)) cur = true ->
  solid (split_ws_aux cur s) = true.
Proof.
  revert cur. induction s as [|c s IH]; intros cur Hcur.
  - destruct cur as [|x cur]; [reflexivity|].
    cbn [split_ws_aux solid forallb]. rewrite forallb_rev, Hcur.
    destruct (rev (x :: cur)) eqn:E; [|reflexivity].
    apply (f_equal (@length _)) in E. rewrite length_rev in E. discriminate.
  - cbn [split_ws_aux]. destruct (is_space c) eqn:Ec.
    + destruct cur as [|x cur]; [apply IH; reflexivity|].
      cbn [solid forallb]. rewrite forallb_rev, Hcur.
      change (forallb _ (split_ws_aux [] s)) with (solid (split_ws_aux [] s)).
      rewrite (IH [] eq_refl).
      destruct (rev (x :: cur)) eqn:E; [|reflexivity].
      apply (f_equal (@length _)) in E. rewrite length_rev in E. discriminate.
    + apply IH. cbn [forallb]. rewrite Ec, Hcur. reflexivity.
Qed.

Lemma split_ws_solid (s : str) : solid (split_ws s) = true.
Proof. apply split_ws_aux_solid. reflexivity. Qed.

Lemma split_ws_aux_word (w rest cur : str) :
  forallb (fun c => negb (is_space c)) w = true ->
  split_ws_aux cur (w ++ rest) = split_ws_aux (rev w ++ cur) rest.
Proof.
  revert cur. induction w as [|c w IH]; intros cur Hw; [reflexivity|].
  cbn [forallb] in Hw. apply andb_true_iff in Hw. destruct Hw as [Hc Hw].
  apply negb_true_iff in Hc.
  cbn [app split_ws_aux]. rewrite Hc, (IH _ Hw).
  cbn [rev]. rewrite <- app_assoc. reflexivity.
Qed.

(** Splitting the words joined by single spaces gives the words back. *)
Lemma split_join (ws : list str) :
  solid ws = true -> split_ws (join (u " ") ws) = ws.
Proof.
  unfold split_ws. induction ws as [|w ws IH]; intros H; [reflexivity|].
  cbn [solid forallb] in H. apply andb_true_iff in H. destruct H as [Hw Hws].
  apply andb_true_iff in Hw. destruct Hw as [Hne Hw].
  destruct w as [|c w]; [discriminate|].
  assert (Hrev : rev (rev (c :: w) ++ []) = c :: w)
    by (rewrite app_nil_r; apply rev_involutive).
  destruct ws as [|w2 ws].
  - cbn [join]. rewrite <- (app_nil_r (c :: w)) at 1.
    rewrite (split_ws_aux_word _ _ _ Hw). cbn [split_ws_aux].
    destruct (rev (c :: w) ++ []) eqn:E; [discriminate Hrev|].
    rewrite Hrev. reflexivity.
  - change (join (u " ") ((c :: w) :: w2 :: ws))
      with ((c :: w) ++ 32%N :: join (u " ") (w2 :: ws)).
    rewrite (split_ws_aux_word _ _ _ Hw). cbn [split_ws_aux].
    change (is_space 32%N) with true. cbv iota.
    destruct (rev (c :: w) ++ []) eqn:E; [discriminate Hrev|].
    rewrite Hrev. f_equal. apply IH. exact Hws.
Qed.

Lemma join_chars (sep : str) (ws : list str) (c : char) :
  In c (join sep ws) -> In c sep \/ exists w, In w ws /\ In c w.
Proof.
  induction ws as [|w ws IH]; [intros []|].
  destruct ws as [|w2 ws].
  - intros H. right. exists w. split; [left; reflexivity | exact H].
  - change (join sep (w :: w2 :: ws)) with (w ++ sep ++ join sep (w2 :: ws)).
    intros H. apply in_app_or in H. destruct H as [H | H].
    + right. exists w. split; [left; reflexivity | exact H].
    + apply in_app_or in H. destruct H as [H | H]; [left; exact H|].
      destruct (IH H) as [Hs | [w' [Hw' Hc]]]; [left; exact Hs|].
      right. exists w'. split; [right; exact Hw' | exact Hc].
Qed.

(** In words joined by single spaces every white space is a space. *)
Lemma join_spaces (ws : list str) (c : char) :
  solid ws = true -> In c (join (u " ") ws) -> is_space c = true -> c = 32%N.
Proof.
  intros Hs Hc Hsp. apply join_chars in Hc. destruct Hc as [[<- | []] | [w [Hw Hc]]].
  - reflexivity.
  - unfold solid in Hs. rewrite forallb_forall in Hs.
    specialize (Hs w Hw). apply andb_true_iff in Hs. destruct Hs as [_ Hs].
    rewrite forallb_forall in Hs. specialize (Hs c Hc).
    rewrite Hsp in Hs. discriminate.
Qed.

Lemma slice_to_In (n : Z) (s : str) (c : char) : In c (slice_to n s) -> In c s.
Proof.
  unfold slice_to. destruct (0 <=? n)%Z; intros H.
  - rewrite <- (firstn_skipn (Z.to_nat n) s). apply in_or_app. left. exact H.
  - rewrite <- (firstn_skipn (length s - Z.to_nat (- n)) s).
    apply in_or_app. left. exact H.
Qed.

Lemma slice_to_length (n : Z) (s : str) :
  (0 <= n)%Z -> (Z.of_nat (length (slice_to n s)) <= n)%Z.
Proof.
  intros Hn. unfold slice_to. destruct (Z.leb_spec 0 n); [|lia].
  pose proof (firstn_le_length (Z.to_nat n) s). lia.
Qed.

Lemma slice_to_all (n : Z) (s : str) :
  (Z.of_nat (length s) <= n)%Z -> slice_to n s = s.
Proof.
  intros Hn. unfold slice_to. destruct (Z.leb_spec 0 n); [|lia].
  apply firstn_all2. lia.
Qed.

End TextFacts.

(* ------------------------------------------------------------------ *)
(** * The niche snippet *)

Module NicheFacts.
Import Py Re Run Scrape Spec PyFacts.

Lemma before_first_free (items : list citem) (s : str) (c : char) :
  In c (before_first items s) -> cls_match false items c = false.
Proof.
  induction s as [|x s IH]; [intros []|].
  cbn [before_first]. destruct (cls_match false items x) eqn:E; [intros []|].
  intros [<- | H]; [exact E | apply IH, H].
Qed.

Lemma before_first_prefix (items : list citem) (s : str) :
  exists t, s = before_first items s ++ t.
Proof.
  induction s as [|x s [t IH]]; [exists []; reflexivity|].
  cbn [before_first]. destruct (cls_match false items x).
  - exists (x :: s). reflexivity.
  - exists t. cbn [app]. rewrite <- IH. reflexivity.
Qed.

Lemma lstrip_split (s : str) :
  exists sp, s = sp ++ lstrip s /\ forallb is_space sp = true.
Proof.
  induction s as [|c s [sp [IH Hsp]]]; [exists []; split; reflexivity|].
  cbn [lstrip]. destruct (is_space c) eqn:E.
  - exists (c :: sp). cbn [app forallb]. rewrite <- IH, E, Hsp. split; reflexivity.
  - exists []. split; reflexivity.
Qed.

Lemma lstrip_head (s : str) (c : char) (t : str) :
  lstrip s = c :: t -> is_space c = false.
Proof.
  induction s as [|x s IH]; [discriminate|].
  cbn [lstrip]. destruct (is_space x) eqn:E; [exact IH|].
  intros H. inversion H; subst. exact E.
Qed.

Lemma lstrip_fix (s : str) :
  (forall c t, s = c :: t -> is_space c = false) -> lstrip s = s.
Proof.
  destruct s as [|c s]; [reflexivity|].
  intros H. cbn [lstrip]. rewrite (H c s eq_refl). reflexivity.
Qed.

Lemma lstrip_idem (s : str) : lstrip (lstrip s) = lstrip s.
Proof. apply lstrip_fix. intros c t H. apply (lstrip_head s c t H). Qed.

Lemma rstrip_split (s : str) :
  exists sp, s = rstrip s ++ sp /\ forallb is_space sp = true.
Proof.
  destruct (lstrip_split (rev s)) as [sp [H Hsp]].
  exists (rev sp). split.
  - unfold rstrip. rewrite <- rev_app_distr, <- H. symmetry. apply rev_involutive.
  - rewrite TextFacts.forallb_rev. exact Hsp.
Qed.

Lemma strip_idem (s : str) : strip (strip s) = strip s.
Proof.
  unfold strip.
  assert (H : lstrip (rstrip (lstrip s)) = rstrip (lstrip s)).
  { apply lstrip_fix. intros c t Hc.
    destruct (rstrip_split (lstrip s)) as [sp [Hs _]].
    rewrite Hc in Hs. apply (lstrip_head s c (t ++ sp)). exact Hs. }
  rewrite H. unfold rstrip. rewrite rev_involutive, lstrip_idem. reflexivity.
Qed.

Lemma lstrip_In (s : str) (c : char) : In c (lstrip s) -> In c s.
Proof.
  destruct (lstrip_split s) as [sp [H _]]. intros Hc. rewrite H.
  apply in_or_app. right. exact Hc.
Qed.

Lemma rstrip_In (s : str) (c : char) : In c (rstrip s) -> In c s.
Proof.
  destruct (rstrip_split s) as [sp [H _]]. intros Hc. rewrite H.
  apply in_or_app. left. exact Hc.
Qed.

Lemma strip_In (s : str) (c : char) : In c (strip s) -> In c s.
Proof. intros H. apply lstrip_In, rstrip_In, H. Qed.

Lemma split_ws_aux_pending (s cur : str) :
  cur <> [] -> 1 <= length (split_ws_aux cur s).
Proof.
  revert cur. induction s as [|c s IH]; intros cur Hcur.
  - destruct cur; [contradiction | simpl; lia].
  - cbn [split_ws_aux]. destruct (is_space c).
    + destruct cur; [contradiction | simpl; lia].
    + apply IH. discriminate.
Qed.

(** A prefix of a text has no more words than the text. *)
Lemma split_ws_aux_prefix (a b cur : str) :
  length (split_ws_aux cur a) <= length (split_ws_aux cur (a ++ b)).
Proof.
  revert cur. induction a as [|c a IH]; intros cur.
  - destruct cur as [|x cur]; [simpl; lia|].
    apply (split_ws_aux_pending b (x :: cur)). discriminate.
  - cbn [app split_ws_aux]. destruct (is_space c).
    + destruct cur; [apply IH|]. cbn [length]. apply le_n_S, IH.
    + apply IH.
Qed.

Lemma split_ws_lstrip (s : str) : split_ws (lstrip s) = split_ws s.
Proof.
  unfold split_ws. induction s as [|c s IH]; [reflexivity|].
  cbn [lstrip]. destruct (is_space c) eqn:E; [|reflexivity].
  rewrite IH. cbn [split_ws_aux]. rewrite E. reflexivity.
Qed.

Lemma split_ws_strip (s : str) :
  length (split_ws (strip s)) <= length (split_ws s).
Proof.
  unfold strip. rewrite <- (split_ws_lstrip s).
  destruct (rstrip_split (lstrip s)) as [sp [H _]].
  rewrite H at 2. apply split_ws_aux_prefix.
Qed.

Lemma solid_firstn (n : nat) (ws : list str) :
  solid ws = true -> solid (firstn n ws) = true.
Proof.
  unfold solid. intros H. rewrite <- (firstn_skipn n ws), forallb_app in H.
  apply andb_true_iff in H. apply H.
Qed.

(** The snippet cut after a pivot. *)
Lemma snippet_shape (tail : str) (r : str) :
  r = strip (before_first NICHE_STOP
               (join (u " ") (firstn 12 (split_ws tail)))) ->
  (forall c, In c r -> cls_match false NICHE_STOP c = false)
  /\ strip r = r
  /\ length (split_ws r) <= 12
  /\ (forall c, In c r -> is_space c = true -> c = 32%N).
Proof.
  intros ->.
  assert (Hs : solid (firstn 12 (split_ws tail)) = true)
    by apply solid_firstn, TextFacts.split_ws_solid.
  destruct (before_first_prefix NICHE_STOP
              (join (u " ") (firstn 12 (split_ws tail)))) as [t Ht].
  repeat split.
  - intros c Hc. apply strip_In in Hc. apply (before_first_free _ _ _ Hc).
  - apply strip_idem.
  - etransitivity; [apply split_ws_strip|].
    etransitivity; [apply (split_ws_aux_prefix _ t [])|].
    rewrite <- Ht. fold (split_ws (join (u " ") (firstn 12 (split_ws tail)))).
    rewrite (TextFacts.split_join _ Hs). apply firstn_le_length.
  - intros c Hc. apply strip_In in Hc.
    apply (TextFacts.join_spaces _ c Hs). rewrite Ht.
    apply in_or_app. left. exact Hc.
Qed.

Lemma find_none (needle hay : str) :
  find needle hay = None <-> isin needle hay = false.
Proof.
  induction hay as [|c hay IH]; cbn [find isin];
    destruct (startswith needle _); cbn [orb].
  - split; discriminate.
  - split; reflexivity.
  - split; discriminate.
  - rewrite <- IH. destruct (find needle hay); cbn [option_map];
      split; (reflexivity || discriminate).
Qed.

End NicheFacts.

(* ------------------------------------------------------------------ *)
(** * The retry loops *)

Module RetryFacts.
Import Py Run Scrape Spec PyFacts.

Lemma http_get_from_returns {E A} (urlopen : nat -> outcome E A) (n : nat) :
  forall turns i last_err slept body,
    n < turns ->
    urlopen (i + n) = Returns body ->
    (forall j, j < n -> exists e, urlopen (i + j) = Raises e) ->
    http_get_from urlopen i turns last_err slept
    = (Returns body, slept ++ seq (i + 1) n).
Proof.
  induction n as [|n IH]; intros turns i last_err slept body Hn Hbody Hfail.
  - destruct turns as [|turns]; [lia|].
    cbn [http_get_from]. rewrite Nat.add_0_r in Hbody. rewrite Hbody.
    cbn [seq]. rewrite app_nil_r. reflexivity.
  - destruct turns as [|turns]; [lia|].
    cbn [http_get_from].
    destruct (Hfail 0 ltac:(lia)) as [e He]. rewrite Nat.add_0_r in He.
    rewrite He. rewrite (IH turns (S i) (Some e) _ body).
    + cbn [seq]. rewrite <- app_assoc. cbn [app].
      replace (S i + 1) with (S (i + 1)) by lia. reflexivity.
    + lia.
    + rewrite <- Hbody. f_equal. lia.
    + intros j Hj. destruct (Hfail (S j) ltac:(lia)) as [e' He'].
      exists e'. rewrite <- He'. f_equal. lia.
Qed.

Lemma http_get_from_raises {E A} (urlopen : nat -> outcome E A) :
  forall turns i last_err slept,
    (forall j, j < turns -> exists e, urlopen (i + j) = Raises e) ->
    http_get_from urlopen i turns last_err slept
    = (Raises (match turns with
               | O => last_err
               | S n => match urlopen (i + n) with
                        | Raises e => Some e
                        | Returns _ => None
                        end
               end),
       slept ++ seq (i + 1) turns).
Proof.
  induction turns as [|turns IH]; intros i last_err slept Hfail.
  - cbn [http_get_from seq]. rewrite app_nil_r. reflexivity.
  - cbn [http_get_from].
    destruct (Hfail 0 ltac:(lia)) as [e He]. rewrite Nat.add_0_r in He.
    rewrite He. rewrite IH.
    + cbn [seq]. rewrite <- app_assoc. cbn [app].
      replace (S i + 1) with (S (i + 1)) by lia. f_equal. f_equal.
      destruct turns as [|n].
      * rewrite Nat.add_0_r, He. reflexivity.
      * replace (S i + n) with (i + S n) by lia. reflexivity.
    + intros j Hj. destruct (Hfail (S j) ltac:(lia)) as [e' He'].
      exists e'. rewrite <- He'. f_equal. lia.
Qed.

(** The loop of [fetch_comments] from the turn [attempt], when the first
    turn that is not a caught failure is the turn [attempt + n]. *)
Lemma fetch_loop_first (reddit : nat -> fetched (submission * list comment))
  (limit n : nat) :
  forall fuel attempt slept,
    n < fuel -> attempt + n <= 5 ->
    (forall j, j < n -> reddit (attempt + j) = Caught) ->
    fetch_comments_loop reddit limit fuel attempt slept
    = match reddit (attempt + n) with
      | Answer (sub, cs) =>
          Some (Some (sub, limited limit cs), slept ++ seq attempt n)
      | Uncaught => Some (None, slept ++ seq attempt n)
      | Caught =>
          if attempt + n =? 5
          then Some (None, slept ++ seq attempt (S n))
          else fetch_comments_loop reddit limit (fuel - S n) (attempt + S n)
                 (slept ++ seq attempt (S n))
      end.
Proof.
  induction n as [|n IH]; intros fuel attempt slept Hfuel Hle Hfail.
  - destruct fuel as [|fuel]; [lia|].
    cbn [fetch_comments_loop seq]. rewrite Nat.add_0_r, app_nil_r.
    destruct (reddit attempt) as [[sub cs]| |]; try reflexivity.
    rewrite Nat.sub_succ, Nat.sub_0_r.
    destruct (Nat.eqb_spec attempt 5) as [-> | Hne]; [reflexivity|].
    destruct (Nat.ltb_spec 5 (attempt + 1)); [lia | reflexivity].
  - destruct fuel as [|fuel]; [lia|].
    cbn [fetch_comments_loop].
    rewrite <- (Nat.add_0_r attempt) at 1. rewrite (Hfail 0 ltac:(lia)).
    destruct (Nat.ltb_spec 5 (attempt + 1)); [lia|].
    rewrite (IH fuel (attempt + 1) (slept ++ [attempt])); [|lia|lia|].
    + replace (attempt + 1 + n) with (attempt + S n) by lia.
      replace (attempt + 1 + S n) with (attempt + S (S n)) by lia.
      replace (attempt + 1) with (S attempt) by lia.
      rewrite <- !app_assoc. cbn [app seq Nat.sub]. reflexivity.
    + intros j Hj. replace (attempt + 1 + j) with (attempt + S j) by lia.
      apply Hfail. lia.
Qed.

(** What [fetch_comments] returns is an answer of Reddit, cut to the
    limit. *)
Lemma fetch_loop_limited (reddit : nat -> fetched (submission * list comment))
  (limit : nat) :
  forall fuel attempt slept sub cs slept',
    fetch_comments_loop reddit limit fuel attempt slept
    = Some (Some (sub, cs), slept') ->
    exists k cs', reddit k = Answer (sub, cs') /\ cs = limited limit cs'.
Proof.
  induction fuel as [|fuel IH]; intros attempt slept sub cs slept' H;
    [discriminate|].
  cbn [fetch_comments_loop] in H.
  destruct (reddit attempt) as [[sub0 cs0]| |] eqn:E.
  - injection H as <- <- _. exists attempt, cs0. split; [exact E | reflexivity].
  - destruct (5 <? attempt + 1); [discriminate|]. apply (IH _ _ _ _ _ H).
  - discriminate.
Qed.

Lemma limited_length {A} (limit : nat) (l : list A) :
  0 < limit -> length (limited limit l) <= limit.
Proof.
  destruct limit as [|n]; [lia|]. intros _. apply firstn_le_length.
Qed.

End RetryFacts.

(* ------------------------------------------------------------------ *)
(** * The search of the threads *)

Module SearchFacts.
Import Py Run Scrape Spec Notions PyFacts DedupFacts.

Lemma grows_refl (P : str * str -> Prop) (st : search_state) :
  search_inv st -> grows P st st.
Proof.
  intros H. split; [exact H|]. exists []. rewrite app_nil_r. split; constructor.
Qed.

Lemma grows_trans (P : str * str -> Prop) (a b c : search_state) :
  grows P a b -> grows P b c -> grows P a c.
Proof.
  intros [_ [n1 [E1 F1]]] [Hc [n2 [E2 F2]]]. split; [exact Hc|].
  exists (n1 ++ n2). rewrite E2, E1, app_assoc. split; [reflexivity|].
  apply Forall_app. split; assumption.
Qed.

Lemma grows_weaken (P Q : str * str -> Prop) (a b : search_state) :
  (forall x, P x -> Q x) -> grows P a b -> grows Q a b.
Proof.
  intros HPQ [Hb [n [E F]]]. split; [exact Hb|]. exists n. split; [exact E|].
  eapply Forall_impl; [|exact F]. exact HPQ.
Qed.

Lemma grows_keeps (P : str * str -> Prop) (a b : search_state) (id : str) :
  grows P a b -> In id (List.map snd (fst a)) -> In id (List.map snd (fst b)).
Proof.
  intros [_ [n [E _]]] H. rewrite E, map_app. apply in_or_app. left. exact H.
Qed.

(** The loop over the ids that one call yields. *)
Lemma add_new_spec (sub : str) (ids : list str) :
  forall st,
    search_inv st ->
    grows (fun x => fst x = sub /\ In (snd x) ids) st (add_new sub ids st)
    /\ forall id, In id ids -> In id (List.map snd (fst (add_new sub ids st))).
Proof.
  induction ids as [|id ids IH]; intros [results seen_ids] Hst.
  - split; [apply grows_refl, Hst | intros id []].
  - cbn [add_new]. destruct (seen id seen_ids) eqn:Es.
    + destruct (IH _ Hst) as [Hg Hin]. split.
      * eapply grows_weaken; [|exact Hg]. intros x [H1 H2].
        split; [exact H1 | right; exact H2].
      * intros id' [<- | H']; [|apply Hin, H'].
        apply (grows_keeps _ _ _ _ Hg). apply Hst.
        apply existsb_str_In. exact Es.
    + assert (Hnew : search_inv (results ++ [(sub, id)], id :: seen_ids)).
      { destruct Hst as [Hnd Hids]. unfold search_inv. cbn [fst snd] in *. split.
        - rewrite map_app. cbn [List.map snd].
          apply Permutation_NoDup with (l := id :: List.map snd results).
          + apply Permutation_cons_append.
          + constructor; [|exact Hnd].
            intros Hin. apply Hids in Hin. apply existsb_str_In in Hin.
            unfold seen in Es. rewrite Es in Hin. discriminate.
        - intros id'. rewrite map_app, in_app_iff. cbn [List.map snd In].
          rewrite Hids. tauto. }
      destruct (IH _ Hnew) as [Hg Hin]. split.
      * apply grows_trans with (b := (results ++ [(sub, id)], id :: seen_ids)).
        -- split; [exact Hnew|]. exists [(sub, id)]. split; [reflexivity|].
           constructor; [|constructor]. split; [reflexivity | left; reflexivity].
        -- eapply grows_weaken; [|exact Hg]. intros x [H1 H2].
           split; [exact H1 | right; exact H2].
      * intros id' [<- | H']; [|apply Hin, H'].
        apply (grows_keeps _ _ _ _ Hg). cbn [fst]. rewrite map_app.
        apply in_or_app. right. left. reflexivity.
Qed.

(** The retries of one query. *)
Lemma search_query_spec (search : nat -> search_run) (sub : str) :
  forall fuel attempt st st',
    search_inv st -> attempt <= 5 ->
    search_query search sub fuel attempt st = Some st' ->
    grows (fun x => fst x = sub
                    /\ exists k, attempt <= k <= 5
                                 /\ In (snd x) (yielded (search k))) st st'
    /\ forall id, In id (yielded (search attempt))
                  -> In id (List.map snd (fst st')).
Proof.
  induction fuel as [|fuel IH]; intros attempt st st' Hst Hle H; [discriminate|].
  cbn [search_query] in H. cbv zeta in H.
  destruct (add_new_spec sub (yielded (search attempt)) st Hst) as [Hg Hin].
  assert (Hg1 : grows (fun x => fst x = sub
                    /\ exists k, attempt <= k <= 5
                                 /\ In (snd x) (yielded (search k)))
                  st (add_new sub (yielded (search attempt)) st)).
  { eapply grows_weaken; [|exact Hg]. intros x [H1 H2].
    split; [exact H1|]. exists attempt. split; [lia | exact H2]. }
  destruct (ended (search attempt)) as [|[|]|].
  - injection H as <-. split; [exact Hg1 | exact Hin].
  - injection H as <-. split; [exact Hg1 | exact Hin].
  - destruct (Nat.ltb_spec 5 (attempt + 1)) as [Hgt | Hle'].
    + injection H as <-. split; [exact Hg1 | exact Hin].
    + destruct (IH _ _ _ (proj1 Hg) Hle' H) as [Hg2 _]. split.
      * eapply grows_trans; [exact Hg1|].
        eapply grows_weaken; [|exact Hg2]. intros x [H1 [k [Hk H2]]].
        split; [exact H1|]. exists k. split; [lia | exact H2].
      * intros id Hid. apply (grows_keeps _ _ _ _ Hg2), Hin, Hid.
  - discriminate.
Qed.

Lemma search_query_total (search : nat -> search_run) (sub : str) :
  forall fuel attempt st,
    1 <= fuel -> 5 < attempt + fuel ->
    (forall k, ended (search k) <> SearchUncaught) ->
    exists st', search_query search sub fuel attempt st = Some st'.
Proof.
  induction fuel as [|fuel IH]; intros attempt st Hf Hlt Hno; [lia|].
  cbn [search_query]. cbv zeta.
  pose proof (Hno attempt) as Hk.
  destruct (ended (search attempt)) as [|[|]|].
  - eexists; reflexivity.
  - eexists; reflexivity.
  - destruct (Nat.ltb_spec 5 (attempt + 1)); [eexists; reflexivity|].
    apply IH; [lia | lia | exact Hno].
  - contradiction Hk. reflexivity.
Qed.

(** The queries of one subreddit. *)
Lemma search_queries_spec (search : str -> nat -> search_run) (sub : str)
  (fuel : nat) :
  forall qs st st',
    search_inv st ->
    search_queries search sub fuel qs st = Some st' ->
    grows (fun x => fst x = sub
                    /\ exists q k, In q qs /\ 1 <= k <= 5
                                   /\ In (snd x) (yielded (search q k))) st st'
    /\ forall q id, In q qs -> In id (yielded (search q 1))
                    -> In id (List.map snd (fst st')).
Proof.
  induction qs as [|q qs IH]; intros st st' Hst H.
  - injection H as <-. split; [apply grows_refl, Hst | intros q id []].
  - cbn [search_queries] in H.
    destruct (search_query (search q) sub fuel 1 st) as [st1|] eqn:E1;
      [|discriminate].
    assert (H15 : 1 <= 5) by lia.
    destruct (search_query_spec _ _ _ _ _ _ Hst H15 E1) as [Hg1 Hin1].
    destruct (IH _ _ (proj1 Hg1) H) as [Hg2 Hin2]. split.
    + eapply grows_trans.
      * eapply grows_weaken; [|exact Hg1]. intros x [H1 [k [Hk H2]]].
        split; [exact H1|]. exists q, k. split; [left; reflexivity|].
        split; [exact Hk | exact H2].
      * eapply grows_weaken; [|exact Hg2]. intros x [H1 [q' [k [Hq [Hk H2]]]]].
        split; [exact H1|]. exists q', k. split; [right; exact Hq|].
        split; [exact Hk | exact H2].
    + intros q' id [<- | Hq] Hid.
      * apply (grows_keeps _ _ _ _ Hg2), Hin1, Hid.
      * apply (Hin2 q' id Hq Hid).
Qed.

Lemma search_queries_total (search : str -> nat -> search_run) (sub : str)
  (fuel : nat) :
  5 <= fuel ->
  (forall q k, ended (search q k) <> SearchUncaught) ->
  forall qs st, exists st', search_queries search sub fuel qs st = Some st'.
Proof.
  intros Hf Hno. induction qs as [|q qs IH]; intros st.
  - eexists; reflexivity.
  - cbn [search_queries].
    destruct (search_query_total (search q) sub fuel 1 st) as [st1 ->];
      [lia | lia | apply Hno | apply IH].
Qed.

(** The subreddits. *)
Lemma search_subs_spec (search : str -> str -> nat -> search_run) (fuel : nat) :
  forall subs st st',
    search_inv st ->
    search_subs search fuel subs st = Some st' ->
    grows (fun x => In (fst x) subs
                    /\ exists q k, In q SEARCH_QUERIES /\ 1 <= k <= 5
                                   /\ In (snd x) (yielded (search (fst x) q k)))
          st st'
    /\ forall sub q id, In sub subs -> In q SEARCH_QUERIES
                        -> In id (yielded (search sub q 1))
                        -> In id (List.map snd (fst st')).
Proof.
  induction subs as [|sub subs IH]; intros st st' Hst H.
  - injection H as <-. split; [apply grows_refl, Hst | intros sub q id []].
  - cbn [search_subs] in H.
    destruct (search_queries (search sub) sub fuel SEARCH_QUERIES st)
      as [st1|] eqn:E1; [|discriminate].
    destruct (search_queries_spec _ _ _ _ _ _ Hst E1) as [Hg1 Hin1].
    destruct (IH _ _ (proj1 Hg1) H) as [Hg2 Hin2]. split.
    + eapply grows_trans.
      * eapply grows_weaken; [|exact Hg1]. intros x [H1 H2].
        rewrite H1. split; [left; reflexivity | exact H2].
      * eapply grows_weaken; [|exact Hg2]. intros x [H1 H2].
        split; [right; exact H1 | exact H2].
    + intros sub' q id [<- | Hs] Hq Hid.
      * apply (grows_keeps _ _ _ _ Hg2), (Hin1 q id Hq Hid).
      * apply (Hin2 sub' q id Hs Hq Hid).
Qed.

Lemma search_subs_total (search : str -> str -> nat -> search_run) (fuel : nat) :
  5 <= fuel ->
  (forall sub q k, ended (search sub q k) <> SearchUncaught) ->
  forall subs st, exists st', search_subs search fuel subs st = Some st'.
Proof.
  intros Hf Hno. induction subs as [|sub subs IH]; intros st.
  - eexists; reflexivity.
  - cbn [search_subs].
    destruct (search_queries_total (search sub) sub fuel Hf (Hno sub)
                SEARCH_QUERIES st) as [st1 ->].
    apply IH.
Qed.

End SearchFacts.

(* ------------------------------------------------------------------ *)
(** * Signs and order of the amounts *)

Module FloatFacts.
Import Py Flt Notions.
Local Open Scope Z_scope.

Lemma iter_pos_inv {A} (P : A -> Prop) (f : A -> A) :
  (forall x, P x -> P (f x)) -> forall p x, P x -> P (iter_pos f p x).
Proof. intros Hf. induction p; intros x Hx; simpl; auto. Qed.

Lemma shr_1_nonneg (mrs : shr_record) :
  0 <= shr_m mrs -> 0 <= shr_m (shr_1 mrs).
Proof.
  destruct mrs as [m r s]. simpl.
  destruct m as [|[p|p|]|[p|p|]]; simpl; lia.
Qed.

Lemma shr_nonneg (mrs : shr_record) (e n : Z) :
  0 <= shr_m mrs -> 0 <= shr_m (fst (shr mrs e n)).
Proof.
  intros H. unfold shr. destruct n; simpl; auto.
  apply iter_pos_inv; [apply shr_1_nonneg | exact H].
Qed.

Lemma shr_record_of_loc_m (m : Z) (l : location) :
  shr_m (shr_record_of_loc m l) = m.
Proof. destruct l as [|[| |]]; reflexivity. Qed.

Lemma shr_fexp_nonneg (m e : Z) (l : location) :
  0 <= m -> 0 <= shr_m (fst (shr_fexp prec emax m e l)).
Proof.
  intros H. unfold shr_fexp. apply shr_nonneg.
  rewrite shr_record_of_loc_m. exact H.
Qed.

Lemma round_nearest_even_nonneg (m : Z) (l : location) :
  0 <= m -> 0 <= round_nearest_even m l.
Proof.
  unfold round_nearest_even. destruct l as [|[| |]]; try lia.
  destruct (IntDef.Z.even m); lia.
Qed.

(** Rounding a mantissa that is not negative gives no NaN. *)
Lemma binary_round_aux_nonneg (mx ex : Z) (lx : location) :
  0 <= mx -> nonneg (binary_round_aux prec emax false mx ex lx) = true.
Proof.
  intros H. unfold binary_round_aux.
  pose proof (shr_fexp_nonneg mx ex lx H) as H1.
  destruct (shr_fexp prec emax mx ex lx) as [mrs' e']. cbn [fst] in H1.
  pose proof (shr_fexp_nonneg _ e' loc_Exact
                (round_nearest_even_nonneg _ (loc_of_shr_record mrs') H1)) as H2.
  destruct (shr_fexp prec emax
              (round_nearest_even (shr_m mrs') (loc_of_shr_record mrs'))
              e' loc_Exact) as [mrs'' e'']. cbn [fst] in H2.
  destruct (shr_m mrs''); [reflexivity | | lia].
  destruct (e'' <=? emax - prec); reflexivity.
Qed.

Lemma of_ratio_nonneg (n d : Z) : nonneg (of_ratio n d) = true.
Proof.
  unfold of_ratio. destruct n as [|pn|pn]; try reflexivity.
  destruct d as [|pd|pd]; try reflexivity.
  unfold SFdiv, SFdiv_core_binary. cbv zeta.
  set (e' := IntDef.Z.min _ _). set (m' := match _ with 0 => _ | _ => _ end).
  assert (Hm : 0 <= m').
  { subst m'. destruct (0 - 0 - e'); try lia. apply Z.shiftl_nonneg. lia. }
  pose proof (Z.div_pos m' (Z.pos pd) Hm ltac:(lia)) as Hq.
  unfold Z.div in Hq.
  destruct (IntDef.Z.div_eucl m' (Z.pos pd)) as [q r] eqn:E.
  apply binary_round_aux_nonneg. exact Hq.
Qed.

Lemma mul_nonneg (x : float) (m : positive) (e : Z) :
  nonneg x = true -> nonneg (mul x (S754_finite false m e)) = true.
Proof.
  destruct x as [[|]|[|]| |[|] mx ex]; try discriminate; intros _;
    try reflexivity.
  unfold mul, SFmul. apply binary_round_aux_nonneg. lia.
Qed.

Lemma finite_ltb (m1 m2 : positive) (e1 e2 : Z) :
  ltb (S754_finite false m1 e1) (S754_finite false m2 e2) = true
  <-> e1 < e2 \/ (e1 = e2 /\ (m1 < m2)%positive).
Proof.
  unfold ltb, SFltb, SFcompare.
  change (PosDef.Pos.compare_cont Eq m1 m2) with (Pos.compare m1 m2).
  destruct (Z.compare_spec e1 e2) as [He | He | He].
  - destruct (Pos.compare_spec m1 m2) as [Hm | Hm | Hm]; split;
      try discriminate; try (intros _; right; split; assumption);
      intros [H | [_ H]]; try lia.
  - split; [intros _; left; exact He | reflexivity].
  - split; [discriminate | intros [H | [H _]]; lia].
Qed.

Lemma ltb_trans (a b c : float) :
  nonneg a = true -> nonneg b = true -> nonneg c = true ->
  ltb a b = true -> ltb b c = true -> ltb a c = true.
Proof.
  destruct a as [[|]|[|]| |[|] ma ea]; try discriminate;
    destruct b as [[|]|[|]| |[|] mb eb]; try discriminate;
    destruct c as [[|]|[|]| |[|] mc ec]; try discriminate;
    intros _ _ _; try reflexivity; try discriminate.
  rewrite !finite_ltb. lia.
Qed.

(** What is not below [b] and below [c] leaves [b] below [c]. *)
Lemma ltb_below (a b c : float) :
  nonneg a = true -> nonneg b = true -> nonneg c = true ->
  ltb a b = false -> ltb a c = true -> ltb b c = true.
Proof.
  destruct a as [[|]|[|]| |[|] ma ea]; try discriminate;
    destruct b as [[|]|[|]| |[|] mb eb]; try discriminate;
    destruct c as [[|]|[|]| |[|] mc ec]; try discriminate;
    intros _ _ _; try reflexivity; try discriminate.
  intros H1. rewrite !finite_ltb.
  assert (H : ~ (ea < eb \/ ea = eb /\ (ma < mb)%positive)).
  { intros H. apply finite_ltb in H. rewrite H in H1. discriminate. }
  lia.
Qed.

Lemma ltb_minus_one (v : float) :
  nonneg v = true -> ltb (of_Z (-1)) v = true.
Proof.
  destruct v as [[|]|[|]| |[|] m e]; try discriminate; intros _; reflexivity.
Qed.

End FloatFacts.

(* ------------------------------------------------------------------ *)
(** * [float] on the digits and points of a literal *)

Module LiteralFacts.
Import Py Flt Notions FloatFacts.
Local Open Scope N_scope.

Lemma to_ascii_plain (c : char) :
  is_digit c || is_dot c = true ->
  exists a, to_ascii c = Some a /\ is_ascii_digit a || is_dot a = true.
Proof.
  intros H. apply orb_true_iff in H. destruct H as [H | H].
  - unfold to_ascii. destruct (N.ltb_spec c 127) as [Hc | Hc].
    + exists c. split; [reflexivity|].
      apply PyFacts.digit_range in H. apply orb_true_iff. left.
      apply PyFacts.between_spec. lia.
    + rewrite (PyFacts.digit_not_space c H), H.
      eexists. split; [reflexivity|]. apply orb_true_iff. left.
      apply PyFacts.between_spec.
      unfold digit_val, is_digit, digit_zero in *.
      destruct (List.find (fun z => between z (z + 9) c) DIGIT_ZEROS)
        as [z|] eqn:E; [|discriminate].
      apply find_some in E. destruct E as [_ E].
      apply PyFacts.between_spec in E. lia.
  - apply PyFacts.chr_eqb_eq in H. subst c. exists 46%N. split; reflexivity.
Qed.

Lemma transform_plain (s : str) :
  plain s = true -> exists t, transform s = Some t /\ plain_ascii t = true.
Proof.
  unfold plain, plain_ascii. induction s as [|c s IH]; intros H.
  - exists []. split; reflexivity.
  - cbn [forallb] in H. apply andb_true_iff in H. destruct H as [Hc Hs].
    destruct (to_ascii_plain c Hc) as [a [Ea Ha]].
    destruct (IH Hs) as [t [Et Ht]].
    exists (a :: t). cbn [transform forallb]. rewrite Ea, Et, Ha, Ht.
    split; reflexivity.
Qed.

Lemma plain_ascii_chr (c : char) :
  is_ascii_digit c || is_dot c = true -> (c = 46 \/ 48 <= c <= 57)%N.
Proof.
  intros H. apply orb_true_iff in H. destruct H as [H | H].
  - right. apply PyFacts.between_spec, H.
  - left. apply PyFacts.chr_eqb_eq, H.
Qed.

Lemma underscores_ok_plain (t : str) :
  plain_ascii t = true ->
  forall prev, is_underscore prev = false -> underscores_ok prev t = true.
Proof.
  unfold plain_ascii. induction t as [|c t IH]; intros H prev Hp.
  - cbn [underscores_ok]. rewrite Hp. reflexivity.
  - cbn [forallb] in H. apply andb_true_iff in H. destruct H as [Hc Ht].
    assert (Hu : is_underscore c = false).
    { apply plain_ascii_chr in Hc. unfold is_underscore.
      destruct (chr_eqb c 95) eqn:E; [|reflexivity].
      apply PyFacts.chr_eqb_eq in E. lia. }
    cbn [underscores_ok]. rewrite Hu, Hp, (IH Ht c Hu). reflexivity.
Qed.

Lemma filter_plain (t : str) :
  plain_ascii t = true -> filter (fun c => negb (is_underscore c)) t = t.
Proof.
  unfold plain_ascii. induction t as [|c t IH]; intros H; [reflexivity|].
  cbn [forallb] in H. apply andb_true_iff in H. destruct H as [Hc Ht].
  cbn [filter]. rewrite (IH Ht).
  apply plain_ascii_chr in Hc. unfold is_underscore.
  destruct (chr_eqb c 95) eqn:E; [|reflexivity].
  apply PyFacts.chr_eqb_eq in E. lia.
Qed.

Lemma lstrip_c_plain (t : str) : plain_ascii t = true -> lstrip_c t = t.
Proof.
  destruct t as [|c t]; [reflexivity|]. unfold plain_ascii. cbn [forallb].
  intros H. apply andb_true_iff in H. destruct H as [Hc _].
  apply plain_ascii_chr in Hc. cbn [lstrip_c].
  destruct (is_c_space c) eqn:E; [|reflexivity].
  unfold is_c_space in E. apply orb_true_iff in E. destruct E as [E | E].
  - apply PyFacts.between_spec in E. lia.
  - apply PyFacts.chr_eqb_eq in E. lia.
Qed.

Lemma strip_c_plain (t : str) : plain_ascii t = true -> strip_c t = t.
Proof.
  intros H. unfold strip_c. rewrite (lstrip_c_plain t H).
  rewrite lstrip_c_plain; [apply rev_involutive|].
  unfold plain_ascii in *. rewrite forallb_forall in *.
  intros x Hx. apply H, in_rev, Hx.
Qed.

Lemma parse_decimal_nonneg (s : str) (v : float) :
  parse_decimal s = Some v -> nonneg v = true.
Proof.
  unfold parse_decimal. destruct (take_digits s) as [ip r1].
  destruct (match r1 with
            | c :: t => if is_dot c then take_digits t else ([], r1)
            | [] => ([], r1)
            end) as [fp r2].
  destruct (ip ++ fp) as [|d ds]; [discriminate|].
  destruct (parse_exponent r2) as [e|]; [|discriminate].
  cbv zeta. intros H. injection H as <-.
  destruct (0 <=? e - Z.of_nat (length fp))%Z; apply of_ratio_nonneg.
Qed.

Lemma parse_signed_plain (t : str) (v : float) :
  plain_ascii t = true -> parse_signed t = Some v -> nonneg v = true.
Proof.
  destruct t as [|c t]; [discriminate|]. unfold plain_ascii. cbn [forallb].
  intros H. apply andb_true_iff in H. destruct H as [Hc _].
  apply plain_ascii_chr in Hc. unfold parse_signed.
  assert (Hm : is_minus c = false).
  { unfold is_minus. destruct (chr_eqb c 45) eqn:E; [|reflexivity].
    apply PyFacts.chr_eqb_eq in E. lia. }
  assert (Hp : is_plus c = false).
  { unfold is_plus. destruct (chr_eqb c 43) eqn:E; [|reflexivity].
    apply PyFacts.chr_eqb_eq in E. lia. }
  rewrite Hm, Hp. unfold parse_unsigned. cbv zeta. cbn [List.map].
  assert (Hl : ascii_lower c = c).
  { unfold ascii_lower. destruct (between 65 90 c) eqn:E; [|reflexivity].
    apply PyFacts.between_spec in E. lia. }
  rewrite Hl.
  assert (Hi : forall x w l, (x = 105 \/ x = 110)%N ->
                             str_eqb (c :: l) (x :: w) = false).
  { intros x w l Hx. cbn [str_eqb].
    destruct (chr_eqb c x) eqn:E; [|reflexivity].
    apply PyFacts.chr_eqb_eq in E. lia. }
  change (u "inf") with (105%N :: u "nf").
  change (u "infinity") with (105%N :: u "nfinity").
  change (u "nan") with (110%N :: u "an").
  rewrite !Hi by lia. cbn [orb]. apply parse_decimal_nonneg.
Qed.

(** [float] reads a text of digits and points as a number that is not
    negative, or rejects it. *)
Lemma py_float_nonneg (s : str) (v : float) :
  plain s = true -> py_float s = Some v -> nonneg v = true.
Proof.
  intros Hs. unfold py_float.
  destruct (transform_plain s Hs) as [t [-> Ht]].
  rewrite (underscores_ok_plain t Ht 0%N eq_refl), (filter_plain t Ht),
    (strip_c_plain t Ht).
  apply parse_signed_plain, Ht.
Qed.

End LiteralFacts.


(* ------------------------------------------------------------------ *)
(** * The best money token *)

Module BestFacts.
Import Py Re Flt Run Spec Notions PyFacts ReFacts ReChecks FloatFacts
       LiteralFacts.

Lemma mul_thousand (x : float) :
  nonneg x = true -> nonneg (mul x (of_Z 1000)) = true.
Proof.
  assert (E : exists m e, of_Z 1000 = S754_finite false m e)
    by (eexists; eexists; vm_compute; reflexivity).
  destruct E as [m [e ->]]. apply mul_nonneg.
Qed.

Lemma mul_million (x : float) :
  nonneg x = true -> nonneg (mul x (of_Z 1000000)) = true.
Proof.
  assert (E : exists m e, of_Z 1000000 = S754_finite false m e)
    by (eexists; eexists; vm_compute; reflexivity).
  destruct E as [m [e ->]]. apply mul_nonneg.
Qed.

(** The value of a money token is never negative and never a NaN. *)
(** ** The characters of the numeric literal *)

Lemma digits_and_sound (cs : str) (r : regex) :
  digits_and cs r = true ->
  forall w, lang false r w ->
            forallb (fun x => is_digit x || existsb (chr_eqb x) cs) w = true.
Proof.
  induction r as [|c|items|a IHa b IHb|a IHa b IHb|a IHa lo hi|name a IHa|];
    cbn [digits_and lang]; intros H w Hw.
  - subst w. reflexivity.
  - destruct Hw as [x [-> Hx]]. unfold chr_match in Hx.
    apply chr_eqb_eq in Hx. subst x. cbn [forallb]. rewrite H.
    rewrite orb_true_r. reflexivity.
  - destruct Hw as [x [-> Hx]]. cbn [forallb]. rewrite andb_true_r.
    unfold cls_match in Hx. apply existsb_exists in Hx.
    destruct Hx as [it [Hin Hit]]. rewrite forallb_forall in H.
    specialize (H it Hin). cbn [andb] in Hit. rewrite orb_false_r in Hit.
    destruct it as [c|lo hi| | |]; try discriminate; cbn [citem_match] in Hit.
    + apply chr_eqb_eq in Hit. subst x. rewrite H. apply orb_true_r.
    + rewrite Hit. reflexivity.
  - apply andb_true_iff in H. destruct H as [Ha Hb].
    destruct Hw as [w1 [w2 [-> [H1 H2]]]].
    rewrite forallb_app, (IHa Ha w1 H1), (IHb Hb w2 H2). reflexivity.
  - apply andb_true_iff in H. destruct H as [Ha Hb].
    destruct Hw as [Hw | Hw]; [apply (IHa Ha), Hw | apply (IHb Hb), Hw].
  - destruct Hw as [ws [-> [Hws _]]].
    induction Hws as [|w1 ws Hw1 _ IHws]; [reflexivity|].
    cbn [concat]. rewrite forallb_app, (IHa H w1 Hw1), IHws. reflexivity.
  - apply (IHa H), Hw.
  - subst w. reflexivity.
Qed.

Lemma literal_of_digits_and (w : str) :
  forallb (fun x => is_digit x || existsb (chr_eqb x) (u ".,")) w = true ->
  forallb is_literal_chr w = true.
Proof.
  apply AmountFacts.forallb_impl. intros x Hx. unfold is_literal_chr.
  apply orb_true_iff in Hx. destruct Hx as [Hx | Hx];
    [rewrite Hx; reflexivity|].
  apply orb_true_iff. right. unfold Scrape.is_sep.
  change (existsb (chr_eqb x) (u ".,"))
    with (chr_eqb x Scrape.dot || (chr_eqb x Scrape.comma || false)) in Hx.
  rewrite orb_false_r in Hx. rewrite orb_comm. exact Hx.
Qed.

(** The group [number] of a money match of Strategy A holds digits, commas
    and points only. *)
Lemma number_literal (text : str) (m : re_match) :
  search false RE_MONEY text = Some m ->
  forallb is_literal_chr (group_or_empty m "number") = true.
Proof.
  intros Hs. unfold group_or_empty.
  destruct (group m "number") as [v|] eqn:Hg; [|reflexivity].
  apply ReFacts.search_sound in Hs. destruct Hs as [_ [_ Hgl]].
  apply Hgl in Hg. apply PeriodFacts.group_regexes_sound in Hg.
  destruct Hg as [a [Ha Hl]].
  assert (E : group_regexes RE_MONEY "number" = [number_re])
    by (vm_compute; reflexivity).
  rewrite E in Ha. destruct Ha as [<- | []].
  apply literal_of_digits_and.
  apply (digits_and_sound (u ".,") number_re); [vm_compute; reflexivity | exact Hl].
Qed.

(** The group [amount] of a money match of Strategy B likewise. *)
Lemma amount_literal (text : str) (m : re_match) :
  search false Scrape.REVENUE_PATTERNS text = Some m ->
  forallb is_literal_chr (group_or_empty m "amount") = true.
Proof.
  intros Hs. unfold group_or_empty.
  destruct (group m "amount") as [v|] eqn:Hg; [|reflexivity].
  apply ReFacts.search_sound in Hs. destruct Hs as [_ [_ Hgl]].
  apply Hgl in Hg. apply PeriodFacts.group_regexes_sound in Hg.
  destruct Hg as [a [Ha Hl]].
  assert (E : group_regexes Scrape.REVENUE_PATTERNS "amount" = [Scrape.amount_re])
    by (vm_compute; reflexivity).
  rewrite E in Ha. destruct Ha as [<- | []].
  apply literal_of_digits_and.
  apply (digits_and_sound (u ".,") Scrape.amount_re);
    [vm_compute; reflexivity | exact Hl].
Qed.

(** A literal without its commas and spaces is a text of digits and
    points. *)
Lemma uncomma_plain (s : str) :
  forallb is_literal_chr s = true ->
  plain (replace1 32%N [] (replace1 44%N [] s)) = true.
Proof.
  unfold plain. induction s as [|c s IH]; intros H; [reflexivity|].
  cbn [forallb] in H. apply andb_true_iff in H. destruct H as [Hc Hs].
  change (replace1 44%N [] (c :: s))
    with ((if chr_eqb c 44%N then [] else [c]) ++ replace1 44%N [] s).
  rewrite PeriodFacts.replace1_app, forallb_app, (IH Hs), andb_true_r.
  destruct (chr_eqb c 44%N) eqn:E; [reflexivity|].
  pose proof (AmountFacts.literal_not_space c Hc) as Hsp.
  assert (E32 : chr_eqb c 32%N = false).
  { destruct (chr_eqb c 32%N) eqn:E2; [|reflexivity].
    apply chr_eqb_eq in E2. subst c. discriminate Hsp. }
  cbn [replace1 flat_map]. rewrite E32. cbn [app forallb].
  rewrite andb_true_r. unfold is_literal_chr, Scrape.is_sep in Hc.
  change Scrape.comma with 44%N in Hc. rewrite E in Hc. exact Hc.
Qed.

Lemma replace1_nil_filter (old : char) (s : str) :
  replace1 old [] s = filter (fun c => negb (chr_eqb c old)) s.
Proof.
  induction s as [|c s IH]; [reflexivity|].
  change (replace1 old [] (c :: s))
    with ((if chr_eqb c old then [] else [c]) ++ replace1 old [] s).
  cbn [filter]. rewrite IH. destruct (chr_eqb c old); reflexivity.
Qed.

(** What Strategy A gives to [float]: the literal without its commas. *)
Lemma uncomma_filter (s : str) :
  forallb is_literal_chr s = true ->
  replace1 32%N [] (replace1 44%N [] s)
  = filter (fun c => negb (chr_eqb c Scrape.comma)) s.
Proof.
  intros H. rewrite (replace1_nil_filter 44%N).
  apply AmountFacts.replace1_absent.
  rewrite forallb_forall in *. intros x Hx. apply filter_In in Hx.
  destruct Hx as [Hx _].
  pose proof (AmountFacts.literal_not_space x (H x Hx)) as Hsp.
  destruct (chr_eqb x 32%N) eqn:E; [|reflexivity].
  apply chr_eqb_eq in E. subst x. discriminate Hsp.
Qed.

(** The value of a money match of Strategy A is the float of its literal
    without the commas, times the magnitude of the suffix. *)
Lemma token_value_uncomma (text : str) (m : re_match) :
  search false RE_MONEY text = Some m ->
  (group m "suffix" = None ->
   token_value m
   = py_float (filter (fun c => negb (chr_eqb c Scrape.comma))
                      (group_or_empty m "number")))
  /\ match py_float (filter (fun c => negb (chr_eqb c Scrape.comma))
                            (group_or_empty m "number")) with
     | None => token_value m = None
     | Some val =>
         token_value m = Some val
         \/ token_value m = Some (mul val (of_Z 1000))
         \/ token_value m = Some (mul val (of_Z 1000000))
     end.
Proof.
  intros Hs. pose proof (number_literal text m Hs) as Hl.
  unfold token_value. cbv zeta. rewrite (uncomma_filter _ Hl).
  destruct (py_float _) as [val|]; split; try reflexivity.
  - intros ->. reflexivity.
  - destruct (_ && _); [right; right; reflexivity|].
    destruct (_ && _); [right; left; reflexivity | left; reflexivity].
Qed.

(** The value of a money token is never negative and never a NaN. *)
Lemma token_value_nonneg (m : re_match) (v : float) :
  forallb is_literal_chr (group_or_empty m "number") = true ->
  token_value m = Some v -> nonneg v = true.
Proof.
  intros Hl. unfold token_value.
  destruct (py_float _) as [val|] eqn:E; [|discriminate].
  apply (py_float_nonneg _ _ (uncomma_plain _ Hl)) in E.
  intros H. injection H as <-.
  destruct (_ && _); [apply mul_million, E|].
  destruct (_ && _); [apply mul_thousand, E | exact E].
Qed.

Lemma money_value_nonneg (tok : str) (v : float) :
  money_value tok = Some v -> nonneg v = true.
Proof.
  unfold money_value.
  destruct (search false RE_MONEY (lower tok)) as [m|] eqn:E; [|discriminate].
  apply token_value_nonneg, (number_literal _ _ E).
Qed.

(** One turn of the loop of [extract_best_money]. *)
Lemma best_money_loop_cons (tok : str) (toks : list str) (best : option str)
  (bv : float) :
  best_money_loop (tok :: toks) best bv
  = match money_value tok with
    | Some v => if ltb bv v then best_money_loop toks (Some tok) v
                else best_money_loop toks best bv
    | None => best_money_loop toks best bv
    end.
Proof.
  cbn [best_money_loop]. unfold money_value.
  destruct (search false RE_MONEY (lower tok)); reflexivity.
Qed.

(** The loop once a token is held: it ends with the first of the greatest
    tokens. *)
Lemma best_money_loop_held (post : list str) :
  forall (pre : list str) (tok : str) (v : float) (mid : list str),
    money_value tok = Some v ->
    (forall t w, In t pre -> money_value t = Some w -> ltb w v = true) ->
    (forall t w, In t mid -> money_value t = Some w -> ltb v w = false) ->
    exists pre' tok' v' post',
      pre ++ tok :: mid ++ post = pre' ++ tok' :: post'
      /\ best_money_loop post (Some tok) v = Some tok'
      /\ money_value tok' = Some v'
      /\ (forall t w, In t pre' -> money_value t = Some w -> ltb w v' = true)
      /\ (forall t w, In t post' -> money_value t = Some w -> ltb v' w = false).
Proof.
  induction post as [|t post IH]; intros pre tok v mid Hv Hpre Hmid.
  - exists pre, tok, v, mid. rewrite app_nil_r. repeat split; assumption.
  - rewrite best_money_loop_cons.
    assert (Hlist : pre ++ tok :: mid ++ t :: post
                    = pre ++ tok :: (mid ++ [t]) ++ post)
      by (rewrite <- (app_assoc mid); reflexivity).
    destruct (money_value t) as [w|] eqn:Ew.
    + destruct (ltb v w) eqn:El.
      * assert (Hlist2 : pre ++ tok :: mid ++ t :: post
                         = (pre ++ tok :: mid) ++ t :: [] ++ post)
          by (rewrite <- app_assoc; reflexivity).
        rewrite Hlist2. apply IH; [exact Ew | | intros x wx []].
        intros x wx Hx Hwx. apply in_app_or in Hx.
        pose proof (money_value_nonneg _ _ Hv) as Nv.
        pose proof (money_value_nonneg _ _ Ew) as Nw.
        pose proof (money_value_nonneg _ _ Hwx) as Nx.
        destruct Hx as [Hx | [<- | Hx]].
        -- apply (ltb_trans wx v w Nx Nv Nw (Hpre x wx Hx Hwx) El).
        -- rewrite Hv in Hwx. injection Hwx as <-. exact El.
        -- apply (ltb_below v wx w Nv Nx Nw (Hmid x wx Hx Hwx) El).
      * rewrite Hlist. apply IH; [exact Hv | exact Hpre |].
        intros x wx Hx Hwx. apply in_app_or in Hx. destruct Hx as [Hx | [<- | []]].
        -- apply (Hmid x wx Hx Hwx).
        -- rewrite Ew in Hwx. injection Hwx as <-. exact El.
    + rewrite Hlist. apply IH; [exact Hv | exact Hpre |].
      intros x wx Hx Hwx. apply in_app_or in Hx. destruct Hx as [Hx | [<- | []]].
      * apply (Hmid x wx Hx Hwx).
      * rewrite Ew in Hwx. discriminate.
Qed.

(** The loop from its start. *)
Lemma best_money_loop_start (toks : list str) :
  forall pre : list str,
    (forall t, In t pre -> money_value t = None) ->
    (best_money_loop toks None (of_Z (-1)) = None
     /\ forall t, In t toks -> money_value t = None)
    \/ exists pre' tok' v' post',
         pre ++ toks = pre' ++ tok' :: post'
         /\ best_money_loop toks None (of_Z (-1)) = Some tok'
         /\ money_value tok' = Some v'
         /\ (forall t w, In t pre' -> money_value t = Some w -> ltb w v' = true)
         /\ (forall t w, In t post' -> money_value t = Some w -> ltb v' w = false).
Proof.
  induction toks as [|t toks IH]; intros pre Hpre.
  - left. split; [reflexivity | intros t []].
  - rewrite best_money_loop_cons. destruct (money_value t) as [w|] eqn:Ew.
    + right. rewrite (ltb_minus_one w (money_value_nonneg _ _ Ew)).
      apply (best_money_loop_held toks pre t w [] Ew); [|intros x wx []].
      intros x wx Hx Hwx. rewrite (Hpre x Hx) in Hwx. discriminate.
    + destruct (IH (pre ++ [t])) as [[Hn Hall] | H].
      * intros x Hx. apply in_app_or in Hx. destruct Hx as [Hx | [<- | []]];
          [apply Hpre, Hx | exact Ew].
      * left. split; [exact Hn|]. intros x [<- | Hx]; [exact Ew | apply Hall, Hx].
      * right. rewrite <- app_assoc in H. exact H.
Qed.

Lemma money_value_empty : money_value [] = None.
Proof. vm_compute. reflexivity. Qed.

Lemma normalize_money_parsed (tok : str) (v : float) :
  money_value tok = Some v -> exists r, normalize_money tok = Some r.
Proof.
  unfold money_value, normalize_money.
  destruct (search false RE_MONEY (lower tok)) as [m|]; [|discriminate].
  intros ->. eexists. reflexivity.
Qed.

End BestFacts.

(* ------------------------------------------------------------------ *)
(** * The rows of Strategy A *)

Module RowFacts.
Import Py Re Flt Run Scrape Spec Notions PyFacts ReChecks FloatFacts BestFacts
       GateFacts DedupFacts.

(** The money spans that [score_comment] reports. *)
Lemma score_comment_spans (body : str) :
  money_spans (snd (score_comment body)) = spans false RE_MONEY (lower body).
Proof. reflexivity. Qed.

Lemma score_comment_markets (body : str) :
  markets_found (snd (score_comment body))
  = filter (fun m => isin m (lower body)) MARKET_HINTS.
Proof. reflexivity. Qed.

(** [score_comment] finds a money span exactly when the gate of
    [has_quantitative] is open. *)
Lemma money_spans_gate (body : str) :
  Run.nonempty (money_spans (snd (score_comment body)))
  = fst (has_quantitative body).
Proof.
  rewrite score_comment_spans, money_digit, digits_lower, has_quantitative_digit.
  reflexivity.
Qed.

Lemma select_row_shape (allow_no_numbers : bool) (min_score : Z)
  (c : jcomment) (r : row) :
  select_row allow_no_numbers min_score c = Some r ->
  let d := existsb is_digit (j_body c) in
  strip (j_body c) <> []
  /\ (allow_no_numbers = false -> d = true)
  /\ (min_score <= fst (score_comment (j_body c)))%Z
  /\ r = Row (fst (score_comment (j_body c)))
             (join (u ",")
                ((if d then [u "has_numbers"] else [])
                 ++ (if Run.nonempty (markets_found (snd (score_comment (j_body c))))
                     then [u "market_hint"] else [])
                 ++ (if d then [u "money_mention"] else [])))
             (or_empty (extract_best_money
                          (money_spans (snd (score_comment (j_body c))))))
             (join (u ", ") (markets_found (snd (score_comment (j_body c)))))
             []
             (row_quantitative_evidence r)
             (j_id c) (j_author c) (j_ups c)
             (u "https://www.reddit.com" ++ j_permalink c)
             (j_body c).
Proof.
  intros H d. unfold select_row in H.
  destruct (strip (j_body c)) eqn:Es; [discriminate|].
  pose proof (money_spans_gate (j_body c)) as Hm.
  pose proof (has_quantitative_digit (j_body c)) as Hd. fold d in Hd.
  destruct (has_quantitative (j_body c)) as [has_nums q].
  destruct (score_comment (j_body c)) as [score dt].
  cbn [fst snd] in *. subst has_nums. rewrite Hd in H. clearbody d.
  destruct (negb allow_no_numbers && negb d) eqn:Eg; [discriminate|].
  destruct (Z.ltb_spec score min_score); [discriminate|].
  injection H as <-. cbn [row_quantitative_evidence].
  repeat split.
  - discriminate.
  - intros ->. destruct d; [reflexivity | discriminate].
  - assumption.
Qed.

Lemma select_rows_In (allow_no_numbers : bool) (min_score : Z)
  (flat : list jcomment) (r : row) :
  In r (select_rows allow_no_numbers min_score flat) ->
  exists c, In c flat /\ select_row allow_no_numbers min_score c = Some r.
Proof.
  induction flat as [|c flat IH]; [intros []|].
  cbn [select_rows].
  destruct (select_row allow_no_numbers min_score c) as [r0|] eqn:E.
  - intros [<- | H].
    + exists c. split; [left; reflexivity | exact E].
    + destruct (IH H) as [c' [Hc' E']]. exists c'. split; [right; exact Hc' | exact E'].
  - intros H. destruct (IH H) as [c' [Hc' E']].
    exists c'. split; [right; exact Hc' | exact E'].
Qed.

End RowFacts.

(* ------------------------------------------------------------------ *)
(** * Periods, amounts and records of Strategy B *)

Module CrawlFacts.
Import Py Re Flt Run Scrape Spec Notions PyFacts FloatFacts BestFacts DedupFacts.
Local Open Scope Z_scope.

(** [_detect_period] returns one of the four period names, or nothing. *)
Lemma detect_period_cases (unit : option str) (body : str) :
  In (_detect_period unit body)
     [Some (u "day"); Some (u "week"); Some (u "month"); Some (u "year"); None].
Proof.
  unfold _detect_period. cbv zeta.
  destruct (_ || _); [left; reflexivity|].
  destruct (_ || _); [right; left; reflexivity|].
  destruct (_ || _); [right; right; left; reflexivity|].
  destruct (_ || _); [right; right; right; left; reflexivity|].
  right; right; right; right; left; reflexivity.
Qed.

(** ** The amount is not negative *)

(** A literal with a separator ends in its last separator and digits. *)
Lemma last_separator_split (s : str) :
  forallb is_literal_chr s = true -> existsb is_sep s = true ->
  exists pre sep frac,
    s = pre ++ sep :: frac /\ is_sep sep = true
    /\ forallb is_digit frac = true /\ forallb is_literal_chr pre = true.
Proof.
  induction s as [|c s IH]; intros Hl Hs; [discriminate|].
  cbn [forallb] in Hl. apply andb_true_iff in Hl. destruct Hl as [Hc Hl].
  destruct (existsb is_sep s) eqn:E.
  - destruct (IH Hl eq_refl) as [pre [sep [frac [-> [H1 [H2 H3]]]]]].
    exists (c :: pre), sep, frac. cbn [forallb]. rewrite Hc, H3.
    repeat split; assumption.
  - cbn [existsb] in Hs. rewrite E, orb_false_r in Hs.
    exists [], c, s. repeat split; [exact Hs|].
    rewrite forallb_forall in *. intros x Hx. specialize (Hl x Hx).
    unfold is_literal_chr in Hl. apply orb_true_iff in Hl.
    destruct Hl as [Hd | Hsep]; [exact Hd|].
    assert (Ht : existsb is_sep s = true)
      by (apply existsb_exists; exists x; split; assumption).
    rewrite Ht in E. discriminate.
Qed.

Lemma has_chr_sep (c : char) (s : str) :
  is_sep c = true -> has_chr c s = true -> existsb is_sep s = true.
Proof.
  intros Hc H. unfold has_chr in H. apply existsb_exists in H.
  destruct H as [x [Hx E]]. apply chr_eqb_eq in E. subst x.
  apply existsb_exists. exists c. split; assumption.
Qed.

Lemma has_chr_digits (c : char) (frac : str) :
  (c = comma \/ c = dot) -> forallb is_digit frac = true ->
  has_chr c frac = false.
Proof.
  intros Hc Hf. unfold has_chr.
  destruct (existsb (chr_eqb c) frac) eqn:E; [|reflexivity].
  apply existsb_exists in E. destruct E as [x [Hx E]].
  rewrite forallb_forall in Hf.
  rewrite (AmountFacts.digit_not_sep c x (Hf x Hx) Hc) in E. discriminate.
Qed.

Lemma unseparated_plain (pre frac : str) :
  forallb is_literal_chr pre = true -> forallb is_digit frac = true ->
  plain (unseparated pre ++ dot :: frac) = true.
Proof.
  intros Hp Hf. unfold plain. rewrite forallb_app. cbn [forallb].
  apply andb_true_iff. split.
  - unfold unseparated. rewrite forallb_forall in *. intros x Hx.
    apply filter_In in Hx. destruct Hx as [Hx Hn].
    specialize (Hp x Hx). unfold is_literal_chr in Hp.
    apply negb_true_iff in Hn. rewrite Hn, orb_false_r in Hp.
    rewrite Hp. reflexivity.
  - change (Flt.is_dot dot) with true. rewrite orb_true_r. cbn [andb].
    revert Hf. apply AmountFacts.forallb_impl. intros x Hx. rewrite Hx.
    reflexivity.
Qed.

Lemma decimal_commas_plain (s : str) :
  forallb is_literal_chr s = true -> plain (replace1 comma [dot] s) = true.
Proof.
  unfold plain. induction s as [|c s IH]; intros H; [reflexivity|].
  cbn [forallb] in H. apply andb_true_iff in H. destruct H as [Hc Hs].
  change (replace1 comma [dot] (c :: s))
    with ((if chr_eqb c comma then [dot] else [c]) ++ replace1 comma [dot] s).
  rewrite forallb_app, (IH Hs), andb_true_r.
  destruct (chr_eqb c comma) eqn:E; [reflexivity|].
  cbn [forallb]. rewrite andb_true_r.
  unfold is_literal_chr, is_sep in Hc. rewrite E in Hc. exact Hc.
Qed.

Lemma no_comma_plain (s : str) :
  forallb is_literal_chr s = true -> has_chr comma s = false ->
  plain s = true.
Proof.
  intros Hl Hc. unfold plain. rewrite forallb_forall in *. intros x Hx.
  specialize (Hl x Hx). unfold is_literal_chr, is_sep in Hl.
  destruct (chr_eqb x comma) eqn:E; [|exact Hl].
  apply chr_eqb_eq in E. subst x.
  assert (Ht : has_chr comma s = true).
  { apply existsb_exists. exists comma. split; [exact Hx | reflexivity]. }
  rewrite Ht in Hc. discriminate.
Qed.

(** What [_to_float_amount] reads in a literal of digits, commas and
    points is never negative and never a NaN. *)
Lemma to_float_amount_nonneg (s : str) (v : float) :
  forallb is_literal_chr s = true ->
  _to_float_amount s = Some v -> nonneg v = true.
Proof.
  intros Hl. destruct (has_chr comma s) eqn:Hc.
  - destruct (has_chr dot s) eqn:Hd.
    + destruct (last_separator_split s Hl (has_chr_sep comma s eq_refl Hc))
        as [pre [sep [frac [-> [Hs [Hf Hp]]]]]].
      rewrite AmountFacts.to_float_both; try assumption.
      * apply LiteralFacts.py_float_nonneg, unseparated_plain; assumption.
      * change (sep :: frac) with ([sep] ++ frac) in Hc.
        rewrite app_assoc, AmountFacts.has_chr_app in Hc.
        rewrite (has_chr_digits comma frac (or_introl eq_refl) Hf),
          orb_false_r in Hc. exact Hc.
      * change (sep :: frac) with ([sep] ++ frac) in Hd.
        rewrite app_assoc, AmountFacts.has_chr_app in Hd.
        rewrite (has_chr_digits dot frac (or_intror eq_refl) Hf),
          orb_false_r in Hd. exact Hd.
    + rewrite (AmountFacts.to_float_commas s Hl Hc Hd).
      apply LiteralFacts.py_float_nonneg, decimal_commas_plain, Hl.
  - unfold _to_float_amount. destruct s as [|x s]; [discriminate|].
    rewrite (AmountFacts.literal_cleaned _ Hl). cbv zeta. rewrite Hc.
    cbn [andb]. apply LiteralFacts.py_float_nonneg, no_comma_plain; assumption.
Qed.

(** The amount of [normalize_revenue] is never negative and never a NaN. *)
Lemma normalize_revenue_nonneg (body : str) (m : re_match) (v : float) :
  search false REVENUE_PATTERNS body = Some m ->
  r_amount (normalize_revenue m) = Some v -> nonneg v = true.
Proof.
  intros Hs. pose proof (BestFacts.amount_literal body m Hs) as Hl.
  assert (Hst : strip (group_or_empty m "amount") = group_or_empty m "amount").
  { apply AmountFacts.strip_solid. revert Hl. apply AmountFacts.forallb_impl.
    intros x Hx. rewrite (AmountFacts.literal_not_space x Hx). reflexivity. }
  unfold normalize_revenue. cbv zeta. rewrite Hst.
  destruct (_to_float_amount (group_or_empty m "amount")) as [a|] eqn:E;
    [|discriminate].
  apply (to_float_amount_nonneg _ _ Hl) in E. cbn [r_amount].
  intros H. injection H as <-.
  destruct (str_eqb _ (u "k")); [apply mul_thousand, E|].
  destruct (str_eqb _ (u "m")); [apply mul_million, E | exact E].
Qed.

(** ** One record per comment *)

Lemma first_seen_In (cs : list (str * submission * comment)) :
  forall ids x, In x (first_seen ids cs)
                -> In x cs /\ seen (c_id (snd x)) ids = false.
Proof.
  induction cs as [|[[sr sub] c] cs IH]; intros ids x; [intros []|].
  cbn [first_seen]. destruct (seen (c_id c) ids) eqn:Es.
  - intros H. destruct (IH ids x H) as [H1 H2]. split; [right; exact H1 | exact H2].
  - intros [<- | H]; [split; [left; reflexivity | exact Es]|].
    destruct (IH _ x H) as [H1 H2]. split; [right; exact H1|].
    unfold seen in *. cbn [existsb] in H2. apply orb_false_iff in H2. apply H2.
Qed.

Lemma first_seen_fresh (cs : list (str * submission * comment)) :
  forall ids x, In x (first_seen ids cs) -> forall id, In id ids -> c_id (snd x) <> id.
Proof.
  intros ids x Hx id Hid E. destruct (first_seen_In cs ids x Hx) as [_ Hs].
  assert (Ht : seen (c_id (snd x)) ids = true)
    by (apply existsb_str_In; rewrite E; exact Hid).
  rewrite Ht in Hs. discriminate.
Qed.

(** The comments met for the first time have distinct ids. *)
Lemma first_seen_NoDup (cs : list (str * submission * comment)) :
  forall ids, NoDup (List.map (fun x => c_id (snd x)) (first_seen ids cs)).
Proof.
  induction cs as [|[[sr sub] c] cs IH]; intros ids; [constructor|].
  cbn [first_seen]. destruct (seen (c_id c) ids); [apply IH|].
  cbn [List.map snd]. constructor; [|apply IH].
  intros H. apply in_map_iff in H. destruct H as [x [E Hx]].
  apply (first_seen_fresh cs _ x Hx (c_id c)); [left; reflexivity | exact E].
Qed.

Lemma evidence_of_url (x : str * submission * comment) (ev : Evidence) :
  In ev (evidence_of x)
  -> evidence_of x = [ev]
     /\ comment_url ev = u "https://www.reddit.com" ++ c_permalink (snd x).
Proof.
  destruct x as [[sr sub] c]. unfold evidence_of, extract_evidence.
  destruct (c_body c) as [[|b body]|]; try (intros []).
  destruct (search false REVENUE_PATTERNS (b :: body)); [|intros []].
  intros [<- | []]. split; reflexivity.
Qed.

Lemma urls_NoDup (l : list (str * submission * comment)) :
  NoDup (List.map (fun x => c_permalink (snd x)) l) ->
  NoDup (List.map comment_url (flat_map evidence_of l)).
Proof.
  induction l as [|x l IH]; intros H; [constructor|].
  cbn [List.map] in H. inversion H as [|p ps Hp Hps]; subst.
  cbn [flat_map]. destruct (evidence_of x) as [|ev evs] eqn:E; [apply IH, Hps|].
  destruct (evidence_of_url x ev) as [E1 Hu]; [rewrite E; left; reflexivity|].
  rewrite E in E1. injection E1 as ->. cbn [app List.map].
  constructor; [|apply IH, Hps].
  intros Hin. apply in_map_iff in Hin. destruct Hin as [ev' [Eu Hev']].
  apply in_flat_map in Hev'. destruct Hev' as [y [Hy Hev']].
  destruct (evidence_of_url y ev' Hev') as [_ Hu'].
  rewrite Hu, Hu' in Eu. apply app_inv_head in Eu.
  apply Hp. apply in_map_iff. exists y. split; [exact Eu | exact Hy].
Qed.

Lemma map_NoDup_transfer {A B C} (f : A -> B) (g : A -> C) (l : list A) :
  (forall x y, In x l -> In y l -> g x = g y -> f x = f y) ->
  NoDup (List.map f l) -> NoDup (List.map g l).
Proof.
  induction l as [|a l IH]; intros Hfg H; [constructor|].
  cbn [List.map] in *. inversion H as [|p ps Hp Hps]; subst.
  constructor.
  - intros Hin. apply in_map_iff in Hin. destruct Hin as [y [E Hy]].
    apply Hp. apply in_map_iff. exists y. split; [|exact Hy].
    apply Hfg; [right; exact Hy | left; reflexivity | exact E].
  - apply IH; [|exact Hps]. intros x y Hx Hy. apply Hfg; right; assumption.
Qed.

End CrawlFacts.

(* ------------------------------------------------------------------ *)
(** * The service cues *)

Module StackFacts.
Import Py Scrape Spec PyFacts DedupFacts.
Local Open Scope Z_scope.

Lemma distinct_length (l : list str) : (length (distinct l) <= length l)%nat.
Proof.
  induction l as [|x l IH]; [constructor|].
  cbn [distinct]. destruct (existsb (str_eqb x) l); cbn [length]; lia.
Qed.

(** [set(hits)] removes nothing from the hits of a list without
    repetition. *)
Lemma distinct_filter (p : str -> bool) (l : list str) :
  distinct l = l -> distinct (filter p l) = filter p l.
Proof.
  induction l as [|x l IH]; intros H; [reflexivity|].
  cbn [distinct] in H. destruct (existsb (str_eqb x) l) eqn:E.
  - pose proof (distinct_length l) as Hl. rewrite H in Hl. cbn [length] in Hl. lia.
  - injection H as H. cbn [filter]. destruct (p x); [|apply IH, H].
    cbn [distinct].
    assert (E' : existsb (str_eqb x) (filter p l) = false).
    { destruct (existsb (str_eqb x) (filter p l)) eqn:E2; [|reflexivity].
      apply existsb_exists in E2. destruct E2 as [y [Hy Hxy]].
      apply filter_In in Hy. rewrite <- E. symmetry. apply existsb_exists.
      exists y. split; [apply Hy | exact Hxy]. }
    rewrite E', (IH H). reflexivity.
Qed.

Lemma isin_trans (a b c : str) :
  isin a b = true -> isin b c = true -> isin a c = true.
Proof.
  rewrite !isin_spec. intros [l1 [r1 ->]] [l2 [r2 ->]].
  exists (l2 ++ l1), (r1 ++ r2). rewrite <- !app_assoc. reflexivity.
Qed.

Lemma filter_two (p : str -> bool) (a b : str) (l1 l2 : list str) :
  p a = true -> p b = true ->
  (2 <= length (filter p (l1 ++ a :: b :: l2)))%nat.
Proof.
  intros Ha Hb. rewrite filter_app, length_app. cbn [filter].
  rewrite Ha, Hb. cbn [length]. lia.
Qed.

Lemma SERVICE_CUES_gpt :
  SERVICE_CUES
  = firstn 2 SERVICE_CUES ++ u "gpt-4" :: u "gpt-4o" :: skipn 4 SERVICE_CUES.
Proof. vm_compute. reflexivity. Qed.

Lemma SERVICE_CUES_distinct : distinct SERVICE_CUES = SERVICE_CUES.
Proof. vm_compute. reflexivity. Qed.

Lemma gpt_4_in_gpt_4o : isin (u "gpt-4") (u "gpt-4o") = true.
Proof. vm_compute. reflexivity. Qed.

End StackFacts.


(* ------------------------------------------------------------------ *)
(** * The properties of the specification *)

Import Py Re Spec Scenarios.

(** ** The scenarios *)

(** Scenario 1: the money match normalizes to 2000 USD per month, the count
    pattern finds ["5 clients"], and Strategy A keeps the comment with the
    score 7. *)
Example scenario1_revenue :
  option_map (fun r => (Scrape.r_amount r, Scrape.r_currency r, Scrape.r_period r))
             (revenue_of scenario1)
  = Some (Some (Flt.of_Z 2000), Some (u "USD"), Some (u "month")).
Proof. vm_compute. reflexivity. Qed.

Example scenario1_selected :
  Run.q_count (snd (Run.has_quantitative scenario1)) = [u "5 clients"]
  /\ option_map Run.row_score (Run.select_row false 4 (as_comment scenario1))
     = Some 7%Z.
Proof. split; vm_compute; reflexivity. Qed.

(** Scenario 2: no quantity, so the comment is dropped by default and kept,
    with the score 4 of its keywords, when numbers are not required. *)
Example scenario2_needs_numbers :
  fst (Run.has_quantitative scenario2) = false
  /\ Run.select_row false 4 (as_comment scenario2) = None
  /\ option_map Run.row_score (Run.select_row true 4 (as_comment scenario2))
     = Some 4%Z.
Proof. repeat split; vm_compute; reflexivity. Qed.

(** Scenario 3: the failure cue puts the score of the record at 0; the
    record is made all the same. *)
Example scenario3_record :
  option_map Scrape.score
    (Scrape.extract_evidence (u "SaaS")
       (Scrape.Submission (u "Agents") (u "/r/SaaS/comments/t1/agents/"))
       (Scrape.Comment (u "k3") (Some scenario3) (Some (u "bob"))
                       (u "/r/SaaS/comments/t1/agents/k3/")))
  = Some 0%Z.
Proof. vm_compute. reflexivity. Qed.

(** The boundary case: a money match with a currency and no period, market
    or stack signal scores 25 + 5 + 10 + 7. *)
Example boundary_score :
  option_map
    (fun m => Scrape.compute_score_v2 (u "$1,200") (u "Agents") m
                (Some (u "USD")) (group m "unit"))
    (search false Scrape.REVENUE_PATTERNS (u "$1,200"))
  = Some 47%Z.
Proof. vm_compute. reflexivity. Qed.

(** C1.  A comment body in which a failure cue occurs (a string of
    [FAIL_CUES], case ignored) has the Strategy B score 0, whatever the
    title, the money match, the currency and the unit are. *)
Theorem C1_failure_cue_scores_zero :
  forall (body title : str) (rev_match : re_match) (currency unit : option str),
    has_failure_cue body = true ->
    Scrape.compute_score_v2 body title rev_match currency unit = 0%Z.
Proof. intros. apply ScoreFacts.score_fail. assumption. Qed.

Lemma C1_witness :
  has_failure_cue scenario3 = true
  /\ match scenario3_match with
     | Some m =>
         Scrape.compute_score_v2 scenario3 (u "AI agents") m None
           (group m "unit") = 0%Z
     | None => False
     end.
Proof.
  split; [vm_compute; reflexivity|].
  destruct scenario3_match as [m|] eqn:E.
  - apply C1_failure_cue_scores_zero. vm_compute; reflexivity.
  - vm_compute in E. discriminate.
Defined.

(** C10.  The Strategy B score is 0 when the body carries a failure cue and
    lies between 35 and 100 otherwise; so does the score of every evidence
    record, which is never strictly between 0 and 35. *)
Theorem C10_score_is_zero_or_at_least_35 :
  (forall (body title : str) (rev_match : re_match) (currency unit : option str),
      let s := Scrape.compute_score_v2 body title rev_match currency unit in
      if has_failure_cue body then s = 0%Z else (35 <= s <= 100)%Z)
  /\ (forall (sr : str) (sub : Scrape.submission) (c : Scrape.comment),
        match Scrape.extract_evidence sr sub c with
        | Some ev => Scrape.score ev = 0%Z \/ (35 <= Scrape.score ev <= 100)%Z
        | None => True
        end).
Proof.
  assert (H : forall body title rev_match currency unit,
             let s := Scrape.compute_score_v2 body title rev_match currency unit in
             if has_failure_cue body then s = 0%Z else (35 <= s <= 100)%Z).
  { intros body title m cur unit s. subst s.
    destruct (has_failure_cue body) eqn:E.
    - apply ScoreFacts.score_fail, E.
    - apply ScoreFacts.score_no_fail, E. }
  split; [exact H|].
  intros sr sub c.
  destruct (Scrape.extract_evidence sr sub c) as [ev|] eqn:E; [|exact I].
  destruct (ScoreFacts.evidence_score _ _ _ _ E) as [body [m [cur [unit [_ [_ Hs]]]]]].
  rewrite Hs. specialize (H body (Scrape.s_title sub) m cur unit). simpl in H.
  destruct (has_failure_cue body); [left | right]; exact H.
Qed.

(** C2, as the specification states it, fails: Strategy B reads the lone
    comma of ["$1,200"] as a decimal point and normalizes the match to 1.2,
    not to 1200. *)
Lemma C2_counterexample :
  amount_of (u "$1,200") = Some (Flt.of_ratio 12 10)
  /\ Flt.eqb (Flt.of_ratio 12 10) (Flt.of_Z 1200) = false.
Proof. split; vm_compute; reflexivity. Qed.

(** C2, amended.  Strategy A normalizes ["$1,200"] and ["1.2k"] to the
    amount 1200 ([normalize_money] returns ["$1200"] and ["1200"]);
    Strategy B normalizes ["1.2k"] to 1200 and, a lone comma being its
    decimal separator, ["$1,200"] to 1.2. *)
Theorem C2_equivalent_amounts :
  Run.normalize_money (u "$1,200") = Some (u "$1200")
  /\ Run.normalize_money (u "1.2k") = Some (u "1200")
  /\ money_value (u "$1,200") = Some (Flt.of_Z 1200)
  /\ money_value (u "1.2k") = Some (Flt.of_Z 1200)
  /\ amount_of (u "1.2k") = Some (Flt.of_Z 1200)
  /\ amount_of (u "$1,200") = Some (Flt.of_ratio 12 10).
Proof. repeat split; vm_compute; reflexivity. Qed.

(** In both strategies the numeric literal of the money pattern stops after
    three digits that no separator follows: of ["$1200.00"] the match is
    ["$120"], whose amount is 120. *)
Lemma literal_stops_after_three_digits :
  Run.normalize_money (u "$1200.00") = Some (u "$120")
  /\ amount_of (u "$1200.00") = Some (Flt.of_Z 120).
Proof. split; vm_compute; reflexivity. Qed.

(** C3, as the specification states it, fails: Strategy A drops every comma
    of the literal, so that ["1,5"] is read as 15 and not as 1.5. *)
Lemma C3_counterexample :
  money_value (u "1,5") = Some (Flt.of_Z 15)
  /\ Run.normalize_money (u "1,5") = Some (u "15")
  /\ Flt.eqb (Flt.of_Z 15) (Flt.of_ratio 15 10) = false.
Proof. repeat split; vm_compute; reflexivity. Qed.

(** C3, amended.  In Strategy B ([_to_float_amount]), for a literal of
    digits, commas and points: when it holds a comma and a point, the last
    separator is the decimal point and the separators before it are
    dropped; when it holds commas only, each comma is read as a decimal
    point, so that ["1,5"] is 1.5 and ["1,200"] is 1.2.  Strategy A
    ([normalize_money], [extract_best_money]) drops the commas instead,
    every one of them, and reads what is left with only the point as
    decimal separator: for every money match the value is the float of the
    literal without its commas, times the magnitude of the suffix if there
    is one; ["1,5"] is 15 and ["1,200"] is 1200. *)
Theorem C3_decimal_separator :
  (forall (pre frac : str) (sep : char),
      forallb is_literal_chr pre = true ->
      forallb is_digit frac = true ->
      Scrape.is_sep sep = true ->
      Scrape.has_chr Scrape.comma (pre ++ [sep]) = true ->
      Scrape.has_chr Scrape.dot (pre ++ [sep]) = true ->
      Scrape._to_float_amount (pre ++ sep :: frac)
      = Flt.py_float (unseparated pre ++ Scrape.dot :: frac))
  /\ (forall s : str,
        forallb is_literal_chr s = true ->
        Scrape.has_chr Scrape.comma s = true ->
        Scrape.has_chr Scrape.dot s = false ->
        Scrape._to_float_amount s
        = Flt.py_float (replace1 Scrape.comma [Scrape.dot] s))
  /\ Scrape._to_float_amount (u "1,5") = Some (Flt.of_ratio 15 10)
  /\ Scrape._to_float_amount (u "1,200") = Some (Flt.of_ratio 12 10)
  /\ money_value (u "1,5") = Some (Flt.of_Z 15)
  /\ money_value (u "1,200") = Some (Flt.of_Z 1200)
  /\ (forall (text : str) (m : re_match),
        search false Run.RE_MONEY text = Some m ->
        group m "suffix" = None ->
        Run.token_value m
        = Flt.py_float (filter (fun c => negb (chr_eqb c Scrape.comma))
                               (group_or_empty m "number")))
  /\ (forall (text : str) (m : re_match),
        search false Run.RE_MONEY text = Some m ->
        match Flt.py_float (filter (fun c => negb (chr_eqb c Scrape.comma))
                                   (group_or_empty m "number")) with
        | None => Run.token_value m = None
        | Some val =>
            Run.token_value m = Some val
            \/ Run.token_value m = Some (Flt.mul val (Flt.of_Z 1000))
            \/ Run.token_value m = Some (Flt.mul val (Flt.of_Z 1000000))
        end).
Proof.
  split; [exact AmountFacts.to_float_both|].
  split; [exact AmountFacts.to_float_commas|].
  split; [vm_compute; reflexivity|]. split; [vm_compute; reflexivity|].
  split; [vm_compute; reflexivity|]. split; [vm_compute; reflexivity|].
  split.
  - intros text m Hs. apply (BestFacts.token_value_uncomma text m Hs).
  - intros text m Hs. apply (BestFacts.token_value_uncomma text m Hs).
Qed.

Lemma C3_witness :
  Scrape._to_float_amount (u "1.234,56") = Flt.py_float (u "1234.56")
  /\ Scrape._to_float_amount (u "1,234.56") = Flt.py_float (u "1234.56")
  /\ Scrape._to_float_amount (u "1,5") = Flt.py_float (u "1.5")
  /\ exists m,
       search false Run.RE_MONEY (u "1,200,300") = Some m
       /\ Run.token_value m = Flt.py_float (u "1200300").
Proof.
  split; [|split; [|split]].
  - apply (proj1 C3_decimal_separator (u "1.234") (u "56") 44%N);
      vm_compute; reflexivity.
  - apply (proj1 C3_decimal_separator (u "1,234") (u "56") 46%N);
      vm_compute; reflexivity.
  - apply (proj1 (proj2 C3_decimal_separator) (u "1,5"));
      vm_compute; reflexivity.
  - eexists. split; [vm_compute; reflexivity|].
    etransitivity.
    + apply (proj1 (proj2 (proj2 (proj2 (proj2 (proj2 (proj2
               C3_decimal_separator)))))) (u "1,200,300"));
        vm_compute; reflexivity.
    + vm_compute. reflexivity.
Defined.

(** C4, as the specification states it, fails in two ways.  The unit suffix
    ["semaine"] holds a week fragment and a month fragment and no day
    fragment, yet [_detect_period] answers ["day"], for a cue in the body.
    The unit suffix ["per day"] holds a day fragment, yet
    [normalize_revenue] gives no period, because the literal of the match
    is not a number. *)
Lemma C4_counterexample :
  match search false Scrape.REVENUE_PATTERNS weekly_with_daily_cue with
  | Some m =>
      group m "unit" = Some (u "semaine")
      /\ detected_period (Some (u "semaine")) [] = Some (u "week")
      /\ Scrape._detect_period (group m "unit") weekly_with_daily_cue
         = Some (u "day")
  | None => False
  end
  /\ match search false Scrape.REVENUE_PATTERNS unparsed_per_day with
     | Some m =>
         group m "unit" = Some (u "per day")
         /\ revenue_period (revenue_unit m) = Some (u "day")
         /\ Scrape.r_period (Scrape.normalize_revenue m) = None
     | None => False
     end.
Proof. split; vm_compute; repeat split; reflexivity. Qed.

(** C4, amended.  [_detect_period] returns the first category, in the order
    day, week, month, year, that has a fragment in the unit suffix or a cue
    in the body; a day fragment in the unit suffix always gives ["day"].
    For every money match whose literal is a number, [normalize_revenue]
    returns the first category in that order that has a fragment in the
    unit suffix (it tests month, week, day, year, which gives the same
    period on every unit suffix of the pattern); when the literal is not a
    number it returns no period. *)
Theorem C4_period_priority :
  (forall (unit : option str) (body : str),
      Scrape._detect_period unit body = detected_period unit body)
  /\ (forall unit body : str,
        any_in DAY_FRAGMENTS (lower unit) = true ->
        Scrape._detect_period (Some unit) body = Some (u "day"))
  /\ (forall (text : str) (m : re_match),
        search false Scrape.REVENUE_PATTERNS text = Some m ->
        Scrape.r_period (Scrape.normalize_revenue m)
        = match Scrape.r_amount (Scrape.normalize_revenue m) with
          | Some _ => revenue_period (revenue_unit m)
          | None => None
          end).
Proof.
  split; [exact PeriodFacts.detect_period_priority|].
  split.
  - intros unit body H. rewrite PeriodFacts.detect_period_priority.
    unfold detected_period. cbv zeta. rewrite H. reflexivity.
  - intros text m Hs. rewrite PeriodFacts.normalize_revenue_period.
    destruct (Scrape.r_amount (Scrape.normalize_revenue m)); [|reflexivity].
    destruct (PeriodFacts.revenue_unit_shape text m Hs)
      as [a [g [b [Ha [Hg [Hb ->]]]]]].
    apply PeriodFacts.orders_agree; assumption.
Qed.

Lemma C4_witness :
  match search false Scrape.REVENUE_PATTERNS five_per_day with
  | Some m =>
      Scrape.r_period (Scrape.normalize_revenue m)
      = match Scrape.r_amount (Scrape.normalize_revenue m) with
        | Some _ => revenue_period (revenue_unit m)
        | None => None
        end
  | None => False
  end.
Proof.
  destruct (search false Scrape.REVENUE_PATTERNS five_per_day) as [m|] eqn:E.
  - exact (proj2 (proj2 C4_period_priority) five_per_day m E).
  - vm_compute in E. discriminate.
Defined.

(** C5, as the specification states it, fails: for a token whose literal is
    not a number, [normalize_money] returns the token itself, as it returns
    a normalized amount, and not a failure. *)
Lemma C5_counterexample :
  money_value (u "1.200.300") = None
  /\ Run.normalize_money (u "1.200.300") = Some (u "1.200.300").
Proof. split; vm_compute; reflexivity. Qed.

(** C5, amended.  For a token that has a money match and whose literal is
    not a number, [normalize_money] returns the token unchanged.
    [extract_best_money] skips every token that does not parse and goes on
    with the others: its result is that of the tokens that parse, so a
    token that does not parse can be removed without changing it. *)
Theorem C5_unparsed_literal :
  (forall (token : str) (m : re_match),
      search false Run.RE_MONEY (lower token) = Some m ->
      Run.token_value m = None ->
      Run.normalize_money token = Some token)
  /\ (forall toks : list str,
        Run.extract_best_money toks = Run.extract_best_money (filter parses toks))
  /\ (forall (pre post : list str) (tok : str),
        parses tok = false ->
        Run.extract_best_money (pre ++ tok :: post)
        = Run.extract_best_money (pre ++ post)).
Proof.
  split; [exact MoneyFacts.normalize_money_unparsed|].
  split.
  - intros toks. symmetry. apply MoneyFacts.extract_best_money_skip.
  - intros pre post tok H.
    rewrite <- (MoneyFacts.extract_best_money_skip (pre ++ tok :: post)).
    rewrite <- (MoneyFacts.extract_best_money_skip (pre ++ post)).
    rewrite (MoneyFacts.filter_parses_remove pre post tok H). reflexivity.
Qed.

Lemma C5_witness :
  parses (u "1.200.300") = false
  /\ Run.normalize_money (u "1.200.300") = Some (u "1.200.300")
  /\ Run.extract_best_money [u "$5"; u "1.200.300"; u "7k"]
     = Run.extract_best_money [u "$5"; u "7k"].
Proof.
  split; [vm_compute; reflexivity|]. split.
  - destruct (search false Run.RE_MONEY (lower (u "1.200.300"))) as [m|] eqn:E.
    + apply (proj1 C5_unparsed_literal _ m E).
      vm_compute in E. inversion E. vm_compute. reflexivity.
    + vm_compute in E. discriminate.
  - apply (proj2 (proj2 C5_unparsed_literal) [u "$5"] [u "7k"] (u "1.200.300")).
    vm_compute. reflexivity.
Defined.

(** C6, as the specification states it, fails: when a comment is met twice
    in a run, the record that survives carries the body that was processed
    first, not the last one. *)
Lemma C6_counterexample :
  List.map Scrape.post (Scrape.main scenario4) = [u "I made $5 last month"].
Proof. vm_compute. reflexivity. Qed.

(** C6, amended.  The deduplication keeps exactly one record per comment
    URL, and of the rows that carry one URL it keeps the last.  The crawl
    processes a comment identifier once: its records are those of the first
    comment met with each identifier, so of two fetches of one comment the
    first is the one that reaches the output and the second adds nothing.
    The output is a rearrangement of the deduplicated records of the
    crawl. *)
Theorem C6_deduplication :
  (forall rows, NoDup (List.map Scrape.comment_url (Scrape.uniq rows)))
  /\ (forall rows r, In r (Scrape.uniq rows) <-> last_of_its_url r rows)
  /\ (forall ts,
        Scrape.run_scrape ts
        = flat_map evidence_of (first_seen [] (all_comments ts)))
  /\ (forall sr sub c1 c2 cs,
        Scrape.c_id c2 = Scrape.c_id c1 ->
        Scrape.run_scrape [(sr, Some (sub, c1 :: c2 :: cs))]
        = Scrape.run_scrape [(sr, Some (sub, c1 :: cs))])
  /\ (forall ts,
        Permutation (Scrape.uniq (Scrape.run_scrape ts)) (Scrape.main ts)).
Proof.
  split; [exact DedupFacts.uniq_NoDup|].
  split; [exact DedupFacts.uniq_In|].
  split; [exact DedupFacts.run_scrape_spec|].
  split; [exact DedupFacts.run_scrape_refetch|].
  intros ts. unfold Scrape.main, Scrape.rank. apply SortFacts.sorted_perm.
Qed.

Lemma C6_witness :
  In (Scrape.MkEvidence (u "s") (u "t") (u "tu") (u "cu") (u "a") (u "new") 40)
     (Scrape.uniq
        [Scrape.MkEvidence (u "s") (u "t") (u "tu") (u "cu") (u "a") (u "old") 40;
         Scrape.MkEvidence (u "s") (u "t") (u "tu") (u "cu") (u "a") (u "new") 40])
  /\ Scrape.run_scrape scenario4
     = Scrape.run_scrape
         [(u "SaaS",
           Some (Scrape.Submission (u "Agents") (u "/r/SaaS/comments/t1/agents/"),
                 [stale]))].
Proof.
  split.
  - apply (proj1 (proj2 C6_deduplication)).
    exists [Scrape.MkEvidence (u "s") (u "t") (u "tu") (u "cu") (u "a") (u "old") 40], [].
    split; reflexivity.
  - apply (proj1 (proj2 (proj2 (proj2 C6_deduplication)))). reflexivity.
Defined.

(** C7.  Selecting and ranking a second time changes nothing: the
    deduplication followed by the sort of Strategy B, the sort of
    Strategy A, and the selection loop of Strategy A run on the comments it
    has kept.  The sort orders every pair of records (the order of the keys
    is total), its result is sorted, and it is stable: the records of one
    key keep the order they had. *)
Theorem C7_ranking_idempotent_stable_total :
  (forall rows, Scrape.rank (Scrape.rank rows) = Scrape.rank rows)
  /\ (forall allow_no_numbers min_score flat,
        Run.select_rows allow_no_numbers min_score
          (filter (selected allow_no_numbers min_score) flat)
        = Run.select_rows allow_no_numbers min_score flat)
  /\ (forall rows, Run.ranked (Run.ranked rows) = Run.ranked rows)
  /\ (forall rows,
        Sorted (fun a b => key_le Scrape.sort_key Scrape.key_compare a b = true)
               (Scrape.rank rows))
  /\ (forall rows,
        Sorted (fun a b => key_le Run.row_key Run.pair_compare a b = true)
               (Run.ranked rows))
  /\ (forall a b,
        key_le Scrape.sort_key Scrape.key_compare a b = true
        \/ key_le Scrape.sort_key Scrape.key_compare b a = true)
  /\ (forall a b,
        key_le Run.row_key Run.pair_compare a b = true
        \/ key_le Run.row_key Run.pair_compare b a = true)
  /\ (forall k rows,
        filter (same_key Scrape.sort_key Scrape.key_compare k) (Scrape.rank rows)
        = filter (same_key Scrape.sort_key Scrape.key_compare k) (Scrape.uniq rows))
  /\ (forall k rows,
        filter (same_key Run.row_key Run.pair_compare k) (Run.ranked rows)
        = filter (same_key Run.row_key Run.pair_compare k) rows).
Proof.
  repeat split.
  - intros rows. unfold Scrape.rank.
    rewrite DedupFacts.uniq_fixpoint.
    + apply SortFacts.sorted_idempotent.
      exact SortFacts.key_compare_gt.
    + eapply Permutation_NoDup;
        [apply Permutation_map, SortFacts.sorted_perm
        | apply DedupFacts.uniq_NoDup].
  - apply MoneyFacts.select_rows_selected.
  - intros rows. apply SortFacts.sorted_idempotent.
    exact SortFacts.pair_compare_gt.
  - intros rows. apply SortFacts.sorted_sorted. exact SortFacts.key_compare_gt.
  - intros rows. apply SortFacts.sorted_sorted. exact SortFacts.pair_compare_gt.
  - intros a b. apply SortFacts.le_total. exact SortFacts.key_compare_gt.
  - intros a b. apply SortFacts.le_total. exact SortFacts.pair_compare_gt.
  - intros k rows. apply SortFacts.sorted_stable.
    + exact SortFacts.key_compare_refl.
    + exact SortFacts.key_compare_eq.
  - intros k rows. apply SortFacts.sorted_stable.
    + exact SortFacts.pair_compare_refl.
    + exact SortFacts.pair_compare_eq.
Qed.

(** C8: the code departs from the property.  ["MRR"] is a selling keyword
    and occurs in the body ["MRR is 5k"], which has one money match and no
    other signal: the property gives the score 2 + 1, the code gives 1,
    because it looks for the keyword, written in capitals, in the lowered
    body, where neither ["MRR"] nor ["ARR"] can occur.  The score is the
    sum of the five terms read in the lowered body, between 0 and 9. *)
Theorem C8_capital_selling_keyword_scores_nothing :
  In (u "MRR") Run.KEYWORDS_SELL
  /\ has_selling_keyword (u "MRR is 5k") = true
  /\ Run.money_spans (snd (Run.score_comment (u "MRR is 5k"))) = [u "5k"]
  /\ fst (Run.score_comment (u "MRR is 5k")) = 1%Z
  /\ (forall body,
        isin (u "MRR") (lower body) = false
        /\ isin (u "ARR") (lower body) = false)
  /\ (forall body,
        fst (Run.score_comment body)
        = ((if any_in Run.KEYWORDS_SELL (lower body) then 2 else 0)
           + (if any_in Run.KEYWORDS_AGENT (lower body) then 2 else 0)
           + Z.min 3 (Z.of_nat (length (finditer false Run.RE_MONEY (lower body))))
           + (if any_in Run.MARKET_HINTS (lower body) then 1 else 0)
           + (if any_in Run.NARRATIVE_CUES (lower body) then 1 else 0))%Z)
  /\ (forall body, (0 <= fst (Run.score_comment body) <= 9)%Z).
Proof.
  split; [vm_compute; tauto|].
  split; [vm_compute; reflexivity|].
  split; [vm_compute; reflexivity|].
  split; [vm_compute; reflexivity|].
  split.
  - intros body. split.
    + apply (MoneyFacts.capital_not_in_lower 77%N (u "RR")). reflexivity.
    + apply (MoneyFacts.capital_not_in_lower 65%N (u "RR")). reflexivity.
  - split; [exact MoneyFacts.score_comment_sum
           | exact MoneyFacts.score_comment_range].
Qed.

(** C9.  Strategy B makes an evidence record exactly for the comments with
    a body that is not empty and holds a money match.  The gate of
    Strategy A is open when one of the five patterns matches, and a comment
    selected by default has passed it.  A money match needs no more than a
    digit: the money pattern of either strategy matches in a text exactly
    when the text holds a decimal digit (of any script, as the class [\d]
    of a [str] pattern has it), and so does the gate of Strategy A. *)
Theorem C9_numeric_evidence :
  (forall sr sub c,
      Scrape.extract_evidence sr sub c <> None
      <-> exists body,
            Scrape.c_body c = Some body /\ body <> []
            /\ has_match false Scrape.REVENUE_PATTERNS body)
  /\ (forall text,
        fst (Run.has_quantitative text) = true
        <-> Run.spans false Run.RE_MONEY text <> []
            \/ Run.spans true Run.RE_DURATION text <> []
            \/ Run.spans true Run.RE_RATE text <> []
            \/ Run.spans true Run.RE_COUNT text <> []
            \/ Run.spans false Run.RE_PERCENT text <> [])
  /\ (forall min_score c,
        Run.select_row false min_score c <> None ->
        fst (Run.has_quantitative (Run.j_body c)) = true)
  /\ (forall text,
        Scrape.is_match (search false Scrape.REVENUE_PATTERNS text)
        = existsb is_digit text)
  /\ (forall text,
        Run.nonempty (Run.spans false Run.RE_MONEY text) = existsb is_digit text)
  /\ (forall text, fst (Run.has_quantitative text) = existsb is_digit text).
Proof.
  split; [exact GateFacts.extract_evidence_some|].
  split; [exact GateFacts.has_quantitative_any|].
  split; [exact GateFacts.select_row_gate|].
  split; [exact GateFacts.revenue_digit|].
  split; [exact GateFacts.money_digit | exact GateFacts.has_quantitative_digit].
Qed.

Lemma C9_witness :
  Scrape.extract_evidence (u "SaaS")
    (Scrape.Submission (u "Agents") (u "/r/SaaS/comments/t1/agents/"))
    (Scrape.Comment (u "k2") (Some (u "room 7")) None (u "/r/SaaS/comments/t1/agents/k2/"))
  <> None.
Proof.
  apply (proj1 C9_numeric_evidence). exists (u "room 7").
  split; [reflexivity|]. split; [discriminate|].
  apply ReFacts.search_has_match.
  pose proof (proj1 (proj2 (proj2 (proj2 C9_numeric_evidence))) (u "room 7")) as H.
  destruct (search false Scrape.REVENUE_PATTERNS (u "room 7")); [discriminate|].
  vm_compute in H. discriminate.
Defined.

(** The digits of the other scripts count as well: the Arabic-Indic digit
    three (U+0663) alone is a money match of both strategies and opens the
    gate of Strategy A, and [float] reads it as 3. *)
Example digits_of_other_scripts :
  is_digit 1635%N = true
  /\ Scrape.is_match (search false Scrape.REVENUE_PATTERNS [1635%N]) = true
  /\ Run.spans false Run.RE_MONEY [1635%N] = [[1635%N]]
  /\ fst (Run.has_quantitative [1635%N]) = true
  /\ Flt.py_float [1635%N] = Some (Flt.of_Z 3).
Proof. repeat split; vm_compute; reflexivity. Qed.

(** [str.lower] and [re.I] beyond ASCII: a Cyrillic capital is lowered, a
    capital sigma at the end of a word takes its final form, the dotted
    capital I gives two characters, and the Kelvin sign stands for a k in a
    pattern compiled with [re.I]. *)
Example lower_of_other_scripts :
  lower [1046%N] = [1078%N]
  /\ lower [927; 916; 927; 931]%N = [959; 948; 959; 962]%N
  /\ lower [931%N] = [963%N]
  /\ lower [304%N] = [105; 775]%N
  /\ Run.spans true Run.RE_DURATION [53; 32; 119; 101; 101; 8490; 115]%N
     = [[53; 32; 119; 101; 101; 8490; 115]%N].
Proof. repeat split; vm_compute; reflexivity. Qed.
(* ------------------------------------------------------------------ *)
(** * Further properties of the code *)

(** ** Strategy A: the thread and its comments *)

(** [to_json_url] always gives an address that ends in [.json], only
    extends the address it is given, and changes nothing when applied a
    second time. *)
Theorem to_json_url_idempotent (url : str) :
  endswith (u ".json") (Run.to_json_url url) = true
  /\ startswith url (Run.to_json_url url) = true
  /\ Run.to_json_url (Run.to_json_url url) = Run.to_json_url url.
Proof.
  assert (H : endswith (u ".json") (Run.to_json_url url) = true).
  { unfold Run.to_json_url. destruct (endswith (u ".json") url) eqn:E; [exact E|].
    apply UrlFacts.endswith_app. }
  split; [exact H|]. split.
  - unfold Run.to_json_url. destruct (endswith (u ".json") url).
    + apply PyFacts.startswith_spec. exists []. symmetry. apply app_nil_r.
    + apply PyFacts.startswith_spec.
      destruct (negb (endswith (u "/") url)); eexists;
        [rewrite <- app_assoc|]; reflexivity.
  - unfold Run.to_json_url at 1. rewrite H. reflexivity.
Qed.

(** [http_get] returns what the first request that succeeds reads, after
    one pause for each failed request; when all the [retries] requests
    fail it raises the last error, having paused after the last failure
    too; with no turn at all it raises [None]. *)
Theorem http_get_retries {E A : Type} (urlopen : nat -> Run.outcome E A)
  (retries : nat) :
  (forall n body,
      n < retries -> urlopen n = Run.Returns body ->
      (forall j, j < n -> exists e, urlopen j = Run.Raises e) ->
      Run.http_get urlopen retries = (Run.Returns body, seq 1 n))
  /\ (forall n e,
         retries = S n -> urlopen n = Run.Raises e ->
         (forall j, j < n -> exists e', urlopen j = Run.Raises e') ->
         Run.http_get urlopen retries = (Run.Raises (Some e), seq 1 retries))
  /\ (retries = 0 -> Run.http_get urlopen retries = (Run.Raises None, [])).
Proof.
  split; [|split].
  - intros n body Hn Hb Hf. unfold Run.http_get.
    apply (RetryFacts.http_get_from_returns urlopen n retries 0 None [] body Hn Hb Hf).
  - intros n e -> He Hf. unfold Run.http_get.
    rewrite RetryFacts.http_get_from_raises.
    + cbn [Nat.add]. rewrite He. reflexivity.
    + intros j Hj. cbn [Nat.add].
      destruct (Nat.eq_dec j n) as [-> | Hne]; [exists e; exact He|].
      apply Hf. lia.
  - intros ->. reflexivity.
Qed.

Lemma http_get_witness :
  Run.http_get flaky_urlopen 3 = (Run.Returns (u "[]"), [1; 2]).
Proof.
  apply (proj1 (http_get_retries flaky_urlopen 3) 2 (u "[]")).
  - lia.
  - reflexivity.
  - intros j Hj. exists j. unfold flaky_urlopen.
    destruct (Nat.ltb_spec j 2); [reflexivity | lia].
Defined.

(** [flatten_comments] lists the comments of a listing in the order of the
    tree: a comment, then its replies one level deeper, then the next
    comment.  The rows at the depth of the call are the comments of the
    listing itself, no row is less deep, stubs of kind "more" and things of
    another kind give no row, and the depth of the call only shifts the
    depths of the rows. *)
Theorem flatten_comments_depths {D : Type} (children : list (Run.thing D))
  (depth : Z) :
  (forall (data : D) (l rest : list (Run.thing D)),
      Run.flatten_comments (Run.T1 data (Some l) :: rest) depth
      = Run.FlatRow data depth
          :: Run.flatten_comments l (depth + 1) ++ Run.flatten_comments rest depth)
  /\ (forall row, In row (Run.flatten_comments children depth)
                  -> (depth <= Run._depth row)%Z)
  /\ filter (fun r => (Run._depth r =? depth)%Z)
            (Run.flatten_comments children depth)
     = List.map (fun data => Run.FlatRow data depth) (top_level children)
  /\ (forall k, Run.flatten_comments children (depth + k)
                = List.map (deeper k) (Run.flatten_comments children depth))
  /\ (forall more, Run.flatten_comments (children ++ more) depth
                   = Run.flatten_comments children depth
                       ++ Run.flatten_comments more depth)
  /\ Run.flatten_comments (Run.More :: children) depth
     = Run.flatten_comments children depth.
Proof.
  split; [intros; rewrite TreeFacts.flatten_comments_cons; reflexivity|].
  split; [apply TreeFacts.flatten_depth|].
  split; [apply TreeFacts.flatten_top_level|].
  split; [intros; apply TreeFacts.flatten_deeper|].
  split; [intros; apply TreeFacts.flatten_comments_app | reflexivity].
Qed.

Lemma flatten_comments_witness :
  List.map (fun r => (Run.fields r, Run._depth r))
           (Run.flatten_comments small_listing 0)
  = [(u "a", 0%Z); (u "b", 1%Z); (u "c", 0%Z)]
  /\ Forall (fun row => (0 <= Run._depth row)%Z)
            (Run.flatten_comments small_listing 0).
Proof.
  split; [reflexivity|]. apply Forall_forall.
  apply (proj1 (proj2 (flatten_comments_depths small_listing 0))).
Defined.

(** For a limit that is not negative, [summarize_text] gives at most
    [limit + 1] characters, and the only white space in them is the single
    space: line breaks and tabs never reach the report.  A text whose
    words, joined by single spaces, fit in the limit comes back as these
    words, with no ellipsis, and summarizing it again changes nothing. *)
Theorem summarize_text_shape (text : str) (limit : Z) :
  (0 <= limit)%Z ->
  (Z.of_nat (length (Run.summarize_text text limit)) <= limit + 1)%Z
  /\ (forall c, In c (Run.summarize_text text limit) -> is_space c = true
                -> c = 32%N)
  /\ ((Z.of_nat (length (join (u " ") (split_ws text))) <= limit)%Z ->
      Run.summarize_text text limit = join (u " ") (split_ws text)
      /\ Run.summarize_text (Run.summarize_text text limit) limit
         = Run.summarize_text text limit).
Proof.
  intros Hl. unfold Run.summarize_text at 1 2. cbv zeta.
  split; [|split].
  - rewrite length_app.
    pose proof (TextFacts.slice_to_length limit (join (u " ") (split_ws text)) Hl).
    destruct (limit <? _)%Z; cbn [length u]; [|lia].
    change (length (u "…")) with 1%nat. lia.
  - intros c Hc Hs. apply in_app_or in Hc. destruct Hc as [Hc | Hc].
    + apply TextFacts.slice_to_In in Hc.
      apply (TextFacts.join_spaces _ c (TextFacts.split_ws_solid text) Hc Hs).
    + destruct (limit <? _)%Z; [|destruct Hc].
      destruct Hc as [<- | []]. discriminate Hs.
  - intros Hfit.
    assert (E : forall t, split_ws t = split_ws text ->
                          Run.summarize_text t limit = join (u " ") (split_ws text)).
    { intros t Ht. unfold Run.summarize_text. cbv zeta. rewrite Ht.
      rewrite (TextFacts.slice_to_all _ _ Hfit).
      destruct (Z.ltb_spec limit (Z.of_nat (length (join (u " ") (split_ws text)))));
        [lia | apply app_nil_r]. }
    rewrite (E text eq_refl). split; [reflexivity|].
    apply E. apply TextFacts.split_join, TextFacts.split_ws_solid.
Qed.

Lemma summarize_text_witness :
  (Z.of_nat (length (Run.summarize_text two_lines 6)) <= 6 + 1)%Z
  /\ Run.summarize_text two_lines 6 = u "pay me…".
Proof.
  split; [|reflexivity].
  apply (summarize_text_shape two_lines 6). lia.
Defined.

(** ** Strategy A: the money of a comment *)

(** [extract_best_money] returns nothing exactly when no span has a value.
    Otherwise it returns the normalized form of the first span with the
    greatest value: every span before it has a smaller value, no span after
    it has a greater one. *)
Theorem extract_best_money_greatest (toks : list str) :
  (Run.extract_best_money toks = None
   <-> forall t, In t toks -> money_value t = None)
  /\ forall r,
       Run.extract_best_money toks = Some r ->
       exists pre tok post v,
         toks = pre ++ tok :: post
         /\ money_value tok = Some v
         /\ Run.normalize_money tok = Some r
         /\ (forall t w, In t pre -> money_value t = Some w
                         -> Flt.ltb w v = true)
         /\ (forall t w, In t post -> money_value t = Some w
                         -> Flt.ltb v w = false).
Proof.
  assert (Hloop : Run.extract_best_money toks
                  = match Run.best_money_loop toks None (Flt.of_Z (-1)) with
                    | Some (c :: best) => Run.normalize_money (c :: best)
                    | _ => None
                    end) by (destruct toks; reflexivity).
  destruct (BestFacts.best_money_loop_start toks [] (fun t (H : In t []) => match H with end))
    as [[Hn Hall] | [pre [tok [v [post [El [Eb [Ev [Hpre Hpost]]]]]]]]].
  - rewrite Hloop, Hn. split; [split; [intros _; exact Hall | reflexivity]|].
    intros r H. discriminate.
  - cbn [app] in El. rewrite Hloop, Eb.
    destruct (BestFacts.normalize_money_parsed tok v Ev) as [r0 Er].
    destruct tok as [|c tok].
    { rewrite BestFacts.money_value_empty in Ev. discriminate. }
    rewrite Er. split.
    + split; [discriminate|]. intros Hall.
      rewrite (Hall (c :: tok)) in Ev; [discriminate|].
      rewrite El. apply in_or_app. right. left. reflexivity.
    + intros r H. injection H as <-.
      exists pre, (c :: tok), post, v. repeat split; assumption.
Qed.

Lemma extract_best_money_witness :
  Run.extract_best_money money_tokens = Some (u "2000")
  /\ exists pre tok post v,
       money_tokens = pre ++ tok :: post
       /\ money_value tok = Some v
       /\ Run.normalize_money tok = Some (u "2000")
       /\ (forall t w, In t pre -> money_value t = Some w
                       -> Flt.ltb w v = true)
       /\ (forall t w, In t post -> money_value t = Some w
                       -> Flt.ltb v w = false).
Proof.
  split; [vm_compute; reflexivity|].
  apply (proj2 (extract_best_money_greatest money_tokens) (u "2000")).
  vm_compute. reflexivity.
Defined.

(** The amounts of both strategies are never negative and never a NaN.
    The numeric literal of a money match holds digits, commas and points
    only, so that [float] never meets a sign or a name: the value that
    Strategy A computes for a money match, what [_to_float_amount] reads in
    a literal of digits, commas and points, and the amount that
    [normalize_revenue] gives for a money match are zero, positive or the
    positive infinity. *)
Theorem amounts_never_negative :
  (forall text m v,
      search false Run.RE_MONEY text = Some m ->
      Run.token_value m = Some v -> Notions.nonneg v = true)
  /\ (forall s v,
         forallb is_literal_chr s = true ->
         Scrape._to_float_amount s = Some v -> Notions.nonneg v = true)
  /\ (forall body m v,
         search false Scrape.REVENUE_PATTERNS body = Some m ->
         Scrape.r_amount (Scrape.normalize_revenue m) = Some v ->
         Notions.nonneg v = true).
Proof.
  split; [|split].
  - intros text m v Hs. apply BestFacts.token_value_nonneg.
    apply (BestFacts.number_literal text m Hs).
  - exact CrawlFacts.to_float_amount_nonneg.
  - exact CrawlFacts.normalize_revenue_nonneg.
Qed.

Lemma amounts_never_negative_witness :
  (exists m,
      search false Run.RE_MONEY (u "2k") = Some m
      /\ Run.token_value m = Some (Flt.of_Z 2000)
      /\ Notions.nonneg (Flt.of_Z 2000) = true)
  /\ (Scrape._to_float_amount (u "1,5") = Some (Flt.of_ratio 15 10)
      /\ Notions.nonneg (Flt.of_ratio 15 10) = true)
  /\ exists m,
       search false Scrape.REVENUE_PATTERNS scenario1 = Some m
       /\ Scrape.r_amount (Scrape.normalize_revenue m) = Some (Flt.of_Z 2000)
       /\ Notions.nonneg (Flt.of_Z 2000) = true.
Proof.
  split; [|split].
  - assert (E : exists m,
               search false Run.RE_MONEY (u "2k") = Some m
               /\ Run.token_value m = Some (Flt.of_Z 2000)).
    { eexists. split; [vm_compute; reflexivity|]. vm_compute. reflexivity. }
    destruct E as [m [E1 E2]]. exists m.
    split; [exact E1|]. split; [exact E2|].
    apply (proj1 amounts_never_negative (u "2k") m _ E1 E2).
  - split; [vm_compute; reflexivity|].
    apply (proj1 (proj2 amounts_never_negative) (u "1,5"));
      vm_compute; reflexivity.
  - assert (E : exists m,
               search false Scrape.REVENUE_PATTERNS scenario1 = Some m
               /\ Scrape.r_amount (Scrape.normalize_revenue m)
                  = Some (Flt.of_Z 2000)).
    { eexists. split; [vm_compute; reflexivity|]. vm_compute. reflexivity. }
    destruct E as [m [E1 E2]]. exists m.
    split; [exact E1|]. split; [exact E2|].
    apply (proj2 (proj2 amounts_never_negative) scenario1 m _ E1 E2).
Defined.

(** Outside a money match the two conditions are needed: [float] reads a
    sign and the name [nan]. *)
Example float_reads_signs_and_names :
  option_map Notions.nonneg (Scrape._to_float_amount (u "-5")) = Some false
  /\ Scrape._to_float_amount (u "nan") = Some S754_nan
  /\ Flt.py_float (u "1_000e-2") = Some (Flt.of_Z 10).
Proof. repeat split; vm_compute; reflexivity. Qed.

(** Every row that the loop of [main] keeps comes from a comment of the
    thread, whose id and body it carries; the body is not blank, the score
    is the score of the body and lies between [min_score] and 9, and
    without [--allow_no_numbers] the body holds a decimal digit.  The
    reasons "has_numbers" and "money_mention" always come together,
    exactly for a body with a decimal digit (of any script: the class
    [\d] of the patterns); "market_hint" is there exactly when a market
    hint occurs in the lowered body. *)
Theorem selected_rows_reasons (allow_no_numbers : bool) (min_score : Z)
  (flat : list Run.jcomment) (r : Run.row) :
  In r (Run.select_rows allow_no_numbers min_score flat) ->
  let d := existsb is_digit (Run.row_body r) in
  (exists c, In c flat /\ Run.row_comment_id r = Run.j_id c
             /\ Run.row_body r = Run.j_body c)
  /\ strip (Run.row_body r) <> []
  /\ Run.row_score r = fst (Run.score_comment (Run.row_body r))
  /\ (min_score <= Run.row_score r <= 9)%Z
  /\ (allow_no_numbers = false -> d = true)
  /\ Run.row_reasons r
     = join (u ",")
         ((if d then [u "has_numbers"] else [])
          ++ (if Run.nonempty (filter (fun m => isin m (lower (Run.row_body r)))
                                      Run.MARKET_HINTS)
              then [u "market_hint"] else [])
          ++ (if d then [u "money_mention"] else [])).
Proof.
  intros Hr d. apply RowFacts.select_rows_In in Hr. destruct Hr as [c [Hc Hs]].
  destruct (RowFacts.select_row_shape _ _ _ _ Hs) as [Hb [Hd [Hm Er]]].
  assert (Eb : Run.row_body r = Run.j_body c) by (rewrite Er; reflexivity).
  subst d. rewrite Eb.
  pose proof (MoneyFacts.score_comment_range (Run.j_body c)) as Hrange.
  rewrite Er. cbn [Run.row_comment_id Run.row_body Run.row_score Run.row_reasons].
  split; [exists c; repeat split; exact Hc|].
  split; [exact Hb|]. split; [reflexivity|].
  split; [lia|]. split; [exact Hd | reflexivity].
Qed.

Lemma selected_rows_reasons_witness :
  exists r,
    In r (Run.select_rows false 4 [as_comment scenario1])
    /\ (4 <= Run.row_score r <= 9)%Z
    /\ Run.row_reasons r = u "has_numbers,money_mention".
Proof.
  eexists. split; [vm_compute; left; reflexivity|].
  match goal with
  | |- (_ <= Run.row_score ?r <= _)%Z /\ _ =>
      pose proof (selected_rows_reasons false 4 [as_comment scenario1] r
                    ltac:(vm_compute; left; reflexivity)) as H
  end.
  cbv zeta in H. destruct H as [_ [_ [_ [H4 _]]]].
  split; [exact H4 | vm_compute; reflexivity].
Defined.

(** ** Strategy B: niche, period, crawl and records *)

(** The snippet of [find_niche] holds none of the punctuation marks at
    which it is cut, neither starts nor ends with white space, has at most
    twelve words, and its only white space is the single space.  It is
    empty when no pivot follows a space of the text. *)
Theorem find_niche_shape (text : str) :
  (forall c, In c (Scrape.find_niche text)
             -> cls_match false Scrape.NICHE_STOP c = false)
  /\ strip (Scrape.find_niche text) = Scrape.find_niche text
  /\ length (split_ws (Scrape.find_niche text)) <= 12
  /\ (forall c, In c (Scrape.find_niche text) -> is_space c = true
                -> c = 32%N)
  /\ ((forall p, In p Scrape.NICHE_PIVOTS
                 -> isin (u " " ++ p)
                         (lower (u " " ++ replace1 10%N (u " ") text ++ u " "))
                    = false)
      -> Scrape.find_niche text = []).
Proof.
  unfold Scrape.find_niche. cbv zeta.
  generalize Scrape.NICHE_PIVOTS as ps.
  set (t := u " " ++ replace1 10%N (u " ") text ++ u " ").
  induction ps as [|p ps IH].
  - repeat split; try (intros c []); reflexivity || (cbn; lia).
  - destruct (find (u " " ++ p) (lower t)) as [idx|] eqn:E.
    + destruct (NicheFacts.snippet_shape
                  (skipn (idx + 1 + length p) t) _ eq_refl) as [H1 [H2 [H3 H4]]].
      split; [exact H1|]. split; [exact H2|]. split; [exact H3|].
      split; [exact H4|]. intros Hno.
      specialize (Hno p (or_introl eq_refl)).
      apply NicheFacts.find_none in Hno. rewrite Hno in E. discriminate.
    + destruct IH as [H1 [H2 [H3 [H4 H5]]]].
      split; [exact H1|]. split; [exact H2|]. split; [exact H3|].
      split; [exact H4|]. intros Hno. apply H5.
      intros q Hq. apply Hno. right. exact Hq.
Qed.

Lemma find_niche_witness :
  Scrape.find_niche (u "I build bots for dentists. It pays.") = u "dentists"
  /\ length (split_ws (Scrape.find_niche
                         (u "I build bots for dentists. It pays."))) <= 12
  /\ Scrape.find_niche (u "no pivot here") = [].
Proof.
  split; [vm_compute; reflexivity|]. split.
  - apply (find_niche_shape (u "I build bots for dentists. It pays.")).
  - apply (find_niche_shape (u "no pivot here")).
    intros p Hp. vm_compute in Hp.
    repeat (destruct Hp as [<- | Hp]; [vm_compute; reflexivity|]).
    destruct Hp.
Defined.

(** In a score the period is worth 15 points when [_detect_period] finds a
    period and nothing otherwise: [_detect_period] returns one of the four
    names or nothing, so the 5 points that [_period_points] gives to a unit
    it does not know are never given. *)
Theorem period_points_all_or_nothing (unit : option str) (body : str) :
  Scrape._period_points (Scrape._detect_period unit body)
  = match Scrape._detect_period unit body with
    | Some _ => 15%Z
    | None => 0%Z
    end.
Proof.
  destruct (CrawlFacts.detect_period_cases unit body)
    as [<- | [<- | [<- | [<- | [<- | []]]]]]; vm_compute; reflexivity.
Qed.

(** [search_threads] returns every thread id once, whatever the searches
    yield and however they fail.  Each result names a subreddit of the
    list and an id that one of the at most five tries of a query yielded
    there; every id yielded by the first try of a query is among the
    results, also when that try then raised.  It returns as soon as no
    search raises an exception of a class it does not catch. *)
Theorem search_threads_distinct
  (search : str -> str -> nat -> Scrape.search_run) (fuel : nat) :
  (forall results,
      Scrape.search_threads search fuel = Some results ->
      NoDup (List.map snd results)
      /\ (forall sub id,
             In (sub, id) results ->
             In sub Scrape.SUBREDDITS
             /\ exists q k, In q Scrape.SEARCH_QUERIES /\ 1 <= k <= 5
                            /\ In id (Scrape.yielded (search sub q k)))
      /\ (forall sub q id,
             In sub Scrape.SUBREDDITS -> In q Scrape.SEARCH_QUERIES ->
             In id (Scrape.yielded (search sub q 1)) ->
             In id (List.map snd results)))
  /\ (5 <= fuel ->
      (forall sub q k, Scrape.ended (search sub q k) <> Scrape.SearchUncaught) ->
      exists results, Scrape.search_threads search fuel = Some results).
Proof.
  assert (H0 : Notions.search_inv ([], [])).
  { split; [constructor | intros id; split; intros []]. }
  split.
  - intros results H. unfold Scrape.search_threads in H.
    destruct (Scrape.search_subs search fuel Scrape.SUBREDDITS ([], []))
      as [st|] eqn:E; [|discriminate].
    cbn [option_map] in H. injection H as <-.
    destruct (SearchFacts.search_subs_spec search fuel _ _ _ H0 E)
      as [[[Hnd _] [new [En Hnew]]] Hall].
    cbn [fst app] in En. split; [exact Hnd|]. split; [|exact Hall].
    intros sub id Hin. rewrite En in Hin. rewrite Forall_forall in Hnew.
    apply (Hnew (sub, id) Hin).
  - intros Hf Hno. unfold Scrape.search_threads.
    destruct (SearchFacts.search_subs_total search fuel Hf Hno
                Scrape.SUBREDDITS ([], [])) as [st ->].
    eexists. reflexivity.
Qed.

Lemma search_threads_witness :
  Scrape.search_threads same_thread_search 5 = Some [(u "AI_Agents", u "t1")]
  /\ NoDup (List.map snd [(u "AI_Agents", u "t1")]).
Proof.
  split; [vm_compute; reflexivity|].
  apply (proj1 (search_threads_distinct same_thread_search 5)
               [(u "AI_Agents", u "t1")]).
  vm_compute. reflexivity.
Defined.

(** [fetch_comments] asks Reddit at most five times.  It returns the
    answer of the first try that does not raise an exception of the caught
    classes, after one pause for each failed try; it raises at once on any
    other exception, and after the fifth caught failure.  With a limit the
    comments it returns are at most [limit]. *)
Theorem fetch_comments_attempts
  (reddit : nat -> Scrape.fetched (Scrape.submission * list Scrape.comment))
  (limit fuel : nat) :
  5 <= fuel ->
  (forall k sub cs,
      1 <= k <= 5 -> (forall j, 1 <= j < k -> reddit j = Scrape.Caught) ->
      reddit k = Scrape.Answer (sub, cs) ->
      Scrape.fetch_comments reddit limit fuel
      = Some (Some (sub, Scrape.limited limit cs), seq 1 (k - 1)))
  /\ (forall k,
         1 <= k <= 5 -> (forall j, 1 <= j < k -> reddit j = Scrape.Caught) ->
         reddit k = Scrape.Uncaught ->
         Scrape.fetch_comments reddit limit fuel = Some (None, seq 1 (k - 1)))
  /\ ((forall j, 1 <= j <= 5 -> reddit j = Scrape.Caught) ->
      Scrape.fetch_comments reddit limit fuel = Some (None, [1; 2; 3; 4; 5]))
  /\ (forall sub cs slept,
         0 < limit ->
         Scrape.fetch_comments reddit limit fuel = Some (Some (sub, cs), slept) ->
         length cs <= limit).
Proof.
  intros Hf.
  assert (Hfirst : forall k,
             1 <= k <= 5 -> (forall j, 1 <= j < k -> reddit j = Scrape.Caught) ->
             Scrape.fetch_comments reddit limit fuel
             = match reddit k with
               | Scrape.Answer (sub, cs) =>
                   Some (Some (sub, Scrape.limited limit cs), seq 1 (k - 1))
               | Scrape.Uncaught => Some (None, seq 1 (k - 1))
               | Scrape.Caught =>
                   if 1 + (k - 1) =? 5 then Some (None, seq 1 (S (k - 1)))
                   else Scrape.fetch_comments_loop reddit limit
                          (fuel - S (k - 1)) (1 + S (k - 1)) (seq 1 (S (k - 1)))
               end).
  { intros k Hk Hc. unfold Scrape.fetch_comments.
    rewrite (RetryFacts.fetch_loop_first reddit limit (k - 1) fuel 1 []);
      [|lia|lia|intros j Hj; apply Hc; lia].
    replace (1 + (k - 1)) with k by lia. reflexivity. }
  split; [|split; [|split]].
  - intros k sub cs Hk Hc Ha. rewrite (Hfirst k Hk Hc), Ha. reflexivity.
  - intros k Hk Hc Hu. rewrite (Hfirst k Hk Hc), Hu. reflexivity.
  - intros Hc. rewrite (Hfirst 5); [|lia|intros j Hj; apply Hc; lia].
    rewrite (Hc 5); [reflexivity | lia].
  - intros sub cs slept Hl H. unfold Scrape.fetch_comments in H.
    destruct (RetryFacts.fetch_loop_limited _ _ _ _ _ _ _ _ H) as [k [cs' [_ ->]]].
    apply RetryFacts.limited_length, Hl.
Qed.

Lemma fetch_comments_witness :
  Scrape.fetch_comments flaky_reddit 1 5
  = Some (Some (Scrape.Submission (u "Agents") (u "/r/SaaS/comments/t1/agents/"),
                [stale]), [1; 2]).
Proof.
  apply (proj1 (fetch_comments_attempts flaky_reddit 1 5 (le_n 5)) 3
               (Scrape.Submission (u "Agents") (u "/r/SaaS/comments/t1/agents/"))
               [stale; fresh]).
  - lia.
  - intros j Hj. unfold flaky_reddit.
    destruct (Nat.ltb_spec j 3); [reflexivity | lia].
  - reflexivity.
Defined.

(** When comments with different ids have different permalinks, the
    records of [run_scrape] already carry different URLs: the
    deduplication of [__main__] removes nothing, and the export is the
    sorted list of the records of the run. *)
Theorem deduplication_removes_nothing (ts : list Scrape.thread) :
  (forall x y,
      In x (all_comments ts) -> In y (all_comments ts) ->
      Scrape.c_permalink (snd x) = Scrape.c_permalink (snd y) ->
      Scrape.c_id (snd x) = Scrape.c_id (snd y)) ->
  Scrape.uniq (Scrape.run_scrape ts) = Scrape.run_scrape ts
  /\ Scrape.main ts
     = sorted Scrape.sort_key Scrape.key_compare (Scrape.run_scrape ts).
Proof.
  intros Hinj.
  assert (H : Scrape.uniq (Scrape.run_scrape ts) = Scrape.run_scrape ts).
  { apply DedupFacts.uniq_fixpoint. rewrite DedupFacts.run_scrape_spec.
    apply CrawlFacts.urls_NoDup.
    apply (CrawlFacts.map_NoDup_transfer (fun x => Scrape.c_id (snd x))).
    - intros x y Hx Hy. apply Hinj.
      + apply (CrawlFacts.first_seen_In _ _ _ Hx).
      + apply (CrawlFacts.first_seen_In _ _ _ Hy).
    - apply CrawlFacts.first_seen_NoDup. }
  split; [exact H|]. unfold Scrape.main, Scrape.rank. rewrite H. reflexivity.
Qed.

Lemma deduplication_removes_nothing_witness :
  Scrape.uniq (Scrape.run_scrape scenario4) = Scrape.run_scrape scenario4
  /\ Scrape.main scenario4
     = sorted Scrape.sort_key Scrape.key_compare (Scrape.run_scrape scenario4).
Proof.
  apply (deduplication_removes_nothing scenario4).
  intros x y Hx Hy _. vm_compute in Hx, Hy.
  destruct Hx as [<- | [<- | []]]; destruct Hy as [<- | [<- | []]];
    vm_compute; reflexivity.
Defined.

(** [_stack_points] gives 3 points for each cue of [SERVICE_CUES] that
    occurs in the lowered body and title, up to 15: the cues are distinct,
    so [set(hits)] removes nothing.  A cue that contains another one counts
    for both: where "gpt-4o" occurs, "gpt-4" occurs too, and the two are
    worth at least 6 points. *)
Theorem stack_points_count (body title : str) :
  let merged := lower (body ++ u " " ++ title) in
  Scrape._stack_points body title
  = Z.min 15 (3 * Z.of_nat (length (filter (fun s => isin s merged)
                                           Scrape.SERVICE_CUES)))
  /\ (isin (u "gpt-4o") merged = true -> (6 <= Scrape._stack_points body title)%Z).
Proof.
  intros merged.
  assert (H : Scrape._stack_points body title
              = Z.min 15 (3 * Z.of_nat (length (filter (fun s => isin s merged)
                                                       Scrape.SERVICE_CUES)))).
  { unfold Scrape._stack_points. cbv zeta. fold merged.
    rewrite (StackFacts.distinct_filter _ _ StackFacts.SERVICE_CUES_distinct).
    reflexivity. }
  split; [exact H|]. intros Ho. rewrite H.
  pose proof (StackFacts.isin_trans _ _ _ StackFacts.gpt_4_in_gpt_4o Ho) as H4.
  pose proof (StackFacts.filter_two (fun s => isin s merged) _ _
                (firstn 2 Scrape.SERVICE_CUES) (skipn 4 Scrape.SERVICE_CUES)
                H4 Ho) as H2.
  rewrite <- StackFacts.SERVICE_CUES_gpt in H2. lia.
Qed.

Lemma stack_points_count_witness :
  Scrape._stack_points (u "Built on GPT-4o and n8n") (u "Agents") = 9%Z
  /\ (6 <= Scrape._stack_points (u "Built on GPT-4o and n8n") (u "Agents"))%Z.
Proof.
  split; [vm_compute; reflexivity|].
  apply (stack_points_count (u "Built on GPT-4o and n8n") (u "Agents")).
  vm_compute. reflexivity.
Defined.
